(** * ClaraCore release tooling: a shallow embedding

    The repository ships two release pipelines:
    - [release.py] (the "release manager": builds the target matrix,
      computes SHA-256 digests, creates a GitHub release through PyGithub
      and uploads raw binaries plus [checksums.txt]);
    - [scripts/release.py] (builds three targets, stages and zips each
      one, and talks to the GitHub REST API with [urllib]).

    Both are embedded below, each in a module of its own.  Python values
    are modelled as follows: [str] as [string], [bytes] as [list byte],
    [pathlib.Path] as the list of its components, the file system as a
    finite map from paths to nodes, exceptions as an explicit error type.
    External collaborators (the Go compiler, the GitHub API, [hashlib])
    appear as parameters or as explicit oracles; terminal output
    ([print_colored], [log]) is not part of the model. *)

From Stdlib Require Import ZArith Lia Ascii String.
From stdpp Require Import base tactics option list strings pretty gmap fin_maps.

Local Open Scope string_scope.
#[local] Arguments Ascii.eqb : simpl never.
#[local] Arguments String.eqb : simpl never.

(** ** Python string primitives *)

Module Py.

(** [s.startswith(p)]. *)
Fixpoint startswith (s p : string) {struct p} : bool :=
  match p with
  | EmptyString => true
  | String c p' =>
      match s with
      | EmptyString => false
      | String d s' => Ascii.eqb c d && startswith s' p'
      end
  end.

(** [s[1:]]. *)
Definition tail1 (s : string) : string :=
  match s with
  | EmptyString => EmptyString
  | String _ s' => s'
  end.

(** [s.split(sep)] for a one-character separator: the fields between
    successive occurrences of [sep], empty fields included; the result
    is never empty. *)
Fixpoint split (sep : ascii) (s : string) : list string :=
  match s with
  | EmptyString => [EmptyString]
  | String c s' =>
      if Ascii.eqb c sep then EmptyString :: split sep s'
      else match split sep s' with
           | [] => [String c EmptyString]
           | p :: ps => String c p :: ps
           end
  end.

(** [s.find(sub) != -1]: [sub] occurs somewhere in [s]. *)
Fixpoint contains (s sub : string) : bool :=
  startswith s sub ||
  match s with
  | EmptyString => false
  | String _ s' => contains s' sub
  end.

(** [s.count(c)] for a one-character needle. *)
Fixpoint count (c : ascii) (s : string) : nat :=
  match s with
  | EmptyString => 0
  | String d s' => (if Ascii.eqb d c then 1 else 0) + count c s'
  end.

(** [s.split(sep, 1)[0]] for a one-character separator: what precedes
    the first [sep]. *)
Fixpoint before (sep : ascii) (s : string) : string :=
  match s with
  | EmptyString => EmptyString
  | String c s' => if Ascii.eqb c sep then EmptyString else String c (before sep s')
  end.

(** [s.endswith(suffix)]. *)
Definition endswith (s suffix : string) : bool :=
  let n := String.length s in
  let k := String.length suffix in
  (k <=? n)%nat && String.eqb (String.substring (n - k) k s) suffix.

(** [sep.join(parts)]. *)
Fixpoint join (sep : string) (parts : list string) : string :=
  match parts with
  | [] => EmptyString
  | [p] => p
  | p :: ps => p ++ sep ++ join sep ps
  end.

End Py.

(** ** [release.py]: the tag validator *)

Module Validator.

(** [validate_version(version)]: the ['v'] prefix test, then at least
    two fields after splitting the remainder on ['.']. *)
Definition validate_version (version : string) : bool :=
  if negb (Py.startswith version "v") then false
  else
    let ver := Py.tail1 version in
    let parts := Py.split "." ver in
    if (List.length parts <? 2)%nat then false
    else true.

(** The validator as the specification words it: the prefix character
    followed by at least two dot-separated components, each of them
    numeric or an identifier.  A component is read generously here: any
    non-empty run of letters, digits, ['_'], ['-'] and ['+']. *)
Definition component_char (c : ascii) : bool :=
  let n := Ascii.nat_of_ascii c in
  ((48 <=? n)%nat && (n <=? 57)%nat) || ((65 <=? n)%nat && (n <=? 90)%nat) ||
  ((97 <=? n)%nat && (n <=? 122)%nat) ||
  Ascii.eqb c "_" || Ascii.eqb c "-" || Ascii.eqb c "+".

Definition component_ok (p : string) : bool :=
  negb (String.eqb p "") && forallb component_char (list_ascii_of_string p).

Definition spec_tag_accepts (version : string) : bool :=
  Py.startswith version "v" &&
  let parts := Py.split "." (Py.tail1 version) in
  (2 <=? List.length parts)%nat && forallb component_ok parts.

End Validator.

(** ** [hashlib.sha256]: the hash object the checksum generator drives

    [hashlib] is an external library.  Its SHA-256 object is modelled
    after FIPS 180-4: 32-bit words are integers reduced modulo [2^32],
    the object keeps the chaining value, the bytes of the block that is
    not yet full, and the number of bytes absorbed so far. *)

Module SHA256.

Local Open Scope Z_scope.

Definition wrap (x : Z) : Z := x mod 2 ^ 32.
Definition add32 (x y : Z) : Z := wrap (x + y).
Definition rotr (n x : Z) : Z :=
  wrap (Z.lor (Z.shiftr x n) (Z.shiftl x (32 - n))).
Definition shr (n x : Z) : Z := Z.shiftr x n.
Definition not32 (x : Z) : Z := Z.lxor x (2 ^ 32 - 1).

Definition Ch (x y z : Z) : Z := Z.lxor (Z.land x y) (Z.land (not32 x) z).
Definition Maj (x y z : Z) : Z :=
  Z.lxor (Z.lxor (Z.land x y) (Z.land x z)) (Z.land y z).
Definition Sigma0 (x : Z) : Z := Z.lxor (Z.lxor (rotr 2 x) (rotr 13 x)) (rotr 22 x).
Definition Sigma1 (x : Z) : Z := Z.lxor (Z.lxor (rotr 6 x) (rotr 11 x)) (rotr 25 x).
Definition sigma0 (x : Z) : Z := Z.lxor (Z.lxor (rotr 7 x) (rotr 18 x)) (shr 3 x).
Definition sigma1 (x : Z) : Z := Z.lxor (Z.lxor (rotr 17 x) (rotr 19 x)) (shr 10 x).

(** The round constants, eight to a row. *)
Definition K : list Z :=
  concat
    [ [0x428a2f98; 0x71374491; 0xb5c0fbcf; 0xe9b5dba5;
       0x3956c25b; 0x59f111f1; 0x923f82a4; 0xab1c5ed5];
      [0xd807aa98; 0x12835b01; 0x243185be; 0x550c7dc3;
       0x72be5d74; 0x80deb1fe; 0x9bdc06a7; 0xc19bf174];
      [0xe49b69c1; 0xefbe4786; 0x0fc19dc6; 0x240ca1cc;
       0x2de92c6f; 0x4a7484aa; 0x5cb0a9dc; 0x76f988da];
      [0x983e5152; 0xa831c66d; 0xb00327c8; 0xbf597fc7;
       0xc6e00bf3; 0xd5a79147; 0x06ca6351; 0x14292967];
      [0x27b70a85; 0x2e1b2138; 0x4d2c6dfc; 0x53380d13;
       0x650a7354; 0x766a0abb; 0x81c2c92e; 0x92722c85];
      [0xa2bfe8a1; 0xa81a664b; 0xc24b8b70; 0xc76c51a3;
       0xd192e819; 0xd6990624; 0xf40e3585; 0x106aa070];
      [0x19a4c116; 0x1e376c08; 0x2748774c; 0x34b0bcb5;
       0x391c0cb3; 0x4ed8aa4a; 0x5b9cca4f; 0x682e6ff3];
      [0x748f82ee; 0x78a5636f; 0x84c87814; 0x8cc70208;
       0x90befffa; 0xa4506ceb; 0xbef9a3f7; 0xc67178f2] ].

(** The chaining value: eight 32-bit words. *)
Record chain := Chain { ha : Z; hb : Z; hc : Z; hd : Z; he : Z; hf : Z; hg : Z; hh : Z }.

Definition H0 : chain :=
  Chain 0x6a09e667 0xbb67ae85 0x3c6ef372 0xa54ff53a
        0x510e527f 0x9b05688c 0x1f83d9ab 0x5be0cd19.

Definition byteZ (b : Byte.byte) : Z := Z.of_N (Byte.to_N b).

Definition zbyte (z : Z) : Byte.byte :=
  match Byte.of_N (Z.to_N (z mod 256)) with
  | Some b => b
  | None => Byte.x00
  end.

(** Big-endian words of a block. *)
Fixpoint words_of (bs : list Byte.byte) : list Z :=
  match bs with
  | b0 :: b1 :: b2 :: b3 :: rest =>
      (byteZ b0 * 2 ^ 24 + byteZ b1 * 2 ^ 16 + byteZ b2 * 2 ^ 8 + byteZ b3)
        :: words_of rest
  | _ => []
  end.

(** The message schedule, grown one word at a time up to 64 words. *)
Fixpoint schedule (n : nat) (w : list Z) : list Z :=
  match n with
  | O => w
  | S n' =>
      let t := List.length w in
      let wt :=
        add32 (add32 (sigma1 (nth (t - 2) w 0)) (nth (t - 7) w 0))
              (add32 (sigma0 (nth (t - 15) w 0)) (nth (t - 16) w 0)) in
      schedule n' (w ++ [wt])
  end.

Definition round (s : chain) (kw : Z * Z) : chain :=
  let '(k, w) := kw in
  let t1 := add32 (add32 (add32 (hh s) (Sigma1 (he s))) (Ch (he s) (hf s) (hg s)))
                  (add32 k w) in
  let t2 := add32 (Sigma0 (ha s)) (Maj (ha s) (hb s) (hc s)) in
  Chain (add32 t1 t2) (ha s) (hb s) (hc s) (add32 (hd s) t1) (he s) (hf s) (hg s).

(** The compression function on one 64-byte block. *)
Definition process_block (h : chain) (block : list Byte.byte) : chain :=
  let w := schedule 48 (words_of block) in
  let s := fold_left round (combine K w) h in
  Chain (add32 (ha h) (ha s)) (add32 (hb h) (hb s)) (add32 (hc h) (hc s))
        (add32 (hd h) (hd s)) (add32 (he h) (he s)) (add32 (hf h) (hf s))
        (add32 (hg h) (hg s)) (add32 (hh h) (hh s)).

(** Big-endian bytes of the low [8 * n] bits of [z]. *)
Fixpoint be_bytes (n : nat) (z : Z) : list Byte.byte :=
  match n with
  | O => []
  | S n' => zbyte (Z.shiftr z (8 * Z.of_nat n')) :: be_bytes n' z
  end.

(** The padding that follows a message of [n] bytes: the byte [0x80],
    zero bytes up to 56 modulo 64, and the bit length on 64 bits. *)
Definition padding (n : nat) : list Byte.byte :=
  Byte.x80 :: repeat Byte.x00 ((64 - (n + 9) mod 64) mod 64)%nat
    ++ be_bytes 8 (8 * Z.of_nat n).

(** Compress the successive 64-byte blocks of [l]. *)
Fixpoint hash_blocks (fuel : nat) (h : chain) (l : list Byte.byte) : chain :=
  match fuel with
  | O => h
  | S fuel' =>
      match l with
      | [] => h
      | _ => hash_blocks fuel' (process_block h (take 64 l)) (drop 64 l)
      end
  end.

Definition chain_bytes (h : chain) : list Byte.byte :=
  be_bytes 4 (ha h) ++ be_bytes 4 (hb h) ++ be_bytes 4 (hc h) ++ be_bytes 4 (hd h)
  ++ be_bytes 4 (he h) ++ be_bytes 4 (hf h) ++ be_bytes 4 (hg h) ++ be_bytes 4 (hh h).

(** The one-shot reference: pad the whole message, compress block by
    block, serialise the chaining value. *)
Definition sha256 (msg : list Byte.byte) : list Byte.byte :=
  let padded := (msg ++ padding (List.length msg))%list in
  chain_bytes (hash_blocks (List.length padded) H0 padded).

(** Lowercase hexadecimal. *)
Definition hex_digit (n : Z) : ascii :=
  ascii_of_nat (Z.to_nat (if n <? 10 then 48 + n else 87 + n)).

Fixpoint hex (bs : list Byte.byte) : string :=
  match bs with
  | [] => EmptyString
  | b :: bs' =>
      String (hex_digit (byteZ b / 16)) (String (hex_digit (byteZ b mod 16)) (hex bs'))
  end.

(** The hash object: [hashlib.sha256()], [.update(data)], [.hexdigest()]. *)
Record hasher := Hasher { h_chain : chain; h_buf : list Byte.byte; h_total : nat }.

Definition new : hasher := Hasher H0 [] 0.

(** Absorb bytes one at a time; a block is compressed as soon as the
    buffer holds 64 bytes. *)
Fixpoint feed (h : chain) (buf data : list Byte.byte) : chain * list Byte.byte :=
  match data with
  | [] => (h, buf)
  | b :: data' =>
      let buf' := (buf ++ [b])%list in
      if (List.length buf' =? 64)%nat then feed (process_block h buf') [] data'
      else feed h buf' data'
  end.

Definition update (s : hasher) (data : list Byte.byte) : hasher :=
  let '(h, buf) := feed (h_chain s) (h_buf s) data in
  Hasher h buf (h_total s + List.length data)%nat.

Definition digest (s : hasher) : list Byte.byte :=
  let tail := (h_buf s ++ padding (h_total s))%list in
  chain_bytes (hash_blocks (List.length tail) (h_chain s) tail).

Definition hexdigest (s : hasher) : string := hex (digest s).

End SHA256.

(** The characters a lowercase hexadecimal digest is made of. *)
Definition lower_hex_char (c : ascii) : bool :=
  Py.contains "0123456789abcdef" (String c EmptyString).

(** ** The file system

    A [pathlib.Path] is the list of its components; the file system is a
    finite map from paths to nodes.  Modification times and permissions
    are not modelled. *)

Module FS.

Abbreviation path := (list string).

Inductive node := File (content : list Byte.byte) | Dir.

(** [p.exists()]. *)
Definition exists_ (m : gmap path node) (p : path) : bool :=
  match m !! p with Some _ => true | None => false end.

(** [p.name]: the last component. *)
Definition name (p : path) : string := List.last p "".

(** [shutil.rmtree(d)]: [d] and everything below it disappear. *)
Definition rmtree (d : path) (m : gmap path node) : gmap path node :=
  filter (fun kv => ~ d `prefix_of` kv.1) m.

(** The ancestors of [p], nearest last, [p] itself excluded, the empty
    path (the root) excluded. *)
Fixpoint ancestors_from (base : path) (rest : path) : list path :=
  match rest with
  | [] => []
  | c :: rest' =>
      match rest' with
      | [] => []
      | _ => (base ++ [c])%list :: ancestors_from (base ++ [c])%list rest'
      end
  end.

Definition ancestors (p : path) : list path := ancestors_from [] p.

Definition is_file (m : gmap path node) (p : path) : bool :=
  match m !! p with Some (File _) => true | _ => false end.

(** Insert [Dir] at every path of [ds]. *)
Definition mkdirs (ds : list path) (m : gmap path node) : gmap path node :=
  foldr (fun d acc => <[d := Dir]> acc) m ds.

(** The entries strictly below [d], with paths relative to [d]. *)
Definition below (d : path) (m : gmap path node) : gmap path node :=
  filter (fun kv => d `prefix_of` kv.1 /\ kv.1 <> d) m.

(** Every entry sits in directories. *)
Definition wf (m : gmap path node) : Prop :=
  forall p, is_Some (m !! p) -> forall a, In a (ancestors p) -> m !! a = Some Dir.

Definition listing (d : path) (m : gmap path node) : list (path * node) :=
  (fun kv => (drop (List.length d) kv.1, kv.2)) <$> map_to_list (below d m).

(** [str(p)] for an absolute path, in the POSIX spelling. *)
Definition render (p : path) : string := "/" ++ Py.join "/" p.

(** [wf], as a test. *)
Definition wf_check (m : gmap path node) : bool :=
  forallb (fun kv =>
             forallb (fun a => match m !! a with Some Dir => true | _ => false end)
                     (ancestors kv.1))
          (map_to_list m).

End FS.

(** ** Exceptions and the state-and-exception monad *)

Inductive exn :=
| SystemExit (code : Z) (msg : string)
| OSError (what : string)
| HTTPError (code : Z) (text : string)
| URLError (reason : string)
| GithubException (status : Z) (msg : string)
| TypeError (what : string)
| UnicodeDecodeError (what : string).

Inductive result (A : Type) :=
| Ok (a : A)
| Raise (e : exn).
Arguments Ok {A} a.
Arguments Raise {A} e.

(** A computation over a world [W]: it returns or raises, and leaves a
    world behind either way. *)
Definition M (W A : Type) : Type := W -> result A * W.

Definition ret {W A} (a : A) : M W A := fun w => (Ok a, w).
Definition raise {W A} (e : exn) : M W A := fun w => (Raise e, w).
Definition bind {W A B} (m : M W A) (k : A -> M W B) : M W B :=
  fun w => match m w with
           | (Ok a, w') => k a w'
           | (Raise e, w') => (Raise e, w')
           end.
Definition get {W} : M W W := fun w => (Ok w, w).
Definition modify {W} (f : W -> W) : M W unit := fun w => (Ok tt, f w).

Notation "'let*' x ':=' m 'in' k" := (bind m (fun x => k))
  (at level 10, x binder, m at level 200, k at level 200).

(** [for x in xs: body(x)]: the first exception ends the loop. *)
Fixpoint for_each {W A} (body : A -> M W unit) (xs : list A) : M W unit :=
  match xs with
  | [] => ret tt
  | x :: xs' => let* _ := body x in for_each body xs'
  end.

Definition is_ok {A} (r : result A) : bool :=
  match r with Ok _ => true | Raise _ => false end.

(** The status the process ends with: 0 on a normal return, the code of
    [SystemExit], 1 for an exception nobody caught. *)
Definition exit_status {A} (r : result A) : Z :=
  match r with
  | Ok _ => 0
  | Raise (SystemExit code _) => code
  | Raise _ => 1
  end%Z.

(** What one run of a command such as the Go compiler does: its return
    code and the output file it wrote, if any. *)
Record build_outcome := BuildOutcome {
  returncode : Z;
  wrote : option (list Byte.byte)
}.

(** [returncode == 0]. *)
Definition exit_ok (o : build_outcome) : bool := (returncode o =? 0)%Z.

Definition nl : string := String (ascii_of_nat 10) EmptyString.

(** *** File-system operations that can raise *)

Module FSOps.
Import FS.

(** [shutil.rmtree(d)] guarded by [d.exists()], as both pipelines call
    it: nothing happens when [d] is absent, a plain file makes
    [rmtree] raise. *)
Definition remove_if_exists (d : path) (m : gmap path node) : result (gmap path node) :=
  match m !! d with
  | None => Ok m
  | Some Dir => Ok (rmtree d m)
  | Some (File _) => Raise (OSError "NotADirectoryError")
  end.

(** [d.mkdir(parents=True, exist_ok=...)]. *)
Definition mkdir_parents (exist_ok : bool) (d : path) (m : gmap path node)
  : result (gmap path node) :=
  if existsb (is_file m) (ancestors d) then Raise (OSError "NotADirectoryError")
  else match m !! d with
       | Some Dir => if exist_ok then Ok m else Raise (OSError "FileExistsError")
       | Some (File _) => Raise (OSError "FileExistsError")
       | None => Ok (<[d := Dir]> (mkdirs (ancestors d) m))
       end.

(** [p.read_bytes()], [open(p, "rb")]. *)
Definition read_bytes (p : path) (m : gmap path node) : result (list Byte.byte) :=
  match m !! p with
  | Some (File c) => Ok c
  | Some Dir => Raise (OSError "IsADirectoryError")
  | None => Raise (OSError "FileNotFoundError")
  end.

(** [p.write_text(...)], [p.write_bytes(...)]: the parent directory must
    exist. *)
Definition write_bytes (p : path) (c : list Byte.byte) (m : gmap path node)
  : result (gmap path node) :=
  match m !! p with
  | Some Dir => Raise (OSError "IsADirectoryError")
  | _ =>
      match removelast p with
      | [] => Ok (<[p := File c]> m)
      | parent =>
          match m !! parent with
          | Some Dir => Ok (<[p := File c]> m)
          | Some (File _) => Raise (OSError "NotADirectoryError")
          | None => Raise (OSError "FileNotFoundError")
          end
      end
  end.

(** [shutil.copy2(src, dst)]: into [dst] when it is a directory, over
    [dst] otherwise. *)
Definition copy2 (src dst : path) (m : gmap path node) : result (gmap path node) :=
  match m !! src with
  | Some (File c) =>
      match m !! dst with
      | Some Dir => Ok (<[(dst ++ [name src])%list := File c]> m)
      | _ => Ok (<[dst := File c]> m)
      end
  | Some Dir => Raise (OSError "IsADirectoryError")
  | None => Raise (OSError "FileNotFoundError")
  end.

(** [p.unlink()] guarded by [p.exists()]. *)
Definition unlink_if_exists (p : path) (m : gmap path node) : result (gmap path node) :=
  match m !! p with
  | None => Ok m
  | Some (File _) => Ok (delete p m)
  | Some Dir => Raise (OSError "IsADirectoryError")
  end.

End FSOps.

(** *** The world a pipeline runs in *)

(** [B] is what a compiler invocation is recorded as, [Q] a request to
    the hosting API, [R] the state of the hosting service. *)
Record world (B Q R : Type) := World {
  w_fs : gmap FS.path FS.node;
  w_builds : list B;
  w_sent : list Q;
  w_remote : R
}.
Arguments World {B Q R} _ _ _ _.
Arguments w_fs {B Q R} _.
Arguments w_builds {B Q R} _.
Arguments w_sent {B Q R} _.
Arguments w_remote {B Q R} _.

Section World.
Context {B Q R A : Type}.

(** Run a file-system operation on the world's file system. *)
Definition fs_update (f : gmap FS.path FS.node -> result (gmap FS.path FS.node))
  : M (world B Q R) unit :=
  fun w => match f (w_fs w) with
           | Ok m => (Ok tt, World m (w_builds w) (w_sent w) (w_remote w))
           | Raise e => (Raise e, w)
           end.

Definition fs_query {X} (f : gmap FS.path FS.node -> result X) : M (world B Q R) X :=
  fun w => (f (w_fs w), w).

(** Send one request: it is recorded, the service answers and moves on. *)
Definition send (api : Q -> R -> A * R) (q : Q) : M (world B Q R) A :=
  fun w => let '(a, r) := api q (w_remote w) in
           (Ok a, World (w_fs w) (w_builds w) (w_sent w ++ [q]) r).

(** Record one compiler invocation. *)
Definition log_build (b : B) : M (world B Q R) unit :=
  modify (fun w => World (w_fs w) (w_builds w ++ [b]) (w_sent w) (w_remote w)).

(** [try: m  except Exception: handler]: [SystemExit] is not an
    [Exception] and passes through. *)
Definition try_except {X} (m : M (world B Q R) X) (handler : exn -> M (world B Q R) X)
  : M (world B Q R) X :=
  fun w => match m w with
           | (Ok x, w') => (Ok x, w')
           | (Raise (SystemExit c msg), w') => (Raise (SystemExit c msg), w')
           | (Raise e, w') => handler e w'
           end.

(** The answers of the service to a sequence of requests. *)
Fixpoint serve (api : Q -> R -> A * R) (qs : list Q) (r : R) : list A :=
  match qs with
  | [] => []
  | q :: qs' => let '(a, r') := api q r in a :: serve api qs' r'
  end.

(** The state of the service once it has answered them. *)
Fixpoint serve_state (api : Q -> R -> A * R) (qs : list Q) (r : R) : R :=
  match qs with
  | [] => r
  | q :: qs' => serve_state api qs' (snd (api q r))
  end.

(** The world after the requests [qs] were sent and answered. *)
Definition after (api : Q -> R -> A * R) (qs : list Q) (w : world B Q R)
  : world B Q R :=
  World (w_fs w) (w_builds w) (w_sent w ++ qs)%list (serve_state api qs (w_remote w)).

End World.

(** A computation that leaves what was sent so far in place: it can
    only add requests. *)
Definition extends {B Q R A} (m : M (world B Q R) A) : Prop :=
  forall w, exists l, w_sent (snd (m w)) = (w_sent w ++ l)%list.

(** A computation that keeps a relation between the world before and
    the world after. *)
Definition preserves {B Q R A} (I : world B Q R -> world B Q R -> Prop)
    (m : M (world B Q R) A) : Prop :=
  forall w, I w (snd (m w)).

(** The exceptions [except Exception] catches: all but [SystemExit]. *)
Definition caught (e : exn) : bool :=
  match e with SystemExit _ _ => false | _ => true end.

(** A computation that raises nothing but exceptions of a given kind. *)
Definition raises_only {W A} (P : exn -> Prop) (m : M W A) : Prop :=
  forall w e, fst (m w) = Raise e -> P e.

(** A test double for the hosting service: it answers with the canned
    responses in turn, and with [dflt] once they are used up. *)
Definition scripted {Q A : Type} (dflt : A) (q : Q) (canned : list A) : A * list A :=
  match canned with
  | [] => (dflt, [])
  | a :: rest => (a, rest)
  end.

Definition encode (s : string) : list Byte.byte :=
  map byte_of_ascii (list_ascii_of_string s).

(** ** [release.py]: the checksum generator *)

Module Checksum.

(** A file opened with [open(filepath, "rb")]: its bytes and the read
    position. *)
Record file_obj := FileObj { f_data : list Byte.byte; f_pos : nat }.

(** [f.read(n)]: up to [n] bytes from the position, which advances. *)
Definition read (n : nat) (f : file_obj) : list Byte.byte * file_obj :=
  let chunk := take n (drop (f_pos f) (f_data f)) in
  (chunk, FileObj (f_data f) (f_pos f + List.length chunk)).

(** [for byte_block in iter(lambda: f.read(4096), b""): update(byte_block)]:
    the loop ends at the first empty read. *)
Fixpoint read_loop (fuel : nat) (f : file_obj) (acc : SHA256.hasher) : SHA256.hasher :=
  match fuel with
  | O => acc
  | S fuel' =>
      let '(byte_block, f') := read 4096 f in
      match byte_block with
      | [] => acc
      | _ => read_loop fuel' f' (SHA256.update acc byte_block)
      end
  end.

(** [calculate_sha256(filepath)]. *)
Definition calculate_sha256 (m : gmap FS.path FS.node) (filepath : FS.path)
  : result string :=
  match m !! filepath with
  | Some (FS.File content) =>
      let sha256_hash := SHA256.new in
      let sha256_hash :=
        read_loop (S (List.length content)) (FileObj content 0) sha256_hash in
      Ok (SHA256.hexdigest sha256_hash)
  | Some FS.Dir => Raise (OSError "IsADirectoryError")
  | None => Raise (OSError "FileNotFoundError")
  end.

End Checksum.

(** ** [release.py]: the release manager *)

Module Release.

Definition REPO_OWNER : string := "claraverse-space".
Definition REPO_NAME : string := "ClaraCore".
Definition BUILD_DIR : string := "dist".

Record BuildTarget := Target {
  goos : string;
  goarch : string;
  filename : string;
  description : string
}.

Definition BUILD_TARGETS : list BuildTarget :=
  [ Target "linux" "amd64" "claracore-linux-amd64" "Linux x64";
    Target "linux" "arm64" "claracore-linux-arm64" "Linux ARM64";
    Target "darwin" "amd64" "claracore-darwin-amd64" "macOS Intel";
    Target "darwin" "arm64" "claracore-darwin-arm64" "macOS Apple Silicon";
    Target "windows" "amd64" "claracore-windows-amd64.exe" "Windows x64" ].

(** One entry of [built_binaries].  [size] is kept as the byte count;
    [get_file_size] only formats it. *)
Record binary_info := BinaryInfo {
  target : BuildTarget;
  path : FS.path;
  size : nat;
  sha256 : string
}.

(** The calls made through PyGithub. *)
Inductive call :=
| GetRepo (full_name : string)
| CreateGitRelease (tag name message : string) (draft prerelease : bool)
| UploadAsset (name content_type : string) (data : list Byte.byte).

(** What the machine and the operator provide. *)
Record host := Host {
  go_build : BuildTarget -> build_outcome;
  (** what [signtool] leaves in a Windows binary; the identity when no
      certificate or tool is configured or signing fails *)
  signtool : list Byte.byte -> list Byte.byte;
  prerequisites : bool;
  (** [generate_release_notes], a pure formatter *)
  release_notes : string -> list binary_info -> string;
  (** whether [Path.read_text()] can decode these bytes in the host's
      preferred encoding; it raises [UnicodeDecodeError] when it cannot *)
  text_decodes : list Byte.byte -> bool
}.

Inductive token_arg := Token (t : string) | TokenFile (f : FS.path).

Record args := Args {
  version : string;
  token : token_arg;
  draft : bool;
  build_only : bool
}.

(** The prerelease flag [create_github_release] computes. *)
Definition prerelease_of (version : string) : bool :=
  Py.contains version "alpha" || Py.contains version "beta" || Py.contains version "rc".

Definition checksum_line (binary : binary_info) : string :=
  sha256 binary ++ "  " ++ filename (target binary) ++ nl.

(** [checksums_content] as [create_github_release] builds it. *)
Definition checksums_content (version : string) (binaries : list binary_info) : string :=
  fold_left (fun acc binary => acc ++ checksum_line binary) binaries
            ("# SHA256 Checksums for ClaraCore " ++ version ++ nl ++ nl).

(** The manifest as the specification words it: one line per artifact,
    digest, two spaces, file name, and nothing else. *)
Definition spec_manifest (binaries : list binary_info) : string :=
  fold_left (fun acc binary => acc ++ checksum_line binary) binaries "".

(** What the compiler run of a target counts as: a success is a zero
    exit status together with an output file. *)
Definition compiled (h : host) (t : BuildTarget) : bool :=
  exit_ok (go_build h t) &&
  match wrote (go_build h t) with Some _ => true | None => false end.

(** The bytes a successful target leaves on disk, after signing. *)
Definition final_content (h : host) (t : BuildTarget) (b : list Byte.byte)
  : list Byte.byte :=
  if String.eqb (goos t) "windows" && Py.endswith (filename t) ".exe"
  then signtool h b else b.

(** The bytes the output file of a target holds once the loop body is
    through with it. *)
Definition artifact_bytes (h : host) (t : BuildTarget) : list Byte.byte :=
  match wrote (go_build h t) with
  | Some b => final_content h t b
  | None => []
  end.

(** The [binary_info] a successful target is recorded with. *)
Definition artifact (h : host) (build_path : FS.path) (t : BuildTarget)
  : option binary_info :=
  if compiled h t
  then Some (BinaryInfo t (build_path ++ [filename t])%list
                        (List.length (artifact_bytes h t))
                        (SHA256.hex (SHA256.sha256 (artifact_bytes h t))))
  else None.

(** Every binary of the list is a file on disk. *)
Definition all_files (m : gmap FS.path FS.node) (binaries : list binary_info) : Prop :=
  forall b, b ∈ binaries -> exists c, m !! path b = Some (FS.File c).

(** The upload request a built binary gives rise to. *)
Definition upload_call (m : gmap FS.path FS.node) (binary : binary_info) : call :=
  UploadAsset (filename (target binary)) "application/octet-stream"
    (match m !! path binary with Some (FS.File c) => c | _ => [] end).

Definition manifest_call (version : string) (binaries : list binary_info) : call :=
  UploadAsset "checksums.txt" "text/plain" (encode (checksums_content version binaries)).

(** The calls of a publication in which nothing fails. *)
Definition release_calls (h : host) (version : string) (draft : bool)
    (binaries : list binary_info) (m : gmap FS.path FS.node) : list call :=
  ([ GetRepo (REPO_OWNER ++ "/" ++ REPO_NAME);
     CreateGitRelease version ("ClaraCore " ++ version)
       (release_notes h version binaries) draft (prerelease_of version) ]
   ++ map (upload_call m) binaries
   ++ [ manifest_call version binaries ])%list.

(** The same calls, with the uploaded bytes read off the compiler's
    output rather than off the disk. *)
Definition built_upload (h : host) (binary : binary_info) : call :=
  UploadAsset (filename (target binary)) "application/octet-stream"
    (artifact_bytes h (target binary)).

Definition published (h : host) (version : string) (draft : bool)
    (binaries : list binary_info) : list call :=
  ([ GetRepo (REPO_OWNER ++ "/" ++ REPO_NAME);
     CreateGitRelease version ("ClaraCore " ++ version)
       (release_notes h version binaries) draft (prerelease_of version) ]
   ++ map (built_upload h) binaries
   ++ [ manifest_call version binaries ])%list.

(** [main] gets hold of a token: a non-empty one is given on the command
    line, or the token file is a regular file whose bytes decode. *)
Definition token_available (h : host) (m : gmap FS.path FS.node) (a : args) : bool :=
  match token a with
  | Token t => negb (String.eqb t "")
  | TokenFile f =>
      match m !! f with
      | Some (FS.File c) => text_decodes h c
      | _ => false
      end
  end.

Section Pipeline.
Context {R : Type}.
Variable h : host.
Variable api : call -> R -> result unit * R.

Local Abbreviation W := (world BuildTarget call R).

(** One PyGithub call; a failed call raises. *)
Definition github (c : call) : M W unit :=
  let* r := send api c in
  match r with
  | Ok _ => ret tt
  | Raise e => raise e
  end.

(** [run_command(cmd, env=env)] for the [go build] of one target: the
    compiler runs, may write the output file, and its exit status comes
    back as a boolean; nothing is raised. *)
Definition run_command (t : BuildTarget) (output_path : FS.path) : M W bool :=
  let* _ := log_build t in
  let o := go_build h t in
  let* _ := fs_update (fun m => Ok (match wrote o with
                                    | Some b => <[output_path := FS.File b]> m
                                    | None => m
                                    end)) in
  ret (exit_ok o).

(** [sign_windows_binary(binary_path)]: best effort, never an error. *)
Definition sign_windows_binary (binary_path : FS.path) : M W unit :=
  fs_update (fun m => Ok (match m !! binary_path with
                          | Some (FS.File c) =>
                              if Py.endswith (FS.name binary_path) ".exe"
                              then <[binary_path := FS.File (signtool h c)]> m
                              else m
                          | _ => m
                          end)).

Definition get_file_size (p : FS.path) : M W nat :=
  fs_query (fun m => match m !! p with
                     | Some (FS.File c) => Ok (List.length c)
                     | Some FS.Dir => Ok 0
                     | None => Raise (OSError "FileNotFoundError")
                     end).

(** The body of the [for target in BUILD_TARGETS] loop: [None] stands
    for [continue]. *)
Definition build_one (build_path : FS.path) (t : BuildTarget) : M W (option binary_info) :=
  let output_path := (build_path ++ [filename t])%list in
  let* success := run_command t output_path in
  if negb success then ret None
  else
    let* w := get in
    if negb (FS.exists_ (w_fs w) output_path) then ret None
    else
      let* _ := (if String.eqb (goos t) "windows"
                 then sign_windows_binary output_path else ret tt) in
      let* file_size := get_file_size output_path in
      let* sha := fs_query (fun m => Checksum.calculate_sha256 m output_path) in
      ret (Some (BinaryInfo t output_path file_size sha)).

Fixpoint build_loop (build_path : FS.path) (targets : list BuildTarget)
    (built_binaries : list binary_info) : M W (list binary_info) :=
  match targets with
  | [] => ret built_binaries
  | t :: targets' =>
      let* r := build_one build_path t in
      build_loop build_path targets'
        (match r with
         | Some binary => (built_binaries ++ [binary])%list
         | None => built_binaries
         end)
  end.

(** [build_binaries(version)] over a list of targets.  The Windows
    resource step touches only [claracore_windows.syso] and is left out. *)
Definition build_binaries_of (targets : list BuildTarget) (version : string)
  : M W (list binary_info) :=
  let build_path : FS.path := [BUILD_DIR] in
  let* _ := fs_update (FSOps.remove_if_exists build_path) in
  let* _ := fs_update (FSOps.mkdir_parents true build_path) in
  build_loop build_path targets [].

Definition build_binaries : string -> M W (list binary_info) :=
  build_binaries_of BUILD_TARGETS.

Definition upload_binary (binary : binary_info) : M W unit :=
  let* data := fs_query (FSOps.read_bytes (path binary)) in
  github (UploadAsset (filename (target binary)) "application/octet-stream" data).

(** The reminder printed for the first Windows binary recomputes its
    digest. *)
Fixpoint defender_reminder (binaries : list binary_info) : M W unit :=
  match binaries with
  | [] => ret tt
  | binary :: rest =>
      if String.eqb (goos (target binary)) "windows"
      then let* _ := fs_query (fun m => Checksum.calculate_sha256 m (path binary)) in
           ret tt
      else defender_reminder rest
  end.

(** [create_github_release(token, version, binaries, draft)]. *)
Definition create_github_release (version : string) (binaries : list binary_info)
    (draft : bool) : M W bool :=
  try_except
    (let* _ := github (GetRepo (REPO_OWNER ++ "/" ++ REPO_NAME)) in
     let notes := release_notes h version binaries in
     let* _ := github (CreateGitRelease version ("ClaraCore " ++ version) notes
                         draft (prerelease_of version)) in
     let* _ := for_each upload_binary binaries in
     let content := checksums_content version binaries in
     let checksums_path : FS.path := [BUILD_DIR; "checksums.txt"] in
     let* _ := fs_update (FSOps.write_bytes checksums_path (encode content)) in
     let* data := fs_query (FSOps.read_bytes checksums_path) in
     let* _ := github (UploadAsset "checksums.txt" "text/plain" data) in
     let* _ := defender_reminder binaries in
     ret true)
    (fun _ => ret false).

(** [main()] over a list of targets; the exit status is read off the
    result with [exit_status]. *)
Definition main_of (targets : list BuildTarget) (a : args) : M W unit :=
  if negb (Validator.validate_version (version a)) then raise (SystemExit 1 "")
  else if negb (prerequisites h) then raise (SystemExit 1 "")
  else
    let* _ := (match token a with
               | Token t =>
                   (* [if args.token:] is false for the empty string, and
                      [Path(args.token_file)] is then [Path(None)] *)
                   if String.eqb t "" then raise (TypeError "Path(None)") else ret tt
               | TokenFile f =>
                   let* w := get in
                   if negb (FS.exists_ (w_fs w) f) then raise (SystemExit 1 "")
                   else let* data := fs_query (FSOps.read_bytes f) in
                        if text_decodes h data then ret tt
                        else raise (UnicodeDecodeError "read_text")
               end) in
    try_except
      (let* binaries := build_binaries_of targets (version a) in
       match binaries with
       | [] => raise (SystemExit 1 "")
       | _ =>
           if build_only a then ret tt
           else
             let* success := create_github_release (version a) binaries (draft a) in
             if success then ret tt else raise (SystemExit 1 "")
       end)
      (fun _ => raise (SystemExit 1 "")).

Definition main : args -> M W unit := main_of BUILD_TARGETS.

End Pipeline.

(** What [create_github_release] may change of the world besides the
    requests sent and the state of the service: [checksums.txt]. *)
Definition publish_frame {R} (w w' : world BuildTarget call R) : Prop :=
  w_builds w' = w_builds w /\
  forall p, p <> [BUILD_DIR; "checksums.txt"] -> w_fs w' !! p = w_fs w !! p.

End Release.

(** ** [scripts/release.py]: the zip-and-publish script *)

Module Scripts.

Inductive method := GET | POST.

(** The JSON body of the create-release request. *)
Record payload := Payload {
  tag_name : string;
  name : string;
  body : string;
  draft : bool;
  prerelease : bool;
  target_commitish : string
}.

Inductive req_body :=
| NoBody
| JsonBody (p : payload)
| RawBody (data : list Byte.byte).

Record request := Request {
  rq_method : method;
  rq_url : string;
  rq_body : req_body
}.

(** What [urlopen] meets: a 2xx answer with its JSON object, an HTTP
    error status ([HTTPError]), or no answer at all ([URLError]). *)
Inductive response :=
| Resp2xx (json : gmap string string)
| RespError (code : Z) (text : string)
| NoResponse (reason : string).

Record host := Host {
  ROOT : FS.path;
  go_build : string -> string -> build_outcome;
  go_found : bool;
  (** the return codes of [npm install] and [npm run build]; what npm
      writes is not tracked, [proxy/ui_dist] is looked for in the file
      system as it stands *)
  npm_install : Z;
  npm_build : Z;
  (** stdout of [git rev-parse HEAD], stripped *)
  git_head : string;
  (** [get_repo_slug()] *)
  repo_slug : option string;
  (** [GITHUB_TOKEN] or [GH_TOKEN] *)
  env_token : option string;
  (** [urllib.parse.quote] and [urlencode({'name': ...})] *)
  quote : string -> string;
  urlencode_name : string -> string;
  (** the archiver: the bytes of the zip made of a directory listing *)
  zip_encode : list (FS.path * FS.node) -> list Byte.byte;
  (** [json.dumps] of a release object *)
  json_dumps : gmap string string -> string
}.

Record args := Args {
  a_tag : string;
  a_name : string;
  a_notes : string;
  a_draft : bool;
  a_prerelease : bool;
  a_skip_upload : bool;
  a_repo : string
}.

Definition TARGETS : list (string * string) :=
  [ ("darwin", "arm64"); ("windows", "amd64"); ("linux", "amd64") ].

Definition AUX_FILES : list string := [ "README.md"; "LICENSE.md"; "config.example.yaml" ].

(** The message of [run] for a command that fails. *)
Definition command_failed (code : Z) (cmd : string) : string :=
  "Command failed (" ++ pretty code ++ "): " ++ cmd.

(** [x or y] on strings. *)
Definition str_or (x y : string) : string := if String.eqb x "" then y else x.

Section Pipeline.
Context {R : Type}.
Variable h : host.
Variable api : request -> R -> response * R.

Local Abbreviation W := (world (string * string) request R).

Definition DIST : FS.path := (ROOT h ++ ["dist"])%list.

(** [run(f"go build -o {out_path} .", cwd=ROOT, env=env)]: a failing
    command raises [SystemExit]. *)
Definition run_go_build (goos goarch : string) (out_path : FS.path) : M W unit :=
  let* _ := log_build (goos, goarch) in
  let o := go_build h goos goarch in
  let* _ := fs_update (fun m => Ok (match wrote o with
                                    | Some b => <[out_path := FS.File b]> m
                                    | None => m
                                    end)) in
  if exit_ok o then ret tt
  else raise (SystemExit 1 (command_failed (returncode o)
                              ("go build -o " ++ FS.render out_path ++ " ."))).

(** [build_target(goos, goarch, out_dir)]. *)
Definition build_target (goos goarch : string) (out_dir : FS.path) : M W FS.path :=
  let* _ := fs_update (FSOps.mkdir_parents true out_dir) in
  let exe := if String.eqb goos "windows" then "claracore.exe" else "claracore" in
  let out_path := (out_dir ++ [exe])%list in
  let* _ := run_go_build goos goarch out_path in
  let* w := get in
  if negb (FS.exists_ (w_fs w) out_path)
  then raise (SystemExit 1 ("Expected binary not found: " ++ FS.render out_path))
  else ret out_path.

(** The copies of the auxiliary files that are present. *)
Fixpoint copy_aux (stage : FS.path) (names : list string) (m : gmap FS.path FS.node)
  : result (gmap FS.path FS.node) :=
  match names with
  | [] => Ok m
  | fname :: names' =>
      let src := (ROOT h ++ [fname])%list in
      if FS.exists_ m src
      then match FSOps.copy2 src (stage ++ [fname])%list m with
           | Ok m' => copy_aux stage names' m'
           | Raise e => Raise e
           end
      else copy_aux stage names' m
  end.

Definition stage_name (goos goarch tag : string) : string :=
  "claracore-" ++ tag ++ "-" ++ goos ++ "-" ++ goarch.

(** [stage_and_zip(goos, goarch, binary_path, tag)] as a function of the
    file system: what it returns and the file system it leaves when no
    step raises, the first exception otherwise.  The directory name is
    taken as one path component. *)
Definition stage_and_zip (goos goarch : string) (binary_path : FS.path) (tag : string)
    (m : gmap FS.path FS.node) : result (FS.path * gmap FS.path FS.node) :=
  let name := stage_name goos goarch tag in
  let stage := (DIST ++ [name])%list in
  match FSOps.remove_if_exists stage m with
  | Raise e => Raise e
  | Ok m1 =>
  match FSOps.mkdir_parents false stage m1 with
  | Raise e => Raise e
  | Ok m2 =>
  match FSOps.copy2 binary_path (stage ++ [FS.name binary_path])%list m2 with
  | Raise e => Raise e
  | Ok m3 =>
  match copy_aux stage AUX_FILES m3 with
  | Raise e => Raise e
  | Ok m4 =>
  let zip_path := (DIST ++ [(name ++ ".zip")%string])%list in
  match FSOps.unlink_if_exists zip_path m4 with
  | Raise e => Raise e
  | Ok m5 =>
      Ok (zip_path, <[zip_path := FS.File (zip_encode h (FS.listing stage m5))]> m5)
  end end end end end.

(** [stage_and_zip] step by step in the world: when a step raises, what
    the steps before it did stays done. *)
Definition stage_and_zip_m (goos goarch : string) (binary_path : FS.path) (tag : string)
  : M W FS.path :=
  let name := stage_name goos goarch tag in
  let stage := (DIST ++ [name])%list in
  let* _ := fs_update (FSOps.remove_if_exists stage) in
  let* _ := fs_update (FSOps.mkdir_parents false stage) in
  let* _ := fs_update (FSOps.copy2 binary_path (stage ++ [FS.name binary_path])%list) in
  let* _ := for_each (fun fname =>
                        let src := (ROOT h ++ [fname])%list in
                        let* w := get in
                        if FS.exists_ (w_fs w) src
                        then fs_update (FSOps.copy2 src (stage ++ [fname])%list)
                        else ret tt) AUX_FILES in
  let zip_path := (DIST ++ [(name ++ ".zip")%string])%list in
  let* _ := fs_update (FSOps.unlink_if_exists zip_path) in
  let* _ := fs_update (fun m => Ok (<[zip_path :=
                                        FS.File (zip_encode h (FS.listing stage m))]> m)) in
  ret zip_path.

(** [gh_api(token, method, url, body)]. *)
Definition gh_api (meth : method) (url : string) (b : req_body)
  : M W (gmap string string) :=
  let* resp := send api (Request meth url b) in
  match resp with
  | Resp2xx json => ret json
  | RespError code text => raise (HTTPError code text)
  | NoResponse reason => raise (URLError reason)
  end.

(** [gh_upload_asset(token, upload_url_template, asset_path)]. *)
Definition gh_upload_asset (upload_url_template : string) (asset_path : FS.path)
  : M W unit :=
  let base := Py.before "{" upload_url_template in
  let url := base ++ "?" ++ urlencode_name h (FS.name asset_path) in
  let* data := fs_query (FSOps.read_bytes asset_path) in
  let* resp := send api (Request POST url (RawBody data)) in
  match resp with
  | Resp2xx _ => ret tt
  | RespError code text =>
      raise (SystemExit 1 ("Asset upload failed (" ++ pretty code ++ "): " ++ text))
  | NoResponse reason => raise (URLError reason)
  end.

Definition release_by_tag_url (repo tag : string) : string :=
  "https://api.github.com/repos/" ++ repo ++ "/releases/tags/" ++ quote h tag.

Definition releases_url (repo : string) : string :=
  "https://api.github.com/repos/" ++ repo ++ "/releases".

(** [create_or_get_release(token, repo, tag, name, notes, draft, prerelease)]. *)
Definition create_or_get_release (repo tag name notes : string)
    (draft prerelease : bool) : M W (gmap string string) :=
  fun w =>
    match gh_api GET (release_by_tag_url repo tag) NoBody w with
    | (Ok rel, w') => (Ok rel, w')
    | (Raise (HTTPError _ _), w') =>
        let target_commitish := str_or (git_head h) "main" in
        let p := Payload tag (str_or name tag) (str_or notes "") draft prerelease
                         target_commitish in
        gh_api POST (releases_url repo) (JsonBody p) w'
    | (Raise e, w') => (Raise e, w')
    end.

(** [build_ui()]. *)
Definition build_ui : M W unit :=
  let* w := get in
  let ui_dir := (ROOT h ++ ["ui"])%list in
  if negb (FS.exists_ (w_fs w) ui_dir) then ret tt
  else
    let* _ := (if negb (FS.exists_ (w_fs w) (ui_dir ++ ["node_modules"])%list)
               then if (npm_install h =? 0)%Z then ret tt
                    else raise (SystemExit 1 (command_failed (npm_install h) "npm install"))
               else ret tt) in
    if negb (npm_build h =? 0)%Z
    then raise (SystemExit 1 (command_failed (npm_build h) "npm run build"))
    else if negb (FS.exists_ (w_fs w) (ROOT h ++ ["proxy"; "ui_dist"])%list)
         then raise (SystemExit 1 "UI build output missing at proxy/ui_dist")
         else ret tt.

(** [DIST / f"build-{goos}-{goarch}"]. *)
Definition build_dir (goos goarch : string) : FS.path :=
  (DIST ++ [("build-" ++ goos ++ "-" ++ goarch)%string])%list.

(** The two loops of [main]: build every target, then package every
    build. *)
Fixpoint build_all (targets : list (string * string))
  : M W (list (string * string * FS.path)) :=
  match targets with
  | [] => ret []
  | (goos, goarch) :: targets' =>
      let out_dir := build_dir goos goarch in
      let* bin_path := build_target goos goarch out_dir in
      let* builds := build_all targets' in
      ret ((goos, goarch, bin_path) :: builds)
  end.

Fixpoint package_all (tag : string) (builds : list (string * string * FS.path))
  : M W (list FS.path) :=
  match builds with
  | [] => ret []
  | (goos, goarch, bin_path) :: builds' =>
      let* z := stage_and_zip_m goos goarch bin_path tag in
      let* zips := package_all tag builds' in
      ret (z :: zips)
  end.

(** [main()] over a list of targets. *)
Definition main_of (targets : list (string * string)) (a : args) : M W unit :=
  if negb (a_skip_upload a) && negb (match env_token h with Some t => negb (String.eqb t "") | None => false end)
  then raise (SystemExit 1 "GITHUB_TOKEN (or GH_TOKEN) is required for uploading releases.")
  else if negb (go_found h) then raise (SystemExit 1 "Go toolchain not found in PATH")
  else
    let* _ := fs_update (FSOps.remove_if_exists DIST) in
    let* _ := fs_update (FSOps.mkdir_parents false DIST) in
    let* _ := build_ui in
    let* builds := build_all targets in
    let* zips := package_all (a_tag a) builds in
    if a_skip_upload a then ret tt
    else
      let* repo := (if String.eqb (a_repo a) ""
                    then match repo_slug h with
                         | Some slug => ret slug
                         | None =>
                             raise (SystemExit 1 "Unable to determine repo slug. Set REPO=owner/repo or configure git remote origin.")
                         end
                    else ret (a_repo a)) in
      let* rel := create_or_get_release repo (a_tag a) (str_or (a_name a) (a_tag a))
                    (a_notes a) (a_draft a) (a_prerelease a) in
      let upload_url := default "" (rel !! "upload_url") in
      if String.eqb upload_url ""
      then raise (SystemExit 1 ("Could not get upload_url from release response: "
                                ++ json_dumps h rel))
      else for_each (gh_upload_asset upload_url) zips.

Definition main : args -> M W unit := main_of TARGETS.

End Pipeline.

(** What [build_target] takes for a success in a fresh output
    directory: the compiler returns 0 and leaves an output file. *)
Definition compiled (h : host) (goos goarch : string) : bool :=
  exit_ok (go_build h goos goarch) &&
  match wrote (go_build h goos goarch) with Some _ => true | None => false end.

(** The lookup and the creation request of [create_or_get_release]. *)
Definition lookup_request (h : host) (repo tag : string) : request :=
  Request GET (release_by_tag_url h repo tag) NoBody.

Definition creation_request (h : host) (repo tag name notes : string)
    (draft prerelease : bool) : request :=
  Request POST (releases_url repo)
    (JsonBody (Payload tag (str_or name tag) (str_or notes "") draft prerelease
                       (str_or (git_head h) "main"))).

(** The upload request an archive gives rise to. *)
Definition upload_request (h : host) (upload_url_template : string)
    (m : gmap FS.path FS.node) (asset_path : FS.path) : request :=
  Request POST
    (Py.before "{" upload_url_template ++ "?" ++ urlencode_name h (FS.name asset_path))
    (RawBody (match m !! asset_path with Some (FS.File c) => c | _ => [] end)).

Definition is_2xx (resp : response) : bool :=
  match resp with Resp2xx _ => true | _ => false end.

(** What a refused upload is reported as. *)
Definition upload_error (resp : response) : option exn :=
  match resp with
  | Resp2xx _ => None
  | RespError code text =>
      Some (SystemExit 1 ("Asset upload failed (" ++ pretty code ++ "): " ++ text))
  | NoResponse reason => Some (URLError reason)
  end.

(** What [gh_api] makes of an answer. *)
Definition api_result (resp : response) : result (gmap string string) :=
  match resp with
  | Resp2xx json => Ok json
  | RespError code text => Raise (HTTPError code text)
  | NoResponse reason => Raise (URLError reason)
  end.

Definition is_post (q : request) : bool :=
  match rq_method q with POST => true | GET => false end.

(** Every archive of the list is a file on disk. *)
Definition archives_on_disk (m : gmap FS.path FS.node) (zips : list FS.path) : Prop :=
  forall z, z ∈ zips -> exists c, m !! z = Some (FS.File c).

End Scripts.

(** ** Concrete machines and services *)

Module Fixtures.

Definition linux : Release.BuildTarget :=
  Release.Target "linux" "amd64" "claracore-linux-amd64" "Linux x64".

Definition windows : Release.BuildTarget :=
  Release.Target "windows" "amd64" "claracore-windows-amd64.exe" "Windows x64".

Definition elf : list Byte.byte := [Byte.x7f; Byte.x45; Byte.x4c; Byte.x46].

(** A machine on which only the Linux targets compile. *)
Definition linux_only : Release.host :=
  Release.Host
    (fun t => if String.eqb (Release.goos t) "linux"
              then BuildOutcome 0 (Some elf)
              else BuildOutcome 2 None)
    (fun b => b) true (fun _ _ => "notes")
    (forallb (fun b => (Byte.to_N b <? 128)%N)).

(** A hosting service that accepts every call. *)
Definition accepting : Release.call -> unit -> result unit * unit :=
  fun _ r => (Ok tt, r).

(** A hosting service that refuses every call. *)
Definition refusing : Release.call -> unit -> result unit * unit :=
  fun _ r => (Raise (GithubException 401 "Bad credentials"), r).

(** A hosting service that answers from a script, and accepts once the
    script is used up. *)
Definition answering : Release.call -> list (result unit) -> result unit * list (result unit) :=
  scripted (Ok tt).

Definition release_args : Release.args :=
  Release.Args "v1.0.0" (Release.Token "ghp_x") false false.

Definition linux_binary : Release.binary_info :=
  Release.BinaryInfo linux ["dist"; "claracore-linux-amd64"] 4
    (SHA256.hex (SHA256.sha256 elf)).

(** The REST service of [scripts/release.py], answering from a script. *)
Definition rest : Scripts.request -> list Scripts.response
                  -> Scripts.response * list Scripts.response :=
  scripted (Scripts.NoResponse "unreachable").

(** A machine on which the darwin target does not compile. *)
Definition no_darwin : Scripts.host :=
  Scripts.Host ["work"]
    (fun goos goarch => if String.eqb goos "darwin"
                        then BuildOutcome 2 None
                        else BuildOutcome 0 (Some elf))
    true 0 0 "0123abc" (Some "claraverse-space/ClaraCore") (Some "ghp_x")
    (fun s => s) (fun s => "name=" ++ s)
    (fun l => flat_map (fun kv => match kv.2 with
                                  | FS.File c => c
                                  | FS.Dir => []
                                  end) l)
    (fun rel => "{}").

(** A machine on which the darwin compiler run returns 0 and leaves no
    output file. *)
Definition silent_darwin : Scripts.host :=
  Scripts.Host ["work"]
    (fun goos goarch => if String.eqb goos "darwin"
                        then BuildOutcome 0 None
                        else BuildOutcome 0 (Some elf))
    true 0 0 "0123abc" (Some "claraverse-space/ClaraCore") (Some "ghp_x")
    (fun s => s) (fun s => "name=" ++ s)
    (fun l => flat_map (fun kv => match kv.2 with
                                  | FS.File c => c
                                  | FS.Dir => []
                                  end) l)
    (fun rel => "{}").

Definition scripts_args : Scripts.args :=
  Scripts.Args "v1.0.0-rc1" "" "" false false false "".

Definition upload_url : string :=
  "https://uploads.github.com/repos/o/r/releases/1/assets{?name,label}".

Definition release_json : gmap string string := {[ "upload_url" := upload_url ]}.

(** The build directory once the Linux target is built. *)
Definition built_fs : gmap FS.path FS.node :=
  <[ ["dist"; "claracore-linux-amd64"] := FS.File elf ]> {[ ["dist"] := FS.Dir ]}.

Definition built_world {R} (r : R) : world Release.BuildTarget Release.call R :=
  World built_fs [] [] r.

(** A packaged archive of [scripts/release.py]. *)
Definition zip_path : FS.path := ["work"; "dist"; "claracore-v1.0.0-linux-amd64.zip"].

Definition zipped_world {R} (r : R) : world (string * string) Scripts.request R :=
  World {[ zip_path := FS.File elf ]} [] [] r.

(** A work tree in which the Linux target was packaged before: the
    staging directory holds a file of that run and an old archive is in
    place. *)
Definition linux_build : FS.path := ["work"; "dist"; "build-linux-amd64"; "claracore"].

Definition stale_fs : gmap FS.path FS.node :=
  <[ ["work"; "dist"; "claracore-v1.0.0-linux-amd64"; "stale.txt"] := FS.File (encode "old") ]>
  (<[ ["work"; "dist"; "claracore-v1.0.0-linux-amd64"] := FS.Dir ]>
  (<[ zip_path := FS.File (encode "old archive") ]>
  (<[ linux_build := FS.File elf ]>
  (<[ ["work"; "dist"; "build-linux-amd64"] := FS.Dir ]>
  (<[ ["work"; "README.md"] := FS.File (encode "ClaraCore") ]>
  (<[ ["work"; "dist"] := FS.Dir ]> {[ ["work"] := FS.Dir ]})))))).

End Fixtures.

(** ** Lemmas on the string primitives *)

Local Open Scope list_scope.

Lemma split_length sep s : List.length (Py.split sep s) = S (Py.count sep s).
Proof.
  induction s as [|c s IH]; simpl; [done|].
  destruct (Ascii.eqb c sep); simpl; [by rewrite IH|].
  destruct (Py.split sep s) as [|p ps]; simpl in *; lia.
Qed.

Lemma count_pos_iff c s :
  0 < Py.count c s <-> In c (list_ascii_of_string s).
Proof.
  induction s as [|d s IH]; simpl; [split; [lia|tauto]|].
  destruct (Ascii.eqb_spec d c) as [->|Hne]; simpl.
  - split; [auto | lia].
  - rewrite IH. split; [auto | intros [?|?]; [congruence | done]].
Qed.

Lemma startswith_v s :
  Py.startswith s "v" = true <-> exists rest, s = String "v" rest.
Proof.
  destruct s as [|d s]; simpl.
  - split; [done | intros [? ?]; done].
  - rewrite andb_true_r. destruct (Ascii.eqb_spec "v"%char d) as [<-|Hne].
    + split; eauto.
    + split; [done | intros [? Heq]; injection Heq as Hd _; congruence].
Qed.

Lemma validate_version_unfold v :
  Validator.validate_version v =
  Py.startswith v "v" && (1 <=? Py.count "." (Py.tail1 v))%nat.
Proof.
  unfold Validator.validate_version.
  destruct (Py.startswith v "v"); simpl; [|done].
  rewrite split_length.
  destruct (Py.count "." (Py.tail1 v)); done.
Qed.

(** ** SHA-256 test vectors *)

Example sha256_abc :
  SHA256.hex (SHA256.sha256 (encode "abc")) =
  "ba7816bf8f01cfea414140de5dae2223b00361a396177a9cb410ff61f20015ad".
Proof. vm_compute. reflexivity. Qed.

Example sha256_empty :
  SHA256.hex (SHA256.sha256 []) =
  "e3b0c44298fc1c149afbf4c8996fb92427ae41e4649b934ca495991b7852b855".
Proof. vm_compute. reflexivity. Qed.

Example sha256_two_blocks :
  SHA256.hex (SHA256.sha256 (repeat Byte.x61 70)) =
  "6bd5e5034855a11241f0dee8fc72850ffd9955b28347a86428b5fa19119f6ad0".
Proof. vm_compute. reflexivity. Qed.

Example sha256_stream_abc :
  SHA256.hexdigest (SHA256.update (SHA256.update SHA256.new (encode "a"))
                                  (encode "bc")) =
  "ba7816bf8f01cfea414140de5dae2223b00361a396177a9cb410ff61f20015ad".
Proof. vm_compute. reflexivity. Qed.

(** ** The hash object absorbs a stream as it absorbs its concatenation *)

Section Streaming.
Import SHA256.

Lemma feed_app h buf d1 d2 :
  feed h buf (d1 ++ d2)%list =
  let '(h', buf') := feed h buf d1 in feed h' buf' d2.
Proof.
  revert h buf. induction d1 as [|b d1 IH]; intros h buf; simpl; [done|].
  destruct (_ =? _)%nat; apply IH.
Qed.

Lemma update_app s d1 d2 :
  update (update s d1) d2 = update s (d1 ++ d2)%list.
Proof.
  unfold update. rewrite feed_app.
  destruct (feed (h_chain s) (h_buf s) d1) as [h1 b1]; simpl.
  destruct (feed h1 b1 d2) as [h2 b2].
  by rewrite length_app, Nat.add_assoc.
Qed.

Lemma update_nil s : update s [] = s.
Proof. destruct s; unfold update; simpl. by rewrite Nat.add_0_r. Qed.

Lemma feed_short h buf data :
  (List.length buf + List.length data < 64)%nat ->
  feed h buf data = (h, (buf ++ data)%list).
Proof.
  revert buf. induction data as [|b data IH]; intros buf Hlen; simpl in *.
  - by rewrite app_nil_r.
  - destruct (Nat.eqb_spec (List.length (buf ++ [b])) 64) as [E|_].
    + rewrite length_app in E; simpl in E; lia.
    + rewrite IH; [by rewrite <- app_assoc|].
      rewrite length_app; simpl; lia.
Qed.

Lemma feed_block h buf b t data :
  (List.length buf + S (List.length t) = 64)%nat ->
  feed h buf (b :: t ++ data)%list =
  feed (process_block h (buf ++ b :: t)%list) [] data.
Proof.
  revert buf b. induction t as [|b' t IH]; intros buf b Hlen; simpl in *.
  - destruct (Nat.eqb_spec (List.length (buf ++ [b])) 64) as [_|E]; [done|].
    rewrite length_app in E; simpl in E; lia.
  - destruct (Nat.eqb_spec (List.length (buf ++ [b])) 64) as [E|_].
    + rewrite length_app in E; simpl in E; lia.
    + specialize (IH (buf ++ [b])%list b').
      simpl in IH. rewrite IH; [by rewrite <- app_assoc|].
      rewrite length_app; simpl; lia.
Qed.

Lemma hash_blocks_fuel f1 f2 h l :
  (List.length l <= f1)%nat -> (List.length l <= f2)%nat ->
  hash_blocks f1 h l = hash_blocks f2 h l.
Proof.
  revert f2 h l. induction f1 as [|f1 IH]; intros f2 h l H1 H2.
  - destruct l; [|simpl in H1; lia]. by destruct f2.
  - destruct f2 as [|f2]; [destruct l; [done | simpl in H2; lia]|].
    destruct l as [|x l]; [done|].
    cbn [hash_blocks]. apply IH; rewrite length_drop; simpl in *; lia.
Qed.

(** Compressing [msg ++ tail] block by block is absorbing [msg] and then
    compressing what is left in the buffer followed by [tail]. *)
Lemma hash_blocks_feed n : forall msg h tail,
  (List.length msg <= n)%nat ->
  hash_blocks (List.length (msg ++ tail)) h (msg ++ tail)%list =
  let '(h', buf') := feed h [] msg in
  hash_blocks (List.length (buf' ++ tail)) h' (buf' ++ tail)%list.
Proof.
  induction n as [n IH] using lt_wf_ind. intros msg h tail Hn.
  destruct (Nat.lt_ge_cases (List.length msg) 64) as [Hs|Hl].
  - by rewrite feed_short.
  - rewrite <- (take_drop 64 msg) at 3.
    destruct (take 64 msg) as [|b t] eqn:Et.
    { apply (f_equal (@List.length _)) in Et. rewrite length_take in Et.
      cbn [List.length] in Et. lia. }
    assert (List.length t = 63%nat) as Ht.
    { apply (f_equal (@List.length _)) in Et. rewrite length_take in Et.
      cbn [List.length] in Et. lia. }
    rewrite <- app_comm_cons, (feed_block h [] b t) by (simpl; lia).
    simpl app at 3.
    destruct msg as [|m0 msg']; [simpl in Hl; lia|].
    set (msg := m0 :: msg') in *.
    assert (hash_blocks (List.length (msg ++ tail)) h (msg ++ tail)%list =
            hash_blocks (List.length (drop 64 msg ++ tail))
              (process_block h (b :: t)) (drop 64 msg ++ tail)%list) as ->.
    { unfold msg at 1 2. cbn [app List.length hash_blocks].
      fold msg. change (m0 :: (msg' ++ tail)%list) with (msg ++ tail)%list.
      rewrite take_app_le, drop_app_le by lia. rewrite Et.
      apply hash_blocks_fuel; [|done].
      rewrite !length_app, length_drop. unfold msg. simpl. lia. }
    apply (IH (List.length (drop 64 msg))); [|done].
    rewrite length_drop. lia.
Qed.

(** The hash object after absorbing [msg] yields the one-shot digest. *)
Lemma digest_update_new msg : digest (update new msg) = sha256 msg.
Proof.
  unfold digest, update, sha256, new; simpl.
  pose proof (hash_blocks_feed (List.length msg) msg H0
                (padding (List.length msg)) (le_n _)) as E.
  destruct (feed H0 [] msg) as [h' buf']; simpl. by rewrite E.
Qed.

Lemma fold_update s (chunks : list (list Byte.byte)) :
  fold_left update chunks s = update s (concat chunks).
Proof.
  revert s. induction chunks as [|c cs IH]; intros s; simpl.
  - by rewrite update_nil.
  - by rewrite IH, update_app.
Qed.

End Streaming.

(** ** The tag validator *)

Lemma validate_version_iff v :
  Validator.validate_version v = true <->
  exists rest, v = String "v" rest /\ (2 <= List.length (Py.split "." rest))%nat.
Proof.
  rewrite validate_version_unfold, andb_true_iff, startswith_v, Nat.leb_le.
  split.
  - intros [[rest ->] Hc]. exists rest. split; [done|].
    rewrite split_length. simpl in Hc. lia.
  - intros (rest & -> & Hl). split; [eauto|].
    rewrite split_length in Hl. simpl. lia.
Qed.

(** C7 (as the specification words it, refuted): the validator and the
    reading "at least two numeric-or-identifier components" disagree on
    ["v."], whose two components are empty. *)
Lemma validate_version_not_spec_validator :
  Validator.validate_version "v." <> Validator.spec_tag_accepts "v.".
Proof. vm_compute. discriminate. Qed.

(** C7 (amended): the validator accepts exactly the strings that begin
    with ['v'] and whose remainder splits on ['.'] into at least two
    fields, whatever the fields hold; in particular it accepts
    ["v1.2.3"] and ["v0.1"] and rejects ["1.2.3"] and ["vX"]. *)
Theorem validate_version_accepts_exactly :
  (forall v, Validator.validate_version v = true <->
             exists rest, v = String "v" rest /\
                          (2 <= List.length (Py.split "." rest))%nat) /\
  Validator.validate_version "v1.2.3" = true /\
  Validator.validate_version "v0.1" = true /\
  Validator.validate_version "1.2.3" = false /\
  Validator.validate_version "vX" = false.
Proof. split; [apply validate_version_iff | by vm_compute]. Qed.

(** C10: every string that starts with ['v'] and whose remainder holds
    at least one ['.'] is accepted, whatever its components are. *)
Theorem validate_version_ignores_components rest :
  In "."%char (list_ascii_of_string rest) ->
  Validator.validate_version (String "v" rest) = true.
Proof.
  intros Hin. apply validate_version_iff. exists rest. split; [done|].
  rewrite split_length. apply count_pos_iff in Hin. lia.
Qed.

Lemma validate_version_ignores_components_witness :
  In "."%char (list_ascii_of_string ".") /\
  Validator.validate_version "v." = true.
Proof.
  split; [by left|].
  apply (validate_version_ignores_components "."). by left.
Defined.

Example validate_version_empty_component :
  Validator.validate_version "v1." = true /\
  Validator.validate_version "va.b" = true /\
  Validator.validate_version "v..." = true.
Proof. by vm_compute. Qed.

(** ** The checksum generator *)

Section ChecksumFacts.
Import SHA256 Checksum.

Lemma take_nil_inv {A} n (l : list A) : (0 < n)%nat -> take n l = [] -> l = [].
Proof. destruct n, l; simpl; intros; (lia || done). Qed.

Lemma drop_length_take {A} n (l : list A) :
  drop (List.length (take n l)) l = drop n l.
Proof.
  rewrite length_take.
  destruct (Nat.le_ge_cases n (List.length l)).
  - by rewrite Nat.min_l.
  - rewrite Nat.min_r by done. by rewrite !drop_ge.
Qed.

(** The reading loop leaves the hash object as one [update] with
    everything from the read position on would. *)
Lemma read_loop_spec fuel : forall content pos acc,
  (List.length (drop pos content) < fuel)%nat ->
  read_loop fuel (FileObj content pos) acc = update acc (drop pos content).
Proof.
  induction fuel as [|fuel IH]; intros content pos acc Hfuel; [lia|].
  cbn [read_loop read f_pos f_data].
  assert (0 < 4096)%nat as Hpos by (apply Nat.lt_0_succ).
  revert Hpos. generalize 4096%nat. intros n Hn.
  destruct (take n (drop pos content)) as [|b chunk] eqn:Echunk.
  - apply take_nil_inv in Echunk; [|done]. rewrite Echunk. by rewrite update_nil.
  - rewrite <- Echunk.
    assert (List.length (take n (drop pos content)) <> 0)%nat as Hne
      by (rewrite Echunk; simpl; lia).
    rewrite IH.
    + rewrite update_app, <- drop_drop. f_equal.
      rewrite drop_length_take. apply take_drop.
    + rewrite <- drop_drop, length_drop.
      assert (List.length (take n (drop pos content)) <=
              List.length (drop pos content))%nat
        by (rewrite length_take; lia).
      lia.
Qed.

Lemma hex_length bs : String.length (hex bs) = (2 * List.length bs)%nat.
Proof. induction bs as [|b bs IH]; simpl; [done | rewrite IH; lia]. Qed.

Lemma be_bytes_length n z : List.length (be_bytes n z) = n.
Proof. induction n; simpl; congruence. Qed.

Lemma chain_bytes_length c : List.length (chain_bytes c) = 32%nat.
Proof. unfold chain_bytes. by rewrite !length_app, !be_bytes_length. Qed.

Lemma hex_lowercase bs :
  forallb lower_hex_char (list_ascii_of_string (hex bs)) = true.
Proof.
  induction bs as [|b bs IH]; [done|].
  cbn [hex list_ascii_of_string forallb]. rewrite IH, andb_true_r.
  by destruct b; vm_compute.
Qed.

End ChecksumFacts.

(** C9: for a file holding [content], [calculate_sha256] returns the
    lowercase hexadecimal one-shot SHA-256 digest of [content] (64
    characters); so any other file with the same content gets the same
    digest. *)
Theorem calculate_sha256_is_sha256 (m : gmap FS.path FS.node) (filepath : FS.path)
    (content : list Byte.byte) :
  m !! filepath = Some (FS.File content) ->
  Checksum.calculate_sha256 m filepath = Ok (SHA256.hex (SHA256.sha256 content)) /\
  String.length (SHA256.hex (SHA256.sha256 content)) = 64%nat /\
  forallb lower_hex_char
    (list_ascii_of_string (SHA256.hex (SHA256.sha256 content))) = true /\
  forall (m' : gmap FS.path FS.node) (filepath' : FS.path),
    m' !! filepath' = Some (FS.File content) ->
    Checksum.calculate_sha256 m' filepath' = Checksum.calculate_sha256 m filepath.
Proof.
  assert (forall (m0 : gmap FS.path FS.node) p0,
            m0 !! p0 = Some (FS.File content) ->
            Checksum.calculate_sha256 m0 p0 = Ok (SHA256.hex (SHA256.sha256 content)))
    as Hcalc.
  { intros m0 p0 H0. unfold Checksum.calculate_sha256. rewrite H0.
    rewrite read_loop_spec by (rewrite drop_0; lia).
    rewrite drop_0. unfold SHA256.hexdigest. by rewrite digest_update_new. }
  intros Hfile. split; [by apply Hcalc|]. split.
  { rewrite hex_length. unfold SHA256.sha256. by rewrite chain_bytes_length. }
  split; [apply hex_lowercase|].
  intros m' p' H'. by rewrite !Hcalc.
Qed.

Lemma calculate_sha256_is_sha256_witness :
  let m : gmap FS.path FS.node := {[ ["dist"; "claracore"] := FS.File (encode "abc") ]} in
  m !! ["dist"; "claracore"] = Some (FS.File (encode "abc")) /\
  Checksum.calculate_sha256 m ["dist"; "claracore"] =
    Ok "ba7816bf8f01cfea414140de5dae2223b00361a396177a9cb410ff61f20015ad".
Proof.
  intros m.
  assert (m !! ["dist"; "claracore"] = Some (FS.File (encode "abc"))) as Hm
    by apply lookup_singleton_eq.
  split; [exact Hm|].
  destruct (calculate_sha256_is_sha256 m ["dist"; "claracore"] (encode "abc") Hm)
    as [-> _].
  by vm_compute.
Defined.


(** ** The monad *)

#[local] Arguments Checksum.calculate_sha256 : simpl never.
#[local] Arguments SHA256.hex : simpl never.
#[local] Arguments SHA256.sha256 : simpl never.
#[local] Arguments Py.endswith : simpl never.
#[local] Arguments Py.contains : simpl never.

(** Reduce the projections and boolean connectives only. *)
Ltac msimpl :=
  cbn [negb andb orb w_fs w_builds w_sent w_remote fst snd wrote].

(** Expose one layer of monadic plumbing. *)
Ltac mstep :=
  unfold log_build, send, fs_update, fs_query, try_except, bind, ret, raise,
    get, modify;
  msimpl.

Lemma name_snoc (d : FS.path) (f : string) : FS.name (d ++ [f]) = f.
Proof. unfold FS.name. apply last_last. Qed.

(** ** File-system lemmas *)

Lemma rmtree_lookup (d p : FS.path) (m : gmap FS.path FS.node) :
  FS.rmtree d m !! p = if decide (d `prefix_of` p) then None else m !! p.
Proof.
  unfold FS.rmtree. rewrite map_lookup_filter.
  destruct (m !! p) as [x|]; cbn.
  - case_guard; case_decide; cbn in *; done.
  - by case_decide.
Qed.

Lemma wf_empty : FS.wf ∅.
Proof. intros p [x Hx]. by rewrite lookup_empty in Hx. Qed.

Section ReleaseBuild.
Import Release.
Context {R : Type}.
Variable h : host.
Local Abbreviation W := (world BuildTarget call R).

Ltac no_new_dir out :=
  let p := fresh "p" in
  intros p; destruct (decide (p = out)) as [->|];
  rewrite ?lookup_insert_eq, ?lookup_insert_ne by done; done.

Ltac finish_build_one out :=
  eexists; split; [reflexivity|]; msimpl;
  repeat split; try done;
  [ by intros p Hp; rewrite ?lookup_insert_ne
  | intros _; apply lookup_insert_eq
  | no_new_dir out ].

(** One pass of the loop body from a state where the output file is not
    there yet. *)
Lemma build_one_fresh (bp : FS.path) (t : BuildTarget) (w : W) :
  w_fs w !! (bp ++ [filename t]) = None ->
  exists w',
    build_one (R:=R) h bp t w = (Ok (artifact h bp t), w') /\
    w_builds w' = w_builds w ++ [t] /\
    w_sent w' = w_sent w /\
    w_remote w' = w_remote w /\
    (forall p, p <> bp ++ [filename t] -> w_fs w' !! p = w_fs w !! p) /\
    (compiled h t = true ->
       w_fs w' !! (bp ++ [filename t]) = Some (FS.File (artifact_bytes h t))) /\
    (forall p, w_fs w' !! p = Some FS.Dir -> w_fs w !! p = Some FS.Dir).
Proof.
  intros Hfresh.
  unfold build_one, run_command, artifact, compiled, artifact_bytes, final_content,
    exit_ok.
  destruct (go_build h t) as [rc wr]. cbn [returncode]. msimpl.
  unfold sign_windows_binary, get_file_size, FS.exists_. mstep.
  destruct (rc =? 0)%Z, wr as [b|]; msimpl.
  - rewrite !lookup_insert_eq. msimpl. rewrite name_snoc.
    destruct (String.eqb (goos t) "windows"); msimpl.
    + rewrite !lookup_insert_eq. destruct (Py.endswith (filename t) ".exe"); msimpl.
      * rewrite !lookup_insert_eq.
        rewrite (proj1 (calculate_sha256_is_sha256 _ _ _ (lookup_insert_eq _ _ _))).
        finish_build_one (bp ++ [filename t]).
      * rewrite !lookup_insert_eq.
        rewrite (proj1 (calculate_sha256_is_sha256 _ _ _ (lookup_insert_eq _ _ _))).
        finish_build_one (bp ++ [filename t]).
    + rewrite !lookup_insert_eq.
      rewrite (proj1 (calculate_sha256_is_sha256 _ _ _ (lookup_insert_eq _ _ _))).
      finish_build_one (bp ++ [filename t]).
  - rewrite Hfresh. msimpl. eexists; split; [reflexivity|]; msimpl. repeat split; done.
  - eexists; split; [reflexivity|]; msimpl. repeat split; try done.
    + by intros p Hp; rewrite lookup_insert_ne.
    + no_new_dir (bp ++ [filename t]).
  - eexists; split; [reflexivity|]; msimpl. repeat split; done.
Qed.

Lemma artifact_target bp t b : artifact h bp t = Some b ->
  target b = t /\ path b = bp ++ [filename t] /\ compiled h t = true /\
  size b = List.length (artifact_bytes h t) /\
  sha256 b = SHA256.hex (SHA256.sha256 (artifact_bytes h t)).
Proof. unfold artifact. destruct (compiled h t); intros [= <-]; done. Qed.

Lemma artifact_None bp t : artifact h bp t = None -> compiled h t = false.
Proof. unfold artifact. by destruct (compiled h t). Qed.

(** The artifact set is the list of targets that compiled, in order. *)
Lemma artifacts_are_compiled_targets bp targets :
  map target (omap (artifact h bp) targets) = List.filter (compiled h) targets.
Proof.
  induction targets as [|t ts IH]; [done|]. cbn [omap list_omap List.filter].
  destruct (artifact h bp t) as [b|] eqn:E.
  - apply artifact_target in E as (<- & _ & -> & _). cbn. by rewrite IH.
  - apply artifact_None in E as ->. done.
Qed.

Lemma build_loop_spec (bp : FS.path) targets : forall built (w : W),
  NoDup (filename <$> targets) ->
  (forall t, t ∈ targets -> w_fs w !! (bp ++ [filename t]) = None) ->
  exists w',
    build_loop (R:=R) h bp targets built w =
      (Ok (built ++ omap (artifact h bp) targets), w') /\
    w_builds w' = w_builds w ++ targets /\
    w_sent w' = w_sent w /\
    w_remote w' = w_remote w /\
    (forall p, (forall t, t ∈ targets -> p <> bp ++ [filename t]) ->
               w_fs w' !! p = w_fs w !! p) /\
    (forall b, b ∈ omap (artifact h bp) targets ->
       w_fs w' !! path b = Some (FS.File (artifact_bytes h (target b)))) /\
    (forall p, w_fs w' !! p = Some FS.Dir -> w_fs w !! p = Some FS.Dir).
Proof.
  induction targets as [|t ts IH]; intros built w Hnd Hfresh.
  - exists w. cbn. rewrite !app_nil_r. repeat split; try done.
    intros b Hb. by apply elem_of_nil in Hb.
  - apply NoDup_cons in Hnd as [Hnotin Hnd].
    destruct (build_one_fresh bp t w) as (w1 & E1 & Hb1 & Hs1 & Hr1 & Hfs1 & Hart1 & Hdir1).
    { apply Hfresh. by left. }
    assert (forall t', t' ∈ ts -> bp ++ [filename t'] <> bp ++ [filename t]) as Hdiff.
    { intros t' Ht' Heq. apply app_inv_head in Heq. injection Heq as Heq.
      apply Hnotin. rewrite <- Heq. by apply list_elem_of_fmap_2. }
    destruct (IH (match artifact h bp t with
                  | Some binary => built ++ [binary]
                  | None => built
                  end) w1 Hnd) as (w2 & E2 & Hb2 & Hs2 & Hr2 & Hfs2 & Hart2 & Hdir2).
    { intros t' Ht'. rewrite Hfs1 by by apply Hdiff. apply Hfresh. by right. }
    exists w2. cbn [build_loop]. unfold bind at 1. rewrite E1, E2.
    split.
    { f_equal. cbn [omap list_omap]. destruct (artifact h bp t); [|done].
      by rewrite <- app_assoc. }
    split; [by rewrite Hb2, Hb1, <- app_assoc|].
    split; [congruence|]. split; [congruence|]. split; [|split; [|by auto]].
    + intros p Hp. rewrite Hfs2, Hfs1; [done | |].
      * apply Hp. by left.
      * intros t' Ht'. apply Hp. by right.
    + intros b Hb. cbn [omap list_omap] in Hb.
      destruct (artifact h bp t) as [b0|] eqn:E0.
      * apply elem_of_cons in Hb as [->|Hb]; [|by apply Hart2].
        apply artifact_target in E0 as (-> & -> & Hc & _).
        rewrite Hfs2; [by apply Hart1|]. intros t' Ht' Heq. by apply (Hdiff t' Ht').
      * by apply Hart2.
Qed.


(** [build_binaries] starts from an empty build directory, so the
    artifacts it returns are exactly those of the targets that compiled. *)
Lemma build_binaries_of_spec targets version (w : W) :
  FS.wf (w_fs w) ->
  FS.is_file (w_fs w) [BUILD_DIR] = false ->
  NoDup (filename <$> targets) ->
  exists w',
    build_binaries_of (R:=R) h targets version w =
      (Ok (omap (artifact h [BUILD_DIR]) targets), w') /\
    w_builds w' = w_builds w ++ targets /\
    w_sent w' = w_sent w /\
    w_remote w' = w_remote w /\
    w_fs w' !! [BUILD_DIR] = Some FS.Dir /\
    (forall f, w_fs w' !! [BUILD_DIR; f] <> Some FS.Dir) /\
    (forall b, b ∈ omap (artifact h [BUILD_DIR]) targets ->
       w_fs w' !! path b = Some (FS.File (artifact_bytes h (target b)))).
Proof.
  intros Hwf Hfile Hnd.
  set (m := w_fs w) in *.
  (* the file system once the build directory has been reset *)
  set (m1 := match m !! [BUILD_DIR] with
             | Some FS.Dir => FS.rmtree [BUILD_DIR] m
             | _ => m
             end).
  assert (m1 !! [BUILD_DIR] = None) as Hnone.
  { unfold m1, FS.is_file in *. destruct (m !! [BUILD_DIR]) as [[c|]|] eqn:E;
      [done| |done]. rewrite rmtree_lookup. by rewrite decide_True. }
  assert (forall f, m1 !! [BUILD_DIR; f] = None) as Hbelow.
  { intros f. unfold m1. destruct (m !! [BUILD_DIR]) as [[c|]|] eqn:E.
    - unfold FS.is_file in Hfile. by rewrite E in Hfile.
    - rewrite rmtree_lookup. rewrite decide_True; [done|]. by exists [f].
    - destruct (m !! [BUILD_DIR; f]) as [x|] eqn:Ef; [|done].
      assert (m !! [BUILD_DIR] = Some FS.Dir) as Habs; [|congruence].
      apply (Hwf [BUILD_DIR; f]); [by eexists|]. by left. }
  set (w1 := World (<[[BUILD_DIR] := FS.Dir]> m1) (w_builds w) (w_sent w) (w_remote w)).
  destruct (build_loop_spec [BUILD_DIR] targets [] w1 Hnd)
    as (w2 & E2 & Hb2 & Hs2 & Hr2 & Hfs2 & Hart2 & Hdir2).
  { intros t _. cbn. rewrite lookup_insert_ne by done. apply Hbelow. }
  exists w2. split.
  { unfold build_binaries_of. mstep. unfold FSOps.remove_if_exists. fold m.
    assert (match m !! [BUILD_DIR] with
            | Some (FS.File _) => Raise (OSError "NotADirectoryError")
            | Some FS.Dir => Ok (FS.rmtree [BUILD_DIR] m)
            | None => Ok m
            end = Ok m1) as ->.
    { unfold m1, FS.is_file in *. by destruct (m !! [BUILD_DIR]) as [[c|]|]. }
    msimpl. unfold FSOps.mkdir_parents. cbn [FS.ancestors FS.ancestors_from existsb].
    rewrite Hnone. cbn [FS.mkdirs foldr]. msimpl. exact E2. }
  split; [done|]. split; [done|]. split; [done|]. split; [|split; [|done]].
  - rewrite Hfs2; [apply lookup_insert_eq|]. intros t _. done.
  - intros f Hf. apply Hdir2 in Hf. cbn in Hf.
    rewrite lookup_insert_ne in Hf by done. by rewrite Hbelow in Hf.
Qed.

End ReleaseBuild.

(** ** Running computations *)

Lemma bind_ok {W A B} (m : M W A) (k : A -> M W B) w a w' :
  m w = (Ok a, w') -> bind m k w = k a w'.
Proof. unfold bind. by intros ->. Qed.

Lemma bind_raise {W A B} (m : M W A) (k : A -> M W B) w e w' :
  m w = (Raise e, w') -> bind m k w = (Raise e, w').
Proof. unfold bind. by intros ->. Qed.

Lemma serve_app {Q R A} (api : Q -> R -> A * R) qs1 qs2 r :
  serve api (qs1 ++ qs2) r = serve api qs1 r ++ serve api qs2 (serve_state api qs1 r).
Proof.
  revert r. induction qs1 as [|q qs1 IH]; intros r; [done|].
  cbn [app serve serve_state]. destruct (api q r) as [a r']. cbn. by rewrite IH.
Qed.

Lemma serve_state_app {Q R A} (api : Q -> R -> A * R) qs1 qs2 r :
  serve_state api (qs1 ++ qs2) r = serve_state api qs2 (serve_state api qs1 r).
Proof.
  revert r. induction qs1 as [|q qs1 IH]; intros r; [done|].
  cbn [app serve_state]. by rewrite IH.
Qed.

Lemma serve_length {Q R A} (api : Q -> R -> A * R) qs r :
  List.length (serve api qs r) = List.length qs.
Proof.
  revert r. induction qs as [|q qs IH]; intros r; [done|].
  cbn [serve]. destruct (api q r). cbn. by rewrite IH.
Qed.

Lemma after_nil {B Q R A} (api : Q -> R -> A * R) (w : world B Q R) :
  after api [] w = w.
Proof. destruct w. unfold after. cbn. by rewrite app_nil_r. Qed.

Lemma after_app {B Q R A} (api : Q -> R -> A * R) qs1 qs2 (w : world B Q R) :
  after api qs2 (after api qs1 w) = after api (qs1 ++ qs2) w.
Proof. unfold after. cbn. by rewrite serve_state_app, app_assoc. Qed.

(** ** [release.py]: publishing *)

Section ReleasePublish.
Import Release.
Context {R : Type}.
Variable h : host.
Variable api : call -> R -> result unit * R.
Local Abbreviation W := (world BuildTarget call R).

Lemma github_run (c : call) (w : W) :
  github api c w =
  (match fst (api c (w_remote w)) with Ok _ => Ok tt | Raise e => Raise e end,
   after api [c] w).
Proof.
  unfold github, after. mstep. cbn [serve_state].
  destruct (api c (w_remote w)) as [[[]|e] r]; done.
Qed.

Lemma github_ok (c : call) (w : W) :
  serve api [c] (w_remote w) = [Ok tt] ->
  github api c w = (Ok tt, after api [c] w).
Proof.
  intros Hs. rewrite github_run. cbn in Hs.
  destruct (api c (w_remote w)) as [a r]. cbn. by injection Hs as ->.
Qed.

Lemma github_fails (c : call) (w : W) e :
  serve api [c] (w_remote w) = [Raise e] ->
  github api c w = (Raise e, after api [c] w).
Proof.
  intros Hs. rewrite github_run. cbn in Hs.
  destruct (api c (w_remote w)) as [a r]. cbn. by injection Hs as ->.
Qed.

Lemma upload_binary_run (b : binary_info) (w : W) c :
  w_fs w !! path b = Some (FS.File c) ->
  upload_binary api b w = github api (upload_call (w_fs w) b) w.
Proof.
  intros Hc. unfold upload_binary, upload_call, FSOps.read_bytes.
  unfold fs_query, bind. by rewrite Hc.
Qed.

Lemma uploads_ok binaries : forall (w : W),
  all_files (w_fs w) binaries ->
  serve api (map (upload_call (w_fs w)) binaries) (w_remote w) =
    map (fun _ => Ok tt) binaries ->
  for_each (upload_binary api) binaries w =
    (Ok tt, after api (map (upload_call (w_fs w)) binaries) w).
Proof.
  induction binaries as [|b bs IH]; intros w Hfiles Hs.
  - cbn. by rewrite after_nil.
  - destruct (Hfiles b) as [c Hc]; [by left|].
    cbn [map] in Hs. change (?x :: ?l) with ([x] ++ l) in Hs at 1.
    rewrite serve_app in Hs. cbn [map app] in Hs.
    assert (List.length (serve api [upload_call (w_fs w) b] (w_remote w)) = 1%nat)
      as Hlen by apply serve_length.
    destruct (serve api [upload_call (w_fs w) b] (w_remote w)) as [|a [|? ?]] eqn:E1;
      try done.
    injection Hs as -> Hs.
    cbn [for_each map].
    rewrite (bind_ok _ _ w tt (after api [upload_call (w_fs w) b] w)).
    + rewrite IH; cbn [after w_fs w_remote]; [| |done].
      * unfold after. cbn. by rewrite <- app_assoc.
      * intros b' Hb'. apply Hfiles. by right.
    + erewrite upload_binary_run by done. by apply github_ok.
Qed.

Lemma uploads_fail done b rest e : forall (w : W),
  all_files (w_fs w) (done ++ [b]) ->
  serve api (map (upload_call (w_fs w)) (done ++ [b])) (w_remote w) =
    map (fun _ => Ok tt) done ++ [Raise e] ->
  for_each (upload_binary api) (done ++ b :: rest) w =
    (Raise e, after api (map (upload_call (w_fs w)) (done ++ [b])) w).
Proof.
  induction done as [|d ds IH]; intros w Hfiles Hs.
  - destruct (Hfiles b) as [c Hc]; [by left|]. cbn [app map for_each] in *.
    rewrite (bind_raise _ _ w e (after api [upload_call (w_fs w) b] w)); [done|].
    erewrite upload_binary_run by done. by apply github_fails.
  - destruct (Hfiles d) as [c Hc]; [by left|].
    cbn [map app] in Hs. change (?x :: ?l) with ([x] ++ l) in Hs at 1.
    rewrite serve_app in Hs.
    assert (List.length (serve api [upload_call (w_fs w) d] (w_remote w)) = 1%nat)
      as Hlen by apply serve_length.
    destruct (serve api [upload_call (w_fs w) d] (w_remote w)) as [|a [|? ?]] eqn:E1;
      try done.
    cbn [app] in Hs. injection Hs as -> Hs.
    cbn [app for_each map].
    rewrite (bind_ok _ _ w tt (after api [upload_call (w_fs w) d] w)).
    + rewrite IH; cbn [after w_fs w_remote]; [| |done].
      * unfold after. cbn. by rewrite <- app_assoc.
      * intros b' Hb'. apply Hfiles. by right.
    + erewrite upload_binary_run by done. by apply github_ok.
Qed.


Lemma serve_app_inv (qs1 qs2 : list call) r (a1 a2 : list (result unit)) :
  serve api (qs1 ++ qs2) r = a1 ++ a2 ->
  List.length a1 = List.length qs1 ->
  serve api qs1 r = a1 /\ serve api qs2 (serve_state api qs1 r) = a2.
Proof.
  rewrite serve_app. intros Heq Hlen.
  apply app_inj_1 in Heq; [done|]. by rewrite serve_length.
Qed.

Lemma defender_reminder_ok binaries (w : W) :
  all_files (w_fs w) binaries ->
  defender_reminder (R:=R) binaries w = (Ok tt, w).
Proof.
  induction binaries as [|b bs IH]; intros Hfiles; [done|].
  cbn [defender_reminder]. destruct (String.eqb (goos (target b)) "windows").
  - destruct (Hfiles b) as [c Hc]; [by left|]. mstep.
    by rewrite (proj1 (calculate_sha256_is_sha256 _ _ _ Hc)).
  - apply IH. intros b' Hb'. apply Hfiles. by right.
Qed.

(** A publication in which every call is answered favourably. *)
Lemma create_github_release_ok version binaries draft (w : W) :
  all_files (w_fs w) binaries ->
  w_fs w !! [BUILD_DIR] = Some FS.Dir ->
  w_fs w !! [BUILD_DIR; "checksums.txt"] <> Some FS.Dir ->
  serve api (release_calls h version draft binaries (w_fs w)) (w_remote w) =
    map (fun _ => Ok tt) (release_calls h version draft binaries (w_fs w)) ->
  exists w',
    create_github_release h api version binaries draft w = (Ok true, w') /\
    w_sent w' = w_sent w ++ release_calls h version draft binaries (w_fs w) /\
    w_builds w' = w_builds w /\
    w_fs w' = <[[BUILD_DIR; "checksums.txt"] :=
                  FS.File (encode (checksums_content version binaries))]> (w_fs w).
Proof.
  intros Hfiles Hdir Hnodir Hs. unfold release_calls in *.
  set (c1 := GetRepo _) in *. set (c2 := CreateGitRelease _ _ _ _ _) in *.
  set (ups := map (upload_call (w_fs w)) binaries) in *.
  set (mc := manifest_call version binaries) in *.
  change ([c1; c2] ++ ups ++ [mc]) with ([c1] ++ [c2] ++ ups ++ [mc]) in Hs.
  rewrite !map_app in Hs.
  apply serve_app_inv in Hs as [H1 Hs]; [|done].
  apply serve_app_inv in Hs as [H2 Hs]; [|done].
  apply serve_app_inv in Hs as [H3 H4]; [|by rewrite !length_map].
  cbn [map] in H1, H2, H4. unfold ups in H3. rewrite map_map in H3.
  set (w1 := after api [c1] w) in *.
  set (w2 := after api [c2] w1).
  set (w3 := after api ups w2).
  set (cp := [BUILD_DIR; "checksums.txt"]).
  set (w4 := World (<[cp := FS.File (encode (checksums_content version binaries))]>
                      (w_fs w)) (w_builds w3) (w_sent w3) (w_remote w3)).
  set (w5 := after api [mc] w4).
  exists w5. split.
  - unfold create_github_release, try_except.
    fold c1 c2.
    rewrite (bind_ok _ _ w tt w1) by by apply github_ok.
    rewrite (bind_ok _ _ w1 tt w2) by by apply github_ok.
    rewrite (bind_ok _ _ w2 tt w3) by by apply uploads_ok.
    rewrite (bind_ok _ _ w3 tt w4).
    2:{ unfold fs_update, FSOps.write_bytes. cbn [w3 w2 w1 after w_fs removelast].
        fold cp. rewrite Hdir. fold cp in Hnodir.
        destruct (w_fs w !! cp) as [[|]|]; [done|congruence|done]. }
    rewrite (bind_ok _ _ w4 (encode (checksums_content version binaries)) w4).
    2:{ unfold fs_query, FSOps.read_bytes. cbn [w4 w_fs]. fold cp.
        by rewrite lookup_insert_eq. }
    fold (manifest_call version binaries). fold mc.
    rewrite (bind_ok _ _ w4 tt w5) by by apply github_ok.
    rewrite (bind_ok _ _ w5 tt w5); [done|].
    apply defender_reminder_ok. intros b Hb. destruct (Hfiles b Hb) as [c Hc].
    cbn [w5 w4 after w_fs].
    destruct (decide (cp = path b)) as [<-|Hne].
    + eexists. apply lookup_insert_eq.
    + exists c. by rewrite lookup_insert_ne.
  - cbn. rewrite <- !app_assoc. done.
Qed.

(** A publication in which the upload of the binary [b] is refused: the
    function returns [False], nothing is sent after the refused upload,
    and the file system is as it was. *)
Lemma create_github_release_upload_refused version done b rest draft e (w : W) :
  all_files (w_fs w) (done ++ [b]) ->
  (forall c msg, e <> SystemExit c msg) ->
  let binaries := done ++ b :: rest in
  let head := [ GetRepo (REPO_OWNER ++ "/" ++ REPO_NAME)%string;
                CreateGitRelease version ("ClaraCore " ++ version)%string
                  (release_notes h version binaries) draft (prerelease_of version) ] in
  serve api (head ++ map (upload_call (w_fs w)) (done ++ [b])) (w_remote w) =
    map (fun _ => Ok tt) (head ++ map (upload_call (w_fs w)) done) ++ [Raise e] ->
  exists w',
    create_github_release h api version binaries draft w = (Ok false, w') /\
    w_sent w' = w_sent w ++ head ++ map (upload_call (w_fs w)) (done ++ [b]) /\
    w_builds w' = w_builds w /\
    w_fs w' = w_fs w.
Proof.
  intros Hfiles Hexc binaries head Hs. unfold head in *.
  set (c1 := GetRepo _) in *. set (c2 := CreateGitRelease _ _ _ _ _) in *.
  change ([c1; c2] ++ ?l) with ([c1] ++ [c2] ++ l) in Hs.
  rewrite !map_app, <- !app_assoc in Hs.
  apply serve_app_inv in Hs as [H1 Hs]; [|done].
  apply serve_app_inv in Hs as [H2 H3]; [|done].
  cbn [map] in H1, H2. rewrite map_map in H3.
  set (w1 := after api [c1] w) in *.
  set (w2 := after api [c2] w1) in *.
  set (w3 := after api (map (upload_call (w_fs w)) (done ++ [b])) w2).
  exists w3. split.
  - unfold create_github_release, try_except. fold binaries. fold c1 c2.
    rewrite (bind_ok _ _ w tt w1) by by apply github_ok.
    rewrite (bind_ok _ _ w1 tt w2) by by apply github_ok.
    rewrite (bind_raise _ _ w2 e w3).
    2:{ unfold binaries. apply (uploads_fail done b rest e w2); [done|].
        cbn [w2 w1 after w_fs w_remote]. by rewrite map_app. }
    destruct e; try done. by destruct (Hexc code msg).
  - cbn. rewrite <- !app_assoc. done.
Qed.

End ReleasePublish.

(** ** [release.py]: the whole run *)

Section ReleaseMain.
Import Release.
Context {R : Type}.
Variable h : host.
Variable api : call -> R -> result unit * R.
Local Abbreviation W := (world BuildTarget call R).

Lemma serve_accept_all (qs : list call) (r : R) :
  (forall c r, fst (api c r) = Ok tt) ->
  serve api qs r = map (fun _ => Ok tt) qs.
Proof.
  intros Hall. revert r. induction qs as [|q qs IH]; intros r; [done|].
  cbn [serve map]. specialize (Hall q r). destruct (api q r) as [a r'].
  cbn in Hall. subst a. by rewrite IH.
Qed.

(** The run up to the end of the build phase. *)
Lemma main_of_build_phase targets (a : args) (w : W) :
  Validator.validate_version (version a) = true ->
  prerequisites h = true ->
  token_available h (w_fs w) a = true ->
  FS.wf (w_fs w) ->
  FS.is_file (w_fs w) [BUILD_DIR] = false ->
  NoDup (filename <$> targets) ->
  exists w1,
    let binaries := omap (artifact h [BUILD_DIR]) targets in
    main_of h api targets a w =
      try_except
        (match binaries with
         | [] => raise (SystemExit 1 "")
         | _ => if build_only a then ret tt
                else let* success :=
                       create_github_release h api (version a) binaries (draft a) in
                     if success then ret tt else raise (SystemExit 1 "")
         end)
        (fun _ => raise (SystemExit 1 "")) w1 /\
    w_builds w1 = w_builds w ++ targets /\
    w_sent w1 = w_sent w /\
    w_remote w1 = w_remote w /\
    w_fs w1 !! [BUILD_DIR] = Some FS.Dir /\
    (forall f, w_fs w1 !! [BUILD_DIR; f] <> Some FS.Dir) /\
    (forall b, b ∈ binaries ->
       w_fs w1 !! path b = Some (FS.File (artifact_bytes h (target b)))).
Proof.
  intros Hv Hp Ht Hwf Hfile Hnd.
  destruct (build_binaries_of_spec h targets (version a) w Hwf Hfile Hnd)
    as (w1 & E1 & Hb1 & Hs1 & Hr1 & Hd1 & Hnd1 & Hart1).
  exists w1. split; [|done].
  unfold main_of. rewrite Hv, Hp. cbn [negb].
  assert ((match token a with
           | Token t => if String.eqb t "" then raise (TypeError "Path(None)") else ret tt
           | TokenFile f =>
               let* w0 := get in
               if negb (FS.exists_ (w_fs w0) f) then raise (SystemExit 1 "")
               else let* data := fs_query (FSOps.read_bytes f) in
                    if text_decodes h data then ret tt
                    else raise (UnicodeDecodeError "read_text")
           end) w = (Ok tt, w)) as Htok.
  { unfold token_available in Ht. destruct (token a) as [tk|f].
    - by destruct (String.eqb tk "").
    - mstep. unfold FS.exists_, FSOps.read_bytes.
      destruct (w_fs w !! f) as [[c|]|] eqn:E; try done. cbn [negb]. by rewrite E, Ht. }
  rewrite (bind_ok _ _ w tt w Htok).
  unfold try_except. unfold bind at 1. rewrite E1. done.
Qed.


Lemma release_calls_published (version : string) (draft : bool)
    (binaries : list binary_info)
    (m : gmap FS.path FS.node) :
  (forall b, b ∈ binaries -> m !! path b = Some (FS.File (artifact_bytes h (target b)))) ->
  release_calls h version draft binaries m = published h version draft binaries.
Proof.
  intros Hm. unfold release_calls, published. do 2 f_equal.
  apply map_ext_in. intros b Hb. apply list_elem_of_In in Hb.
  unfold upload_call, built_upload. by rewrite Hm.
Qed.

Lemma no_artifact_iff targets :
  omap (artifact h [BUILD_DIR]) targets = [] <-> List.filter (compiled h) targets = [].
Proof.
  rewrite <- (artifacts_are_compiled_targets h [BUILD_DIR]).
  by destruct (omap (artifact h [BUILD_DIR]) targets).
Qed.

Section Run.
Variables (targets : list BuildTarget) (a : args) (w : W).
Hypothesis Hversion : Validator.validate_version (version a) = true.
Hypothesis Hprereq : prerequisites h = true.
Hypothesis Htoken : token_available h (w_fs w) a = true.
Hypothesis Hwf : FS.wf (w_fs w).
Hypothesis Hdist : FS.is_file (w_fs w) [BUILD_DIR] = false.
Hypothesis Hnames : NoDup (filename <$> targets).

(** No target compiled: the run is fatal before anything is published. *)
Lemma main_of_no_artifact :
  List.filter (compiled h) targets = [] ->
  exists w',
    main_of h api targets a w = (Raise (SystemExit 1 ""), w') /\
    w_builds w' = w_builds w ++ targets /\
    w_sent w' = w_sent w.
Proof.
  intros Hnone. apply no_artifact_iff in Hnone.
  destruct (main_of_build_phase targets a w) as (w1 & E & Hb & Hs & _); try done.
  exists w1. cbv zeta in E. rewrite E, Hnone. done.
Qed.

(** Some target compiled, build-only mode: the run ends normally. *)
Lemma main_of_build_only :
  List.filter (compiled h) targets <> [] ->
  build_only a = true ->
  exists w',
    main_of h api targets a w = (Ok tt, w') /\
    w_builds w' = w_builds w ++ targets /\
    w_sent w' = w_sent w.
Proof.
  intros Hsome Hbo. rewrite <- no_artifact_iff in Hsome.
  destruct (main_of_build_phase targets a w) as (w1 & E & Hb & Hs & _); try done.
  exists w1. cbv zeta in E. rewrite E, Hbo.
  by destruct (omap (artifact h [BUILD_DIR]) targets).
Qed.

(** Some target compiled and the service accepts every call: the run
    ends normally, whether or not other targets failed. *)
Lemma main_of_published :
  List.filter (compiled h) targets <> [] ->
  build_only a = false ->
  (forall c r, fst (api c r) = Ok tt) ->
  exists w',
    main_of h api targets a w = (Ok tt, w') /\
    w_builds w' = w_builds w ++ targets /\
    w_sent w' = w_sent w ++
      published h (version a) (draft a) (omap (artifact h [BUILD_DIR]) targets).
Proof.
  intros Hsome Hbo Hall. rewrite <- no_artifact_iff in Hsome.
  destruct (main_of_build_phase targets a w)
    as (w1 & E & Hb & Hs & Hr & Hd & Hnd & Hart); try done.
  cbv zeta in E, Hart.
  set (binaries := omap (artifact h [BUILD_DIR]) targets) in *.
  destruct (create_github_release_ok h api (version a) binaries (draft a) w1)
    as (w2 & E2 & Hs2 & Hb2 & Hfs2); try done.
  { intros b Hb'. eexists. by apply Hart. }
  { by apply serve_accept_all. }
  exists w2. rewrite E, Hbo. split.
  - destruct binaries; [done|].
    unfold try_except. rewrite (bind_ok _ _ w1 true w2 E2). done.
  - split; [congruence|]. rewrite Hs2, Hs. f_equal.
    by apply release_calls_published.
Qed.

End Run.

End ReleaseMain.

(** ** [scripts/release.py]: create-or-get *)

Section ScriptsPublish.
Import Scripts.
Context {R : Type}.
Variable h : host.
Variable api : request -> R -> response * R.
Local Abbreviation W := (world (string * string) request R).

Lemma gh_api_run meth url b (w : W) :
  gh_api api meth url b w =
  (api_result (fst (api (Request meth url b) (w_remote w))),
   after api [Request meth url b] w).
Proof.
  unfold gh_api, after. mstep. cbn [serve_state].
  by destruct (api (Request meth url b) (w_remote w)) as [[json|code text|reason] r].
Qed.

(** What [create_or_get_release] does, by the answer to its lookup. *)
Lemma create_or_get_release_run repo tag name notes draft prerelease (w : W) :
  let lookup := lookup_request h repo tag in
  let creation := creation_request h repo tag name notes draft prerelease in
  create_or_get_release h api repo tag name notes draft prerelease w =
  match fst (api lookup (w_remote w)) with
  | Resp2xx rel => (Ok rel, after api [lookup] w)
  | RespError _ _ =>
      (api_result (fst (api creation (serve_state api [lookup] (w_remote w)))),
       after api [lookup; creation] w)
  | NoResponse reason => (Raise (URLError reason), after api [lookup] w)
  end.
Proof.
  intros lookup creation. unfold create_or_get_release.
  rewrite gh_api_run. fold (lookup_request h repo tag). fold lookup.
  destruct (fst (api lookup (w_remote w))) as [rel|code text|reason]; cbn [api_result];
    [done| |done].
  rewrite gh_api_run. fold (creation_request h repo tag name notes draft prerelease).
  fold creation. by rewrite after_app.
Qed.

End ScriptsPublish.

(** ** [scripts/release.py]: the upload loop *)

Section ScriptsUpload.
Import Scripts.
Context {R : Type}.
Variable h : host.
Variable api : request -> R -> response * R.
Local Abbreviation W := (world (string * string) request R).

Lemma gh_upload_asset_run tmpl z (w : W) c :
  w_fs w !! z = Some (FS.File c) ->
  gh_upload_asset h api tmpl z w =
  (match upload_error (fst (api (upload_request h tmpl (w_fs w) z) (w_remote w))) with
   | None => Ok tt
   | Some e => Raise e
   end,
   after api [upload_request h tmpl (w_fs w) z] w).
Proof.
  intros Hc. unfold gh_upload_asset, upload_request, after, FSOps.read_bytes.
  mstep. rewrite Hc. cbn [serve_state].
  by destruct (api _ (w_remote w)) as [[json|code text|reason] r].
Qed.

Lemma scripts_uploads_ok tmpl zips : forall (w : W),
  archives_on_disk (w_fs w) zips ->
  Forall (fun resp => is_2xx resp = true)
         (serve api (map (upload_request h tmpl (w_fs w)) zips) (w_remote w)) ->
  for_each (gh_upload_asset h api tmpl) zips w =
    (Ok tt, after api (map (upload_request h tmpl (w_fs w)) zips) w).
Proof.
  induction zips as [|z zs IH]; intros w Hfiles Hs.
  - cbn. by rewrite after_nil.
  - destruct (Hfiles z) as [c Hc]; [by left|].
    cbn [map serve] in Hs.
    set (q := upload_request h tmpl (w_fs w) z) in *.
    destruct (api q (w_remote w)) as [a r] eqn:E.
    apply Forall_cons in Hs as [Ha Hs].
    cbn [for_each map]. fold q.
    rewrite (bind_ok _ _ w tt (after api [q] w)).
    + rewrite (IH (after api [q] w)).
      * cbn [after w_fs]. by rewrite after_app.
      * cbn [after w_fs]. intros z' Hz'. apply Hfiles. by right.
      * cbn [after w_fs w_remote serve_state]. by rewrite E.
    + rewrite (gh_upload_asset_run tmpl z w c Hc). fold q. rewrite E. cbn [fst].
      by destruct a.
Qed.

Lemma scripts_uploads_refused tmpl done z rest e : forall (w : W),
  archives_on_disk (w_fs w) (done ++ [z]) ->
  Forall (fun resp => is_2xx resp = true)
         (serve api (map (upload_request h tmpl (w_fs w)) done) (w_remote w)) ->
  upload_error (fst (api (upload_request h tmpl (w_fs w) z)
                         (serve_state api (map (upload_request h tmpl (w_fs w)) done)
                                      (w_remote w)))) = Some e ->
  for_each (gh_upload_asset h api tmpl) (done ++ z :: rest) w =
    (Raise e, after api (map (upload_request h tmpl (w_fs w)) (done ++ [z])) w).
Proof.
  induction done as [|d ds IH]; intros w Hfiles Hs Hbad.
  - destruct (Hfiles z) as [c Hc]; [by left|]. cbn [app map for_each serve_state] in *.
    rewrite (bind_raise _ _ w e (after api [upload_request h tmpl (w_fs w) z] w)); [done|].
    rewrite (gh_upload_asset_run tmpl z w c Hc). by rewrite Hbad.
  - destruct (Hfiles d) as [c Hc]; [by left|].
    cbn [map serve serve_state] in Hs, Hbad.
    set (q := upload_request h tmpl (w_fs w) d) in *.
    destruct (api q (w_remote w)) as [a r] eqn:E.
    apply Forall_cons in Hs as [Ha Hs]. cbn [snd] in Hbad.
    cbn [app for_each map]. fold q.
    rewrite (bind_ok _ _ w tt (after api [q] w)).
    + rewrite (IH (after api [q] w)).
      * cbn [after w_fs]. by rewrite after_app.
      * cbn [after w_fs]. intros z' Hz'. apply Hfiles. by right.
      * cbn [after w_fs w_remote serve_state]. by rewrite E.
      * cbn [after w_fs w_remote serve_state]. by rewrite E.
    + rewrite (gh_upload_asset_run tmpl d w c Hc). fold q. rewrite E. cbn [fst].
      by destruct a.
Qed.

End ScriptsUpload.

(** ** [scripts/release.py]: the build phase *)

Lemma remove_if_exists_raises d m e :
  FSOps.remove_if_exists d m = Raise e -> exists s, e = OSError s.
Proof.
  unfold FSOps.remove_if_exists. destruct (m !! d) as [[c|]|]; intros [= <-]; by eexists.
Qed.

Lemma mkdir_parents_raises b d m e :
  FSOps.mkdir_parents b d m = Raise e -> exists s, e = OSError s.
Proof.
  unfold FSOps.mkdir_parents. destruct (existsb _ _); [intros [= <-]; by eexists|].
  destruct (m !! d) as [[c|]|]; try destruct b; intros [= <-]; by eexists.
Qed.

Section ScriptsBuild.
Import Scripts.
Context {R : Type}.
Variable h : host.
Local Abbreviation W := (world (string * string) request R).

Ltac close_run :=
  eexists _, _; split; [reflexivity|]; msimpl;
  split; [done|]; split; [done|];
  split; first [done | intros ? [= <-]; auto].

(** One call of [build_target]: it touches neither the requests sent nor
    the service; it returns only when the compiler succeeded, and every
    way it fails ends the process with status 1. *)
Lemma build_target_run goos goarch out_dir (w : W) :
  exists r w',
    build_target (R:=R) h goos goarch out_dir w = (r, w') /\
    w_sent w' = w_sent w /\
    w_remote w' = w_remote w /\
    (forall p, r = Ok p ->
       exit_ok (go_build h goos goarch) = true /\
       w_builds w' = w_builds w ++ [(goos, goarch)]) /\
    (forall e, r = Raise e ->
       exit_status (Raise e : result unit) = 1%Z /\
       (w_builds w' = w_builds w \/ w_builds w' = w_builds w ++ [(goos, goarch)])).
Proof.
  unfold build_target, run_go_build. mstep.
  destruct (FSOps.mkdir_parents true out_dir (w_fs w)) as [m1|e1] eqn:E1; msimpl.
  - destruct (exit_ok (go_build h goos goarch)) eqn:Eok; msimpl.
    + match goal with |- context [FS.exists_ ?m ?p] => destruct (FS.exists_ m p) end;
        msimpl; close_run.
    + close_run.
  - apply mkdir_parents_raises in E1 as [s ->]. close_run.
Qed.

(** The build loop stops at the first target that fails. *)
Lemma build_all_aborts done t rest : forall (w : W),
  exit_ok (go_build h t.1 t.2) = false ->
  exists e w',
    build_all (R:=R) h (done ++ t :: rest) w = (Raise e, w') /\
    exit_status (Raise e : result unit) = 1%Z /\
    w_sent w' = w_sent w /\
    w_remote w' = w_remote w /\
    exists l, w_builds w' = w_builds w ++ l /\ l `prefix_of` (done ++ [t]).
Proof.
  induction done as [|[goos goarch] ds IH]; intros w Hfail.
  - destruct t as [goos goarch]. cbn [app build_all].
    set (out_dir := build_dir h goos goarch).
    destruct (build_target_run goos goarch out_dir w) as (r & w1 & E & Hs & Hr & Hok & Hraise).
    destruct r as [p|e].
    + destruct (Hok p eq_refl) as [Habs _]. cbn in Hfail. congruence.
    + destruct (Hraise e eq_refl) as [Hex Hb].
      exists e, w1. rewrite (bind_raise _ _ w e w1 E). repeat split; try done.
      destruct Hb as [Hb|Hb].
      * exists []. rewrite app_nil_r. split; [done|]. apply prefix_nil.
      * exists [(goos, goarch)]. done.
  - cbn [app build_all]. set (out_dir := build_dir h goos goarch).
    destruct (build_target_run goos goarch out_dir w) as (r & w1 & E & Hs & Hr & Hok & Hraise).
    destruct r as [p|e].
    + destruct (Hok p eq_refl) as [_ Hb].
      destruct (IH w1 Hfail) as (e & w2 & E2 & Hex & Hs2 & Hr2 & l & Hb2 & Hl).
      exists e, w2. rewrite (bind_ok _ _ w p w1 E), (bind_raise _ _ w1 e w2 E2).
      repeat split; try congruence.
      exists ((goos, goarch) :: l). split.
      * rewrite Hb2, Hb, <- app_assoc. done.
      * by apply prefix_cons.
    + destruct (Hraise e eq_refl) as [Hex Hb].
      exists e, w1. rewrite (bind_raise _ _ w e w1 E). repeat split; try done.
      destruct Hb as [Hb|Hb].
      * exists []. rewrite app_nil_r. split; [done|]. apply prefix_nil.
      * exists [(goos, goarch)]. split; [done|]. apply prefix_cons, prefix_nil.
Qed.

Lemma build_ui_run (w : W) :
  exists r, build_ui (R:=R) h w = (r, w) /\
            forall e, r = Raise e -> exit_status (Raise e : result unit) = 1%Z.
Proof.
  unfold build_ui. mstep.
  repeat (match goal with |- context [if ?b then _ else _] => destruct b end; msimpl);
    eexists; (split; [reflexivity|]); first [done | by intros ? [= <-]].
Qed.

Ltac stop_here :=
  eexists _, _; split; [reflexivity|]; split; [done|]; split; [done|];
  exists []; rewrite app_nil_r; split; [done | apply prefix_nil].

(** A run of [main] in which some target fails to compile: the process
    ends with status 1, nothing is sent, and no target after the failing
    one is compiled. *)
Lemma main_of_aborts (api : request -> R -> response * R) done t rest (a : args) (w : W) :
  exit_ok (go_build h t.1 t.2) = false ->
  exists e w',
    main_of h api (done ++ t :: rest) a w = (Raise e, w') /\
    exit_status (Raise e : result unit) = 1%Z /\
    w_sent w' = w_sent w /\
    exists l, w_builds w' = w_builds w ++ l /\ l `prefix_of` (done ++ [t]).
Proof.
  intros Hfail. unfold main_of.
  match goal with |- context [if ?b then _ else _] => destruct b end; [stop_here|].
  destruct (go_found h); cbn [negb]; [|stop_here].
  unfold bind at 1. unfold fs_update at 1.
  destruct (FSOps.remove_if_exists (DIST h) (w_fs w)) as [m1|e1] eqn:E1.
  2:{ apply remove_if_exists_raises in E1 as [s ->]. stop_here. }
  unfold bind at 1. unfold fs_update at 1. cbn [w_fs].
  destruct (FSOps.mkdir_parents false (DIST h) m1) as [m2|e2] eqn:E2.
  2:{ apply mkdir_parents_raises in E2 as [s ->]. stop_here. }
  msimpl. set (w2 := World m2 _ _ _).
  destruct (build_ui_run w2) as (r & Eui & Hui).
  unfold bind at 1. rewrite Eui. destruct r as [[]|e].
  2:{ specialize (Hui e eq_refl). stop_here. }
  destruct (build_all_aborts done t rest w2 Hfail)
    as (e & w3 & E3 & Hex & Hs3 & Hr3 & l & Hb3 & Hl).
  rewrite (bind_raise _ _ w2 e w3 E3). exists e, w3.
  split; [done|]. split; [done|]. split; [done|]. by exists l.
Qed.

End ScriptsBuild.

(** ** Requests are only ever appended *)

Section Extends.
Context {B Q R : Type}.
Local Abbreviation W := (world B Q R).

Lemma extends_ret {A} (a : A) : extends (ret a : M W A).
Proof. intros w. exists []. cbn. by rewrite app_nil_r. Qed.

Lemma extends_raise {A} e : extends (raise e : M W A).
Proof. intros w. exists []. cbn. by rewrite app_nil_r. Qed.

Lemma extends_bind {A C} (m : M W A) (k : A -> M W C) :
  extends m -> (forall a, extends (k a)) -> extends (bind m k).
Proof.
  intros Hm Hk w. unfold bind. destruct (Hm w) as [l Hl].
  destruct (m w) as [[a|e] w1]; cbn in *.
  - destruct (Hk a w1) as [l' Hl']. exists (l ++ l'). by rewrite Hl', Hl, app_assoc.
  - by exists l.
Qed.

Lemma extends_try_except {A} (m : M W A) handler :
  extends m -> (forall e, extends (handler e)) -> extends (try_except m handler).
Proof.
  intros Hm Hh w. unfold try_except. destruct (Hm w) as [l Hl].
  destruct (m w) as [[a|e] w1]; cbn in *; [by exists l|].
  destruct (Hh e w1) as [l' Hl'].
  destruct e; first [by exists l | exists (l ++ l'); by rewrite Hl', Hl, app_assoc].
Qed.

Lemma extends_fs_update f : extends (fs_update (B:=B) (Q:=Q) (R:=R) f).
Proof.
  intros w. exists []. unfold fs_update. rewrite app_nil_r. by destruct (f (w_fs w)).
Qed.

Lemma extends_fs_query {X} (f : gmap FS.path FS.node -> result X) :
  extends (fs_query (B:=B) (Q:=Q) (R:=R) f).
Proof. intros w. exists []. cbn. by rewrite app_nil_r. Qed.

Lemma extends_for_each {A} (body : A -> M W unit) xs :
  (forall x, extends (body x)) -> extends (for_each body xs).
Proof.
  intros Hb. induction xs as [|x xs IH]; cbn [for_each].
  - apply extends_ret.
  - apply extends_bind; [apply Hb | by intros _].
Qed.

End Extends.

Section ReleaseTrace.
Import Release.
Context {R : Type}.
Variable h : host.
Variable api : call -> R -> result unit * R.
Local Abbreviation W := (world BuildTarget call R).

Lemma extends_github c : extends (github api c : M W unit).
Proof. intros w. exists [c]. by rewrite github_run. Qed.

Lemma extends_upload_binary b : extends (upload_binary api b : M W unit).
Proof.
  unfold upload_binary. apply extends_bind; [apply extends_fs_query|].
  intros data. apply extends_github.
Qed.

Lemma defender_reminder_quiet binaries (w : W) :
  snd (defender_reminder (R:=R) binaries w) = w.
Proof.
  induction binaries as [|b bs IH]; [done|]. cbn [defender_reminder].
  destruct (String.eqb (goos (target b)) "windows"); [|done].
  mstep. by destruct (Checksum.calculate_sha256 (w_fs w) (path b)).
Qed.

(** [create_github_release] asks for the release to be created as soon
    as the repository was found; it looks nothing up. *)
Lemma create_github_release_first_calls version binaries draft (w : W) :
  let c1 := GetRepo (REPO_OWNER ++ "/" ++ REPO_NAME)%string in
  let c2 := CreateGitRelease version ("ClaraCore " ++ version)%string
              (release_notes h version binaries) draft (prerelease_of version) in
  let w' := snd (create_github_release h api version binaries draft w) in
  match fst (api c1 (w_remote w)) with
  | Ok _ => exists rest, w_sent w' = w_sent w ++ c1 :: c2 :: rest
  | Raise _ => w_sent w' = w_sent w ++ [c1]
  end.
Proof.
  intros c1 c2 w'. unfold w', create_github_release. fold c1 c2.
  destruct (fst (api c1 (w_remote w))) as [[]|e] eqn:E1.
  - unfold try_except. unfold bind at 1. rewrite github_run, E1.
    set (w1 := after api [c1] w).
    unfold bind at 1. rewrite github_run.
    set (w2 := after api [c2] w1).
    assert (w_sent w2 = w_sent w ++ [c1; c2]) as Hw2.
    { cbn. by rewrite <- app_assoc. }
    destruct (fst (api c2 (w_remote w1))) as [[]|e2].
    + match goal with |- context [bind ?m ?k w2] => set (rest := bind m k) end.
      assert (extends rest) as Hrest.
      { unfold rest. apply extends_bind;
          [apply extends_for_each; intros; apply extends_upload_binary|].
        intros _. apply extends_bind; [apply extends_fs_update|].
        intros _. apply extends_bind; [apply extends_fs_query|].
        intros data. apply extends_bind; [apply extends_github|].
        intros _. apply extends_bind; [|intros; apply extends_ret].
        intros w0. exists []. by rewrite defender_reminder_quiet, app_nil_r. }
      destruct (Hrest w2) as [l Hl]. exists l.
      destruct (rest w2) as [[b|e] w3]; cbn [snd] in Hl |- *.
      * by rewrite Hl, Hw2, <- app_assoc.
      * destruct e; unfold ret; cbn [snd]; by rewrite Hl, Hw2, <- app_assoc.
    + exists []. destruct e2; unfold ret; cbn [snd]; by rewrite Hw2.
  - unfold try_except. unfold bind at 1. rewrite github_run, E1.
    destruct e; done.
Qed.

End ReleaseTrace.

(** ** Substrings *)

Lemma startswith_iff (s p : string) :
  Py.startswith s p = true <-> exists post, s = (p ++ post)%string.
Proof.
  revert s. induction p as [|c p IH]; intros s; cbn.
  - split; [by exists s|done].
  - destruct s as [|d s]; cbn.
    + split; [done|]. by intros [post Hpost].
    + rewrite andb_true_iff, Ascii.eqb_eq, IH. split.
      * intros [-> [post ->]]. by exists post.
      * intros [post [= -> ->]]. split; [done|by exists post].
Qed.

Lemma contains_unfold (s sub : string) :
  Py.contains s sub =
  Py.startswith s sub ||
  match s with
  | EmptyString => false
  | String _ s' => Py.contains s' sub
  end.
Proof. by destruct s. Qed.

(** [s.find(sub) != -1] holds exactly when [sub] is a substring of [s]. *)
Lemma contains_iff (s sub : string) :
  Py.contains s sub = true <-> exists pre post, s = (pre ++ sub ++ post)%string.
Proof.
  induction s as [|c s IH]; rewrite contains_unfold, orb_true_iff, startswith_iff.
  - split.
    + intros [[post ->]|?]; [|done]. by exists EmptyString, post.
    + intros ([|d pre] & post & Heq); cbn in Heq; [left; by exists post|done].
  - rewrite IH. split.
    + intros [[post ->]|(pre & post & ->)].
      * by exists EmptyString, post.
      * by exists (String c pre), post.
    + intros ([|d pre] & post & Heq); cbn in Heq.
      * left. by exists post.
      * injection Heq as -> ->. right. by exists pre, post.
Qed.

(** ** [create_or_get_release] and the prerelease flag *)

(** C1 (as the specification words it, refuted): a lookup that is refused
    with status 401, an authentication failure and not a missing
    resource, is followed by a creation request all the same. *)
Lemma create_or_get_release_creates_after_auth_failure :
  let w : world (string * string) Scripts.request (list Scripts.response) :=
    World ∅ [] [] [Scripts.RespError 401 "Bad credentials";
                   Scripts.Resp2xx Fixtures.release_json] in
  let run := Scripts.create_or_get_release Fixtures.no_darwin Fixtures.rest
               "o/r" "v1.0.0" "" "" false false w in
  fst run = Ok Fixtures.release_json /\
  w_sent (snd run) =
    [Scripts.lookup_request Fixtures.no_darwin "o/r" "v1.0.0";
     Scripts.creation_request Fixtures.no_darwin "o/r" "v1.0.0" "" "" false false].
Proof. cbv zeta. by rewrite create_or_get_release_run. Qed.

(** C1 (amended): [create_or_get_release] reuses the release the lookup
    returns and sends nothing more; when the lookup is answered with an
    HTTP error status, whichever it is, it sends exactly one creation
    request, whose outcome is the outcome of the call; when the lookup
    gets no answer at all the call fails without a creation request.
    [create_github_release] of [release.py] looks nothing up: once the
    repository is found its next call asks for the release to be
    created. *)
Theorem create_or_get_release_by_lookup {R R' : Type}
    (h : Scripts.host) (api : Scripts.request -> R -> Scripts.response * R)
    (repo tag name notes : string) (draft prerelease : bool)
    (w : world (string * string) Scripts.request R)
    (h' : Release.host) (api' : Release.call -> R' -> result unit * R')
    (version : string) (binaries : list Release.binary_info) (draft' : bool)
    (v : world Release.BuildTarget Release.call R') :
  let lookup := Scripts.lookup_request h repo tag in
  let creation := Scripts.creation_request h repo tag name notes draft prerelease in
  let run := Scripts.create_or_get_release h api repo tag name notes draft prerelease w in
  let c1 := Release.GetRepo (Release.REPO_OWNER ++ "/" ++ Release.REPO_NAME)%string in
  let c2 := Release.CreateGitRelease version ("ClaraCore " ++ version)%string
              (Release.release_notes h' version binaries) draft'
              (Release.prerelease_of version) in
  let v' := snd (Release.create_github_release h' api' version binaries draft' v) in
  match fst (api lookup (w_remote w)) with
  | Scripts.Resp2xx rel =>
      fst run = Ok rel /\ w_sent (snd run) = w_sent w ++ [lookup]
  | Scripts.RespError _ _ =>
      fst run = Scripts.api_result
                  (fst (api creation (snd (api lookup (w_remote w))))) /\
      w_sent (snd run) = w_sent w ++ [lookup; creation]
  | Scripts.NoResponse reason =>
      fst run = Raise (URLError reason) /\
      exit_status (fst run) = 1%Z /\
      w_sent (snd run) = w_sent w ++ [lookup]
  end /\
  match fst (api' c1 (w_remote v)) with
  | Ok _ => exists rest, w_sent v' = w_sent v ++ c1 :: c2 :: rest
  | Raise _ => w_sent v' = w_sent v ++ [c1]
  end.
Proof.
  intros lookup creation run c1 c2 v'. split.
  - unfold run. rewrite create_or_get_release_run. fold lookup creation.
    by destruct (fst (api lookup (w_remote w))).
  - apply create_github_release_first_calls.
Qed.

(** C6 (as the specification words it, refuted): in [scripts/release.py]
    a tag that contains the marker [rc] is published with the prerelease
    flag off when the operator did not pass [--prerelease]. *)
Lemma prerelease_flag_ignores_tag_marker :
  let w : world (string * string) Scripts.request (list Scripts.response) :=
    World ∅ [] [] [Scripts.RespError 404 "Not Found";
                   Scripts.Resp2xx Fixtures.release_json] in
  let a := Fixtures.scripts_args in
  let run := Scripts.create_or_get_release Fixtures.no_darwin Fixtures.rest "o/r"
               (Scripts.a_tag a) (Scripts.str_or (Scripts.a_name a) (Scripts.a_tag a))
               (Scripts.a_notes a) (Scripts.a_draft a) (Scripts.a_prerelease a) w in
  Py.contains (Scripts.a_tag a) "rc" = true /\
  exists p,
    last (w_sent (snd run)) =
      Some (Scripts.Request Scripts.POST (Scripts.releases_url "o/r") (Scripts.JsonBody p)) /\
    Scripts.tag_name p = "v1.0.0-rc1" /\
    Scripts.prerelease p = false.
Proof.
  cbv zeta. split; [by vm_compute|]. rewrite create_or_get_release_run.
  eexists. split; [reflexivity|]. done.
Qed.

(** C6 (amended): [release.py] sets the prerelease flag of the release it
    creates exactly when the version contains [alpha], [beta] or [rc] as
    a substring, and the operator cannot ask for it; [scripts/release.py]
    sets it to the operator's [--prerelease] option, whatever the tag. *)
Theorem prerelease_flag_by_pipeline {R R' : Type}
    (h : Scripts.host) (api : Scripts.request -> R -> Scripts.response * R)
    (repo tag name notes : string) (draft prerelease : bool)
    (w : world (string * string) Scripts.request R)
    (h' : Release.host) (api' : Release.call -> R' -> result unit * R')
    (version : string) (binaries : list Release.binary_info) (draft' : bool)
    (v : world Release.BuildTarget Release.call R') :
  let lookup := Scripts.lookup_request h repo tag in
  let run := Scripts.create_or_get_release h api repo tag name notes draft prerelease w in
  let c1 := Release.GetRepo (Release.REPO_OWNER ++ "/" ++ Release.REPO_NAME)%string in
  let v' := snd (Release.create_github_release h' api' version binaries draft' v) in
  match fst (api' c1 (w_remote v)) with
  | Ok _ =>
      exists flag rest,
        w_sent v' = w_sent v ++
          c1 :: Release.CreateGitRelease version ("ClaraCore " ++ version)%string
                  (Release.release_notes h' version binaries) draft' flag :: rest /\
        (flag = true <->
         exists marker pre post,
           marker ∈ ["alpha"; "beta"; "rc"] /\ version = (pre ++ marker ++ post)%string)
  | Raise _ => w_sent v' = w_sent v ++ [c1]
  end /\
  match fst (api lookup (w_remote w)) with
  | Scripts.RespError _ _ =>
      exists p,
        w_sent (snd run) = w_sent w ++
          [lookup;
           Scripts.Request Scripts.POST (Scripts.releases_url repo) (Scripts.JsonBody p)] /\
        Scripts.tag_name p = tag /\
        Scripts.prerelease p = prerelease
  | _ => w_sent (snd run) = w_sent w ++ [lookup]
  end.
Proof.
  intros lookup run c1 v'. split.
  - pose proof (create_github_release_first_calls h' api' version binaries draft' v) as H.
    cbv zeta in H. fold c1 v' in H.
    destruct (fst (api' c1 (w_remote v))); [|done].
    destruct H as [rest Hrest]. exists (Release.prerelease_of version), rest.
    split; [done|]. unfold Release.prerelease_of.
    rewrite !orb_true_iff, !contains_iff. split.
    + intros [[(pre & post & ->)|(pre & post & ->)]|(pre & post & ->)];
        eexists _, pre, post; (split; [|reflexivity]); set_solver.
    + intros (marker & pre & post & Hm & ->).
      apply elem_of_cons in Hm as [->|Hm]; [left; left; by exists pre, post|].
      apply elem_of_cons in Hm as [->|Hm]; [left; right; by exists pre, post|].
      apply elem_of_cons in Hm as [->|Hm]; [right; by exists pre, post|].
      by apply elem_of_nil in Hm.
  - unfold run. rewrite create_or_get_release_run. fold lookup.
    destruct (fst (api lookup (w_remote w))); try done.
    eexists. split; [reflexivity|]. done.
Qed.

(** ** The checksum manifest *)

Lemma string_app_assoc (a b c : string) : ((a ++ b) ++ c = a ++ (b ++ c))%string.
Proof. induction a as [|x a IH]; [done|]. exact (f_equal (String x) IH). Qed.

Lemma string_app_nil_r (a : string) : (a ++ "")%string = a.
Proof. induction a as [|x a IH]; [done|]. exact (f_equal (String x) IH). Qed.

Lemma fold_lines {A} (line : A -> string) (xs : list A) (base : string) :
  fold_left (fun acc x => (acc ++ line x)%string) xs base =
  (base ++ fold_left (fun acc x => (acc ++ line x)%string) xs "")%string.
Proof.
  revert base. induction xs as [|x xs IH]; intros base; cbn [fold_left].
  - by rewrite string_app_nil_r.
  - rewrite IH, (IH ("" ++ line x)%string). cbn. by rewrite string_app_assoc.
Qed.

(** The manifest is its two-line header followed by the lines of the
    artifacts. *)
Lemma checksums_content_layout version binaries :
  Release.checksums_content version binaries =
  ("# SHA256 Checksums for ClaraCore " ++ version ++ nl ++ nl ++
   Release.spec_manifest binaries)%string.
Proof.
  unfold Release.checksums_content, Release.spec_manifest.
  rewrite fold_lines. by rewrite !string_app_assoc.
Qed.

Lemma spec_manifest_cons b binaries :
  Release.spec_manifest (b :: binaries) =
  (Release.sha256 b ++ "  " ++ Release.filename (Release.target b) ++ nl ++
   Release.spec_manifest binaries)%string.
Proof.
  unfold Release.spec_manifest. cbn [fold_left]. rewrite fold_lines.
  unfold Release.checksum_line. cbn. by rewrite !string_app_assoc.
Qed.

(** C5 (as the specification words it, refuted): the manifest of a run
    with one artifact is not the single line of that artifact. *)
Lemma checksums_content_has_header :
  Release.checksums_content "v1.0.0" [Fixtures.linux_binary] <>
  Release.spec_manifest [Fixtures.linux_binary].
Proof. by vm_compute. Qed.

(** C5 (amended): the manifest [release.py] writes is a header line, an
    empty line, and then exactly one line per artifact, digest, two
    spaces, file name; when every call is accepted it is uploaded as
    [checksums.txt] after all the binaries, as the last asset.
    [scripts/release.py] uploads its archives and nothing else. *)
Theorem checksum_manifest_layout_and_upload {R R' : Type}
    (h : Release.host) (api : Release.call -> R -> result unit * R)
    (version : string) (binaries : list Release.binary_info) (draft : bool)
    (w : world Release.BuildTarget Release.call R)
    (h' : Scripts.host) (api' : Scripts.request -> R' -> Scripts.response * R')
    (tmpl : string) (zips : list FS.path)
    (v : world (string * string) Scripts.request R') :
  Release.all_files (w_fs w) binaries ->
  w_fs w !! [Release.BUILD_DIR] = Some FS.Dir ->
  w_fs w !! [Release.BUILD_DIR; "checksums.txt"] <> Some FS.Dir ->
  serve api (Release.release_calls h version draft binaries (w_fs w)) (w_remote w) =
    map (fun _ => Ok tt) (Release.release_calls h version draft binaries (w_fs w)) ->
  Scripts.archives_on_disk (w_fs v) zips ->
  Forall (fun resp => Scripts.is_2xx resp = true)
         (serve api' (map (Scripts.upload_request h' tmpl (w_fs v)) zips) (w_remote v)) ->
  let manifest := Release.checksums_content version binaries in
  let w' := snd (Release.create_github_release h api version binaries draft w) in
  let v' := snd (for_each (Scripts.gh_upload_asset h' api' tmpl) zips v) in
  manifest = ("# SHA256 Checksums for ClaraCore " ++ version ++ nl ++ nl ++
              Release.spec_manifest binaries)%string /\
  Release.spec_manifest [] = "" /\
  (forall b bs, Release.spec_manifest (b :: bs) =
     (Release.sha256 b ++ "  " ++ Release.filename (Release.target b) ++ nl ++
      Release.spec_manifest bs)%string) /\
  w_fs w' !! [Release.BUILD_DIR; "checksums.txt"] = Some (FS.File (encode manifest)) /\
  (exists head,
     w_sent w' = w_sent w ++ head ++ map (Release.upload_call (w_fs w)) binaries ++
                 [Release.UploadAsset "checksums.txt" "text/plain" (encode manifest)]) /\
  w_sent v' = w_sent v ++ map (Scripts.upload_request h' tmpl (w_fs v)) zips.
Proof.
  intros Hfiles Hdir Hnodir Hs Hzips Hs' manifest w' v'.
  split; [apply checksums_content_layout|]. split; [done|].
  split; [apply spec_manifest_cons|].
  destruct (create_github_release_ok h api version binaries draft w Hfiles Hdir Hnodir Hs)
    as (w1 & E & Hsent & _ & Hfs).
  unfold w', v'. rewrite E. cbn [snd]. split; [|split].
  - rewrite Hfs. apply lookup_insert_eq.
  - rewrite Hsent. unfold Release.release_calls. by eexists.
  - by rewrite scripts_uploads_ok.
Qed.

Lemma checksum_manifest_layout_and_upload_witness :
  let w' := snd (Release.create_github_release Fixtures.linux_only Fixtures.accepting
                   "v1.0.0" [Fixtures.linux_binary] false (Fixtures.built_world tt)) in
  w_fs w' !! [Release.BUILD_DIR; "checksums.txt"] =
    Some (FS.File (encode (Release.checksums_content "v1.0.0" [Fixtures.linux_binary]))).
Proof.
  refine (proj1 (proj2 (proj2 (proj2
    (checksum_manifest_layout_and_upload
       Fixtures.linux_only Fixtures.accepting "v1.0.0" [Fixtures.linux_binary] false
       (Fixtures.built_world tt)
       Fixtures.no_darwin Fixtures.rest Fixtures.upload_url [Fixtures.zip_path]
       (Fixtures.zipped_world [Scripts.Resp2xx ∅]) _ _ _ _ _ _))))).
  - intros b Hb. apply list_elem_of_singleton in Hb as ->. by eexists.
  - reflexivity.
  - by vm_compute.
  - by apply serve_accept_all.
  - intros z Hz. apply list_elem_of_singleton in Hz as ->. by eexists.
  - repeat constructor.
Defined.

(** ** Refused uploads *)

(** C4: when the upload of an archive or binary is refused, by a
    conflict or any other error status or by the network, the run stops
    with an explicit error: [scripts/release.py] raises (for an HTTP
    status, [SystemExit] with the status and the body of the answer),
    [create_github_release] of [release.py] returns [False]; the refused
    upload is the last request sent, so nothing is retried, replaced or
    deleted and the remaining assets are not uploaded; the files on disk
    are left as they were. *)
Theorem upload_refusal_is_explicit_and_final {R R' : Type}
    (h : Scripts.host) (api : Scripts.request -> R -> Scripts.response * R)
    (tmpl : string) (done : list FS.path) (z : FS.path) (rest : list FS.path)
    (w : world (string * string) Scripts.request R)
    (h' : Release.host) (api' : Release.call -> R' -> result unit * R')
    (version : string) (done' : list Release.binary_info) (b : Release.binary_info)
    (rest' : list Release.binary_info) (draft : bool) (e : exn)
    (v : world Release.BuildTarget Release.call R') :
  let up := Scripts.upload_request h tmpl (w_fs w) in
  let bad := fst (api (up z) (serve_state api (map up done) (w_remote w))) in
  let binaries := done' ++ b :: rest' in
  let head := [ Release.GetRepo (Release.REPO_OWNER ++ "/" ++ Release.REPO_NAME)%string;
                Release.CreateGitRelease version ("ClaraCore " ++ version)%string
                  (Release.release_notes h' version binaries) draft
                  (Release.prerelease_of version) ] in
  let up' := Release.upload_call (w_fs v) in
  Scripts.archives_on_disk (w_fs w) (done ++ [z]) ->
  Forall (fun resp => Scripts.is_2xx resp = true) (serve api (map up done) (w_remote w)) ->
  Scripts.is_2xx bad = false ->
  Release.all_files (w_fs v) (done' ++ [b]) ->
  (forall c msg, e <> SystemExit c msg) ->
  serve api' (head ++ map up' (done' ++ [b])) (w_remote v) =
    map (fun _ => Ok tt) (head ++ map up' done') ++ [Raise e] ->
  let run := for_each (Scripts.gh_upload_asset h api tmpl) (done ++ z :: rest) w in
  let run' := Release.create_github_release h' api' version binaries draft v in
  (exists err,
     fst run = Raise err /\
     exit_status (fst run) = 1%Z /\
     Scripts.upload_error bad = Some err /\
     forall code text, bad = Scripts.RespError code text ->
       err = SystemExit 1 ("Asset upload failed (" ++ pretty code ++ "): " ++ text)%string) /\
  w_sent (snd run) = w_sent w ++ map up (done ++ [z]) /\
  w_fs (snd run) = w_fs w /\
  fst run' = Ok false /\
  w_sent (snd run') = w_sent v ++ head ++ map up' (done' ++ [b]) /\
  w_fs (snd run') = w_fs v.
Proof.
  intros up bad binaries head up' Hzips Hs Hbad Hfiles Hexc Hs' run run'.
  assert (exists err, Scripts.upload_error bad = Some err) as [err Herr].
  { destruct bad; [done|by eexists|by eexists]. }
  unfold run. rewrite (scripts_uploads_refused h api tmpl done z rest err w Hzips Hs Herr).
  cbn [fst snd after w_sent w_fs]. split; [|split; [done|split; [done|]]].
  - exists err. split; [done|]. split.
    + destruct bad; cbn in Herr; [done| |]; by injection Herr as <-.
    + split; [done|]. intros code text Hb. rewrite Hb in Herr. cbn in Herr. congruence.
  - destruct (create_github_release_upload_refused h' api' version done' b rest' draft e v
                Hfiles Hexc Hs') as (v1 & E & Hsent & _ & Hfs).
    unfold run', binaries. rewrite E. done.
Qed.

Lemma upload_refusal_is_explicit_and_final_witness :
  let run := for_each (Scripts.gh_upload_asset Fixtures.no_darwin Fixtures.rest
                         Fixtures.upload_url)
               [Fixtures.zip_path]
               (Fixtures.zipped_world [Scripts.RespError 422 "already_exists"]) in
  fst run = Raise (SystemExit 1 "Asset upload failed (422): already_exists") /\
  List.length (w_sent (snd run)) = 1%nat.
Proof.
  destruct (upload_refusal_is_explicit_and_final
              Fixtures.no_darwin Fixtures.rest Fixtures.upload_url [] Fixtures.zip_path []
              (Fixtures.zipped_world [Scripts.RespError 422 "already_exists"])
              Fixtures.linux_only Fixtures.answering "v1.0.0" [] Fixtures.linux_binary []
              false (GithubException 422 "already_exists")
              (Fixtures.built_world
                 [Ok tt; Ok tt; Raise (GithubException 422 "already_exists")]))
    as ((err & Hrun & _ & _ & Herr) & Hsent & _).
  - intros z Hz. apply list_elem_of_singleton in Hz as ->. by eexists.
  - constructor.
  - reflexivity.
  - intros b Hb. apply list_elem_of_singleton in Hb as ->. by eexists.
  - done.
  - reflexivity.
  - cbn [app] in Hrun, Hsent. cbv zeta. rewrite Hrun, Hsent. split; [|done].
    by rewrite (Herr 422%Z "already_exists" eq_refl).
Defined.

(** ** Failing targets *)

(** C2 (as the specification words it, refuted): in [scripts/release.py]
    the failure of the first target ends the run; the two targets after
    it, which would compile, are never attempted. *)
Lemma scripts_build_stops_at_first_failure :
  let run := Scripts.main Fixtures.no_darwin Fixtures.rest Fixtures.scripts_args
               (World ∅ [] [] []) in
  exit_ok (Scripts.go_build Fixtures.no_darwin "darwin" "arm64") = false /\
  exit_ok (Scripts.go_build Fixtures.no_darwin "windows" "amd64") = true /\
  exit_ok (Scripts.go_build Fixtures.no_darwin "linux" "amd64") = true /\
  exit_status (fst run) = 1%Z /\
  w_builds (snd run) = [("darwin", "arm64")].
Proof. by vm_compute. Qed.

(** C3 (as the specification words it, refuted): with one target that
    compiles and one that does not, [release.py] publishes and ends with
    status 0. *)
Lemma partial_matrix_exits_zero :
  let run := Release.main_of Fixtures.linux_only Fixtures.accepting
               [Fixtures.linux; Fixtures.windows] Fixtures.release_args
               (World ∅ [] [] tt) in
  Release.compiled Fixtures.linux_only Fixtures.linux = true /\
  Release.compiled Fixtures.linux_only Fixtures.windows = false /\
  exit_status (fst run) = 0%Z.
Proof.
  cbv zeta. split; [done|]. split; [done|].
  assert (NoDup (Release.filename <$> [Fixtures.linux; Fixtures.windows])) as Hnd.
  { apply NoDup_cons. split; [by rewrite list_elem_of_singleton|apply NoDup_singleton]. }
  destruct (main_of_published Fixtures.linux_only Fixtures.accepting
              [Fixtures.linux; Fixtures.windows] Fixtures.release_args
              (World ∅ [] [] tt) eq_refl eq_refl eq_refl wf_empty eq_refl Hnd)
    as (w' & E & _); [done|done|done|].
  by rewrite E.
Qed.

(** C3 (amended): with targets [A; B] of which [A] compiles and [B] does
    not, the artifact list of [release.py] holds exactly the binary of
    [A]; in build-only mode nothing is sent, otherwise, the service
    accepting every call, the binary of [A] and the manifest are
    published; either way the run ends with status 0. *)
Theorem partial_matrix_run {R : Type}
    (h : Release.host) (api : Release.call -> R -> result unit * R)
    (A B : Release.BuildTarget) (a : Release.args)
    (w : world Release.BuildTarget Release.call R) :
  Release.compiled h A = true ->
  Release.compiled h B = false ->
  Release.filename A <> Release.filename B ->
  Validator.validate_version (Release.version a) = true ->
  Release.prerequisites h = true ->
  Release.token_available h (w_fs w) a = true ->
  FS.wf (w_fs w) ->
  FS.is_file (w_fs w) [Release.BUILD_DIR] = false ->
  (forall c r, fst (api c r) = Ok tt) ->
  let built := Release.build_binaries_of (R:=R) h [A; B] (Release.version a) w in
  let run := Release.main_of h api [A; B] a w in
  exists bA,
    Release.artifact h [Release.BUILD_DIR] A = Some bA /\
    fst built = Ok [bA] /\
    fst run = Ok tt /\
    exit_status (fst run) = 0%Z /\
    w_builds (snd run) = w_builds w ++ [A; B] /\
    w_sent (snd run) =
      w_sent w ++ (if Release.build_only a then []
                   else Release.published h (Release.version a) (Release.draft a) [bA]).
Proof.
  intros HA HB Hne Hv Hp Ht Hwf Hdist Hall built run.
  assert (NoDup (Release.filename <$> [A; B])) as Hnd.
  { apply NoDup_cons. split; [by rewrite list_elem_of_singleton|apply NoDup_singleton]. }
  assert (exists bA, Release.artifact h [Release.BUILD_DIR] A = Some bA) as [bA HbA].
  { unfold Release.artifact. rewrite HA. by eexists. }
  assert (omap (Release.artifact h [Release.BUILD_DIR]) [A; B] = [bA]) as Hart.
  { cbn [omap list_omap]. rewrite HbA. unfold Release.artifact at 1. by rewrite HB. }
  assert (List.filter (Release.compiled h) [A; B] <> []) as Hsome.
  { cbn [List.filter]. by rewrite HA. }
  exists bA. split; [done|]. split.
  { destruct (build_binaries_of_spec h [A; B] (Release.version a) w Hwf Hdist Hnd)
      as (w1 & E1 & _). unfold built. by rewrite E1, Hart. }
  unfold run. destruct (Release.build_only a) eqn:Hbo.
  - destruct (main_of_build_only h api [A; B] a w Hv Hp Ht Hwf Hdist Hnd Hsome Hbo)
      as (w2 & E2 & Hb2 & Hs2). rewrite E2. cbn [fst snd].
    by rewrite Hs2, app_nil_r.
  - destruct (main_of_published h api [A; B] a w Hv Hp Ht Hwf Hdist Hnd Hsome Hbo Hall)
      as (w2 & E2 & Hb2 & Hs2). rewrite E2. cbn [fst snd].
    by rewrite Hs2, Hart.
Qed.

Lemma partial_matrix_run_witness :
  exit_status
    (fst (Release.main_of Fixtures.linux_only Fixtures.accepting
            [Fixtures.linux; Fixtures.windows] Fixtures.release_args
            (World ∅ [] [] tt))) = 0%Z.
Proof.
  destruct (partial_matrix_run Fixtures.linux_only Fixtures.accepting
              Fixtures.linux Fixtures.windows Fixtures.release_args (World ∅ [] [] tt))
    as (bA & _ & _ & _ & Hexit & _).
  - reflexivity.
  - reflexivity.
  - done.
  - reflexivity.
  - reflexivity.
  - reflexivity.
  - apply wf_empty.
  - reflexivity.
  - done.
  - exact Hexit.
Defined.

(** ** More on the file system *)

Lemma ancestors_from_spec (rest base a : FS.path) :
  In a (FS.ancestors_from base rest) <->
  exists pre suf, pre <> [] /\ suf <> [] /\ rest = pre ++ suf /\ a = base ++ pre.
Proof.
  revert base. induction rest as [|c rest IH]; intros base; cbn [FS.ancestors_from].
  - split; [done|]. intros (pre & suf & Hpre & _ & Heq & _).
    symmetry in Heq. apply app_eq_nil in Heq as [? _]. done.
  - destruct rest as [|d rest].
    + split; [done|]. intros (pre & suf & Hpre & Hsuf & Heq & _).
      destruct pre as [|x pre]; [done|]. injection Heq as _ Heq.
      symmetry in Heq. apply app_eq_nil in Heq as [_ ?]. done.
    + cbn [In]. rewrite IH. split.
      * intros [<-|(pre & suf & Hpre & Hsuf & Heq & ->)].
        -- exists [c], (d :: rest). done.
        -- exists (c :: pre), suf. rewrite Heq, <- app_assoc. done.
      * intros (pre & suf & Hpre & Hsuf & Heq & ->).
        destruct pre as [|x pre]; [done|]. injection Heq as <- Heq.
        destruct pre as [|y pre]; [by left|]. right.
        exists (y :: pre), suf. rewrite <- app_assoc. done.
Qed.

Lemma ancestors_spec (p a : FS.path) :
  In a (FS.ancestors p) <-> exists suf, a <> [] /\ suf <> [] /\ p = a ++ suf.
Proof.
  unfold FS.ancestors. rewrite ancestors_from_spec. split.
  - intros (pre & suf & ? & ? & ? & ->). by exists suf.
  - intros (suf & ? & ? & ?). by exists a, suf.
Qed.

Lemma ancestors_shorter (p a : FS.path) :
  In a (FS.ancestors p) -> (List.length a < List.length p)%nat.
Proof.
  rewrite ancestors_spec. intros (suf & _ & Hsuf & ->). rewrite length_app.
  destruct suf; [done|]. cbn. lia.
Qed.

Lemma prefix_is_ancestor (d p : FS.path) :
  d `prefix_of` p -> d <> p -> d <> [] -> In d (FS.ancestors p).
Proof.
  intros [suf ->] Hne Hd. apply ancestors_spec. exists suf. split; [done|]. split; [|done].
  intros ->. by rewrite app_nil_r in Hne.
Qed.

Lemma prefix_length_le (d p : FS.path) :
  d `prefix_of` p -> (List.length d <= List.length p)%nat.
Proof. intros [suf ->]. rewrite length_app. lia. Qed.

Lemma mkdirs_lookup (ds : list FS.path) (m : gmap FS.path FS.node) (p : FS.path) :
  FS.mkdirs ds m !! p = if decide (p ∈ ds) then Some FS.Dir else m !! p.
Proof.
  induction ds as [|d ds IH]; cbn [FS.mkdirs foldr].
  - by rewrite decide_False by apply not_elem_of_nil.
  - destruct (decide (p = d)) as [->|Hne].
    + rewrite lookup_insert_eq. by rewrite decide_True by by left.
    + rewrite lookup_insert_ne by done. fold (FS.mkdirs ds m). rewrite IH.
      destruct (decide (p ∈ ds)) as [Hin|Hnin].
      * by rewrite decide_True by by right.
      * rewrite decide_False; [done|]. by intros [?|?]%elem_of_cons.
Qed.

Lemma mkdirs_id (ds : list FS.path) (m : gmap FS.path FS.node) :
  (forall a, a ∈ ds -> m !! a = Some FS.Dir) -> FS.mkdirs ds m = m.
Proof.
  intros Hds. apply map_eq. intros p. rewrite mkdirs_lookup.
  destruct (decide (p ∈ ds)) as [Hin|]; [|done]. by rewrite Hds.
Qed.

(** In a well-formed file system nothing lies below a path that does
    not exist. *)
Lemma rmtree_absent (d : FS.path) (m : gmap FS.path FS.node) :
  FS.wf m -> m !! d = None -> d <> [] -> FS.rmtree d m = m.
Proof.
  intros Hwf Hd Hne. apply map_eq. intros p. rewrite rmtree_lookup.
  destruct (decide (d `prefix_of` p)) as [Hpre|]; [|done].
  destruct (decide (d = p)) as [<-|Hdp]; [done|].
  destruct (m !! p) as [x|] eqn:Ep; [|done].
  assert (m !! d = Some FS.Dir) as Habs; [|congruence].
  apply (Hwf p); [by eexists|]. by apply prefix_is_ancestor.
Qed.

Lemma wf_check_sound (m : gmap FS.path FS.node) : FS.wf_check m = true -> FS.wf m.
Proof.
  unfold FS.wf_check. rewrite forallb_forall. intros Hall p [x Hx] a Ha.
  specialize (Hall (p, x)). rewrite forallb_forall in Hall.
  assert (In (p, x) (map_to_list m)) as Hin.
  { apply list_elem_of_In. by apply elem_of_map_to_list. }
  specialize (Hall Hin a Ha). by destruct (m !! a) as [[|]|].
Qed.

Lemma copy2_lookup_other (src dst : FS.path) (m m' : gmap FS.path FS.node) (p : FS.path) :
  FSOps.copy2 src dst m = Ok m' ->
  p <> dst -> p <> dst ++ [FS.name src] ->
  m' !! p = m !! p.
Proof.
  unfold FSOps.copy2. intros Hrun Hp1 Hp2.
  destruct (m !! src) as [[c|]|]; [|done|done].
  destruct (m !! dst) as [[c'|]|]; injection Hrun as <-; by rewrite lookup_insert_ne.
Qed.

(** ** [scripts/release.py]: packaging *)

Lemma string_app_self (s t : string) : s = (s ++ t)%string -> t = "".
Proof.
  induction s as [|c s IH]; intros H; [done|].
  change (String c s = String c (s ++ t)%string) in H. injection H as H. auto.
Qed.

Section Packaging.
Import Scripts.
Variable h : host.
Variables (goos goarch tag : string) (bp : FS.path).
Local Abbreviation S := (DIST h ++ [stage_name goos goarch tag]).
Local Abbreviation Z := (DIST h ++ [(stage_name goos goarch tag ++ ".zip")%string]).

(** What is at [Z] is set aside and replaced by [v]. *)
Local Abbreviation T v x := (<[Z := v]> (delete Z x)).

Lemma stage_not_zip : S <> Z.
Proof.
  intros Heq. apply app_inv_head in Heq. injection Heq as Heq.
  by apply string_app_self in Heq.
Qed.

Lemma zip_not_below_stage : ~ S `prefix_of` Z.
Proof.
  intros [suf Heq]. rewrite <- app_assoc in Heq. apply app_inv_head in Heq.
  cbn in Heq. injection Heq as Heq _. symmetry in Heq. by apply string_app_self in Heq.
Qed.

Lemma zip_not_ancestor : ~ In Z (FS.ancestors S).
Proof.
  intros Hin%ancestors_shorter. rewrite !length_app in Hin. cbn in Hin. lia.
Qed.

Lemma stage_not_ancestor : ~ In S (FS.ancestors S).
Proof. intros Hin%ancestors_shorter. lia. Qed.

Lemma below_not_ancestor (p : FS.path) : S `prefix_of` p -> ~ In p (FS.ancestors S).
Proof. intros Hpre%prefix_length_le Hin%ancestors_shorter. lia. Qed.

Lemma T_lookup (v : FS.node) (x : gmap FS.path FS.node) (p : FS.path) :
  T v x !! p = if decide (p = Z) then Some v else x !! p.
Proof.
  destruct (decide (p = Z)) as [->|Hne].
  - apply lookup_insert_eq.
  - by rewrite lookup_insert_ne, lookup_delete_ne.
Qed.

Lemma T_insert (v : FS.node) (x : gmap FS.path FS.node) (k : FS.path) (n : FS.node) :
  k <> Z -> <[k := n]> (T v x) = T v (<[k := n]> x).
Proof.
  intros Hk. rewrite insert_insert_ne by done. by rewrite insert_delete_ne.
Qed.

Lemma copy2_T (v : FS.node) (src dst : FS.path) (x y : gmap FS.path FS.node) :
  FSOps.copy2 src dst x = Ok y ->
  T v x !! src = x !! src ->
  dst <> Z -> dst ++ [FS.name src] <> Z ->
  FSOps.copy2 src dst (T v x) = Ok (T v y).
Proof.
  unfold FSOps.copy2. intros Hrun Hsrc Hd1 Hd2. rewrite Hsrc.
  destruct (x !! src) as [[c|]|]; [|done|done].
  rewrite (T_lookup v x dst), decide_False by done.
  destruct (x !! dst) as [[c'|]|]; injection Hrun as <-; by rewrite T_insert.
Qed.

Lemma aux_source_not_zip (fname : string) : ROOT h ++ [fname] <> Z.
Proof.
  intros Heq%(f_equal (@List.length string)). unfold DIST in Heq.
  rewrite !length_app in Heq. cbn in Heq. lia.
Qed.

Lemma staged_not_zip (f : string) : S ++ [f] <> Z.
Proof.
  intros Heq%(f_equal (@List.length string)). rewrite !length_app in Heq. cbn in Heq. lia.
Qed.

Lemma staged_twice_not_zip (f g : string) : (S ++ [f]) ++ [g] <> Z.
Proof.
  intros Heq%(f_equal (@List.length string)). rewrite !length_app in Heq. cbn in Heq. lia.
Qed.

Lemma copy_aux_T (v : FS.node) (names : list string) : forall (x y : gmap FS.path FS.node),
  copy_aux h S names x = Ok y -> copy_aux h S names (T v x) = Ok (T v y).
Proof.
  induction names as [|f names IH]; intros x y Hrun; cbn [copy_aux] in *.
  - by injection Hrun as <-.
  - assert (FS.exists_ (T v x) (ROOT h ++ [f]) = FS.exists_ x (ROOT h ++ [f])) as ->.
    { unfold FS.exists_. rewrite T_lookup. by rewrite decide_False by apply aux_source_not_zip. }
    destruct (FS.exists_ x (ROOT h ++ [f])); [|by apply IH].
    destruct (FSOps.copy2 (ROOT h ++ [f]) (S ++ [f]) x) as [x1|e] eqn:E; [|done].
    rewrite (copy2_T v _ _ x x1 E).
    + by apply IH.
    + rewrite T_lookup. by rewrite decide_False by apply aux_source_not_zip.
    + apply staged_not_zip.
    + apply staged_twice_not_zip.
Qed.

(** The copies land strictly below the staging directory. *)
Lemma copy_aux_outside (names : list string) : forall (x y : gmap FS.path FS.node) p,
  copy_aux h S names x = Ok y ->
  (S `prefix_of` p -> p = S) ->
  y !! p = x !! p.
Proof.
  induction names as [|f names IH]; intros x y p Hrun Hp; cbn [copy_aux] in *.
  - by injection Hrun as <-.
  - destruct (FS.exists_ x (ROOT h ++ [f])); [|by apply IH].
    destruct (FSOps.copy2 (ROOT h ++ [f]) (S ++ [f]) x) as [x1|e] eqn:E; [|done].
    rewrite (IH x1 y p Hrun Hp). apply (copy2_lookup_other _ _ _ _ _ E).
    + intros ->. assert (S ++ [f] = S) as Heq by (apply Hp; by exists [f]).
      apply (f_equal (@List.length string)) in Heq. rewrite !length_app in Heq.
      cbn in Heq. lia.
    + intros ->. assert ((S ++ [f]) ++ [FS.name (ROOT h ++ [f])] = S) as Heq.
      { apply Hp. rewrite <- app_assoc. by eexists. }
      apply (f_equal (@List.length string)) in Heq. rewrite !length_app in Heq.
      cbn in Heq. lia.
Qed.

Lemma stage_not_root : S <> [].
Proof.
  intros Heq%(f_equal (@List.length string)). rewrite length_app in Heq. cbn in Heq. lia.
Qed.

(** What a successful run went through. *)
Lemma stage_and_zip_inv (m : gmap FS.path FS.node) z m' :
  FS.wf m ->
  stage_and_zip h goos goarch bp tag m = Ok (z, m') ->
  exists m3 m4,
    z = Z /\
    existsb (FS.is_file (FS.rmtree S m)) (FS.ancestors S) = false /\
    FSOps.copy2 bp (S ++ [FS.name bp])
      (<[S := FS.Dir]> (FS.mkdirs (FS.ancestors S) (FS.rmtree S m))) = Ok m3 /\
    copy_aux h S AUX_FILES m3 = Ok m4 /\
    m4 !! Z <> Some FS.Dir /\
    m' = T (FS.File (zip_encode h (FS.listing S (delete Z m4)))) m4.
Proof.
  intros Hwf Hrun. unfold stage_and_zip in Hrun.
  destruct (FSOps.remove_if_exists S m) as [m1|e] eqn:E1; [|done].
  assert (m1 = FS.rmtree S m) as ->.
  { unfold FSOps.remove_if_exists in E1. destruct (m !! S) as [[c|]|] eqn:ES; [done| |].
    - by injection E1 as <-.
    - injection E1 as <-. symmetry. apply rmtree_absent; [done|done|apply stage_not_root]. }
  destruct (FSOps.mkdir_parents false S (FS.rmtree S m)) as [m2|e] eqn:E2; [|done].
  unfold FSOps.mkdir_parents in E2.
  destruct (existsb (FS.is_file (FS.rmtree S m)) (FS.ancestors S)) eqn:Ex; [done|].
  rewrite rmtree_lookup, decide_True in E2 by done.
  injection E2 as <-.
  destruct (FSOps.copy2 bp _ _) as [m3|e] eqn:E3; [|done].
  destruct (copy_aux h S AUX_FILES m3) as [m4|e] eqn:E4; [|done].
  destruct (FSOps.unlink_if_exists Z m4) as [m5|e] eqn:E5; [|done].
  injection Hrun as <- <-.
  exists m3, m4. split; [done|]. split; [done|]. split; [done|]. split; [done|].
  unfold FSOps.unlink_if_exists in E5. destruct (m4 !! Z) as [[c|]|] eqn:EZ; [|done|].
  - injection E5 as <-. done.
  - injection E5 as <-. split; [done|]. by rewrite (delete_id m4 Z EZ).
Qed.

(** Packaging the same binary again changes nothing. *)
Lemma stage_and_zip_twice (m : gmap FS.path FS.node) z m' :
  FS.wf m ->
  stage_and_zip h goos goarch bp tag m = Ok (z, m') ->
  m' !! bp = m !! bp ->
  stage_and_zip h goos goarch bp tag m' = Ok (z, m').
Proof.
  intros Hwf Hrun Hbin.
  destruct (stage_and_zip_inv m z m' Hwf Hrun) as (m3 & m4 & -> & Hanc & E3 & E4 & HZ & ->).
  set (B := FS.mkdirs (FS.ancestors S) (FS.rmtree S m)) in *.
  set (v := FS.File (zip_encode h (FS.listing S (delete Z m4)))) in *.
  assert (forall p, S `prefix_of` p -> B !! p = None) as HB.
  { intros p Hp. unfold B. rewrite mkdirs_lookup, decide_False.
    - rewrite rmtree_lookup. by rewrite decide_True.
    - rewrite list_elem_of_In. by apply below_not_ancestor. }
  assert (forall a, In a (FS.ancestors S) -> B !! a = Some FS.Dir) as Hdirs.
  { intros a Ha. unfold B. rewrite mkdirs_lookup, decide_True; [done|].
    by apply list_elem_of_In. }
  assert (forall p, (S `prefix_of` p -> p = S) -> m4 !! p = <[S := FS.Dir]> B !! p) as Hout.
  { intros p Hp. rewrite (copy_aux_outside AUX_FILES m3 m4 p E4 Hp).
    apply (copy2_lookup_other _ _ _ _ p E3).
    - intros ->. assert (S ++ [FS.name bp] = S) as Heq by (apply Hp; by eexists).
      apply (f_equal (@List.length string)) in Heq. rewrite !length_app in Heq.
      cbn in Heq. lia.
    - intros ->. assert ((S ++ [FS.name bp]) ++ [FS.name bp] = S) as Heq.
      { apply Hp. rewrite <- app_assoc. by eexists. }
      apply (f_equal (@List.length string)) in Heq. rewrite !length_app in Heq.
      cbn in Heq. lia. }
  assert (FS.rmtree S (T v m4) = T v B) as Hrm.
  { apply map_eq. intros p. rewrite rmtree_lookup, !T_lookup.
    destruct (decide (S `prefix_of` p)) as [Hp|Hp].
    - rewrite decide_False; [by rewrite HB|]. intros ->. by apply zip_not_below_stage in Hp.
    - destruct (decide (p = Z)); [done|]. rewrite Hout by done.
      rewrite lookup_insert_ne; [done|]. intros <-. by apply Hp. }
  unfold stage_and_zip.
  assert (FSOps.remove_if_exists S (T v m4) = Ok (T v B)) as ->.
  { unfold FSOps.remove_if_exists. rewrite T_lookup, decide_False by apply stage_not_zip.
    rewrite Hout by done. by rewrite lookup_insert_eq, Hrm. }
  assert (FSOps.mkdir_parents false S (T v B) = Ok (T v (<[S := FS.Dir]> B))) as ->.
  { unfold FSOps.mkdir_parents.
    assert (existsb (FS.is_file (T v B)) (FS.ancestors S) = false) as ->.
    { apply not_true_is_false. intros (a & Ha & Hfile)%existsb_exists.
      unfold FS.is_file in Hfile. rewrite T_lookup, decide_False in Hfile.
      - by rewrite (Hdirs a Ha) in Hfile.
      - intros ->. by apply zip_not_ancestor in Ha. }
    rewrite T_lookup, decide_False by apply stage_not_zip.
    rewrite HB by done. rewrite mkdirs_id.
    - by rewrite T_insert by apply stage_not_zip.
    - intros a Ha%list_elem_of_In. rewrite T_lookup, decide_False; [by apply Hdirs|].
      intros ->. by apply zip_not_ancestor in Ha. }
  rewrite (copy2_T v _ _ _ m3 E3).
  - rewrite (copy_aux_T v AUX_FILES m3 m4 E4).
    unfold FSOps.unlink_if_exists. rewrite T_lookup, decide_True by done.
    unfold v at 1. rewrite delete_insert_eq, delete_delete_eq. done.
  - rewrite T_lookup. destruct (decide (bp = Z)) as [HbZ|]; [|done].
    rewrite T_lookup, decide_True in Hbin by done. rewrite Hbin, HbZ.
    rewrite lookup_insert_ne by apply stage_not_zip.
    unfold B. rewrite mkdirs_lookup, decide_False.
    + rewrite rmtree_lookup. by rewrite decide_False by apply zip_not_below_stage.
    + rewrite list_elem_of_In. apply zip_not_ancestor.
  - apply staged_not_zip.
  - apply staged_twice_not_zip.
Qed.

(** Where the binary of a successful run is. *)
Lemma stage_and_zip_binary (m : gmap FS.path FS.node) z m' :
  FS.wf m ->
  stage_and_zip h goos goarch bp tag m = Ok (z, m') ->
  (exists c, m !! bp = Some (FS.File c)) /\
  ~ S `prefix_of` bp /\ ~ In bp (FS.ancestors S).
Proof.
  intros Hwf Hrun.
  destruct (stage_and_zip_inv m z m' Hwf Hrun) as (m3 & m4 & -> & Hanc & E3 & E4 & HZ & ->).
  unfold FSOps.copy2 in E3.
  destruct (_ !! bp) as [[c|]|] eqn:Ebp in E3; [|done|done]. clear E3.
  assert (~ S `prefix_of` bp) as Hnot.
  { intros Hp. destruct (decide (bp = S)) as [Heq|Hne].
    - rewrite Heq, lookup_insert_eq in Ebp. done.
    - rewrite lookup_insert_ne, mkdirs_lookup, decide_False in Ebp.
      + rewrite rmtree_lookup in Ebp. by rewrite decide_True in Ebp.
      + rewrite list_elem_of_In. by apply below_not_ancestor.
      + done. }
  assert (~ In bp (FS.ancestors S)) as Hnanc.
  { intros Hin. rewrite lookup_insert_ne, mkdirs_lookup, decide_True in Ebp.
    - done.
    - by apply list_elem_of_In.
    - intros Heq. apply Hnot. by rewrite <- Heq. }
  split; [|done]. exists c.
  rewrite lookup_insert_ne, mkdirs_lookup, decide_False in Ebp.
  - rewrite rmtree_lookup in Ebp. by rewrite decide_False in Ebp.
  - by rewrite list_elem_of_In.
  - intros Heq. apply Hnot. by rewrite <- Heq.
Qed.

(** Packaging touches the staging directory, the directories above it
    and the archive, and nothing else. *)
Lemma stage_and_zip_frame (m : gmap FS.path FS.node) z m' (p : FS.path) :
  FS.wf m ->
  stage_and_zip h goos goarch bp tag m = Ok (z, m') ->
  ~ S `prefix_of` p -> ~ In p (FS.ancestors S) -> p <> Z ->
  m' !! p = m !! p.
Proof.
  intros Hwf Hrun Hp Hanc' HpZ.
  destruct (stage_and_zip_inv m z m' Hwf Hrun) as (m3 & m4 & -> & Hanc & E3 & E4 & HZ & ->).
  rewrite T_lookup, decide_False by done.
  rewrite (copy_aux_outside AUX_FILES m3 m4 p E4) by done.
  rewrite (copy2_lookup_other _ _ _ _ p E3).
  - rewrite lookup_insert_ne, mkdirs_lookup, decide_False.
    + rewrite rmtree_lookup. by rewrite decide_False.
    + by rewrite list_elem_of_In.
    + intros <-. by apply Hp.
  - intros ->. apply Hp. by eexists.
  - intros ->. apply Hp. rewrite <- app_assoc. by eexists.
Qed.

(** What can lie in the staging directory. *)
Local Abbreviation staged x :=
  (forall p, S `prefix_of` p -> p <> S -> is_Some (x !! p) ->
     (exists f, p = S ++ [f] /\ (f = FS.name bp \/ f ∈ AUX_FILES)) /\
     x !! p <> Some FS.Dir).

Lemma copy2_staged (src : FS.path) (f : string) (x y : gmap FS.path FS.node) :
  staged x -> f = FS.name bp \/ f ∈ AUX_FILES ->
  FSOps.copy2 src (S ++ [f]) x = Ok y ->
  staged y.
Proof.
  intros Hx Hf Hrun. unfold FSOps.copy2 in Hrun.
  destruct (x !! src) as [[c|]|]; [|done|done].
  assert (x !! (S ++ [f]) <> Some FS.Dir) as Hnd.
  { intros Hd. destruct (Hx (S ++ [f])) as [_ Habs]; [by eexists| |by eexists|done].
    intros Heq%(f_equal (@List.length string)). rewrite !length_app in Heq.
    cbn in Heq. lia. }
  assert (y = <[S ++ [f] := FS.File c]> x) as ->.
  { destruct (x !! (S ++ [f])) as [[c'|]|]; by injection Hrun as <-. }
  intros p Hp Hne Hsome. destruct (decide (p = S ++ [f])) as [->|Hpf].
  - rewrite lookup_insert_eq. split; [by exists f|done].
  - rewrite lookup_insert_ne in Hsome |- * by done. by apply Hx.
Qed.

Lemma copy_aux_staged (names : list string) : forall (x y : gmap FS.path FS.node),
  (forall f, f ∈ names -> f ∈ AUX_FILES) ->
  staged x -> copy_aux h S names x = Ok y -> staged y.
Proof.
  induction names as [|f names IH]; intros x y Hnames Hx Hrun; cbn [copy_aux] in Hrun.
  - by injection Hrun as <-.
  - assert (forall g, g ∈ names -> g ∈ AUX_FILES) as Hnames'.
    { intros g Hg. apply Hnames. by right. }
    destruct (FS.exists_ x (ROOT h ++ [f])); [|by apply (IH x y)].
    destruct (FSOps.copy2 (ROOT h ++ [f]) (S ++ [f]) x) as [x1|e] eqn:E; [|done].
    apply (IH x1 y); [done| |done].
    apply (copy2_staged (ROOT h ++ [f]) f x x1); [done| |done]. right. apply Hnames. by left.
Qed.

(** After a successful run the staging directory holds the binary and
    the auxiliary files, and nothing that was there before. *)
Lemma stage_and_zip_fresh_stage (m : gmap FS.path FS.node) z m' (p : FS.path) :
  FS.wf m ->
  stage_and_zip h goos goarch bp tag m = Ok (z, m') ->
  S `prefix_of` p -> p <> S -> is_Some (m' !! p) ->
  exists f, p = S ++ [f] /\ (f = FS.name bp \/ f ∈ AUX_FILES).
Proof.
  intros Hwf Hrun Hp Hne Hsome.
  destruct (stage_and_zip_inv m z m' Hwf Hrun) as (m3 & m4 & -> & Hanc & E3 & E4 & HZ & ->).
  rewrite T_lookup, decide_False in Hsome.
  2:{ intros ->. by apply zip_not_below_stage in Hp. }
  assert (staged m4) as H4; [|by apply H4].
  apply (copy_aux_staged AUX_FILES m3 m4); [done| |done].
  apply (copy2_staged bp (FS.name bp)
           (<[S := FS.Dir]> (FS.mkdirs (FS.ancestors S) (FS.rmtree S m))) m3);
    [|by left|done].
  intros q Hq Hqne Hqsome. exfalso.
  rewrite lookup_insert_ne, mkdirs_lookup, decide_False in Hqsome.
  - rewrite rmtree_lookup in Hqsome. rewrite decide_True in Hqsome by done.
    by destruct Hqsome.
  - rewrite list_elem_of_In. by apply below_not_ancestor.
  - done.
Qed.

(** The archive is made of what the staging directory holds. *)
Lemma stage_and_zip_archive (m : gmap FS.path FS.node) z m' :
  FS.wf m ->
  stage_and_zip h goos goarch bp tag m = Ok (z, m') ->
  z = Z /\ m' !! Z = Some (FS.File (zip_encode h (FS.listing S m'))).
Proof.
  intros Hwf Hrun.
  destruct (stage_and_zip_inv m z m' Hwf Hrun) as (m3 & m4 & -> & Hanc & E3 & E4 & HZ & ->).
  split; [done|]. rewrite lookup_insert_eq. do 3 f_equal.
  unfold FS.listing, FS.below. rewrite map_filter_insert_False.
  - by rewrite delete_delete_eq.
  - cbn. intros [Hp Hne]. by apply zip_not_below_stage in Hp.
Qed.

End Packaging.

(** C8: a successful run of [stage_and_zip] leaves in the staging
    directory [claracore-<tag>-<goos>-<goarch>] only the binary and the
    auxiliary files it copied, whatever the directory held before, and
    the archive is made of exactly that; run again on the result, the
    binary being unchanged, it succeeds and leaves the archive and the
    whole file system as they were. *)
Theorem stage_and_zip_idempotent (h : Scripts.host) (goos goarch : string)
    (binary_path : FS.path) (tag : string) (m : gmap FS.path FS.node)
    (z : FS.path) (m' : gmap FS.path FS.node) :
  FS.wf m ->
  Scripts.stage_and_zip h goos goarch binary_path tag m = Ok (z, m') ->
  m' !! binary_path = m !! binary_path ->
  let stage := Scripts.DIST h ++ [Scripts.stage_name goos goarch tag] in
  z = Scripts.DIST h ++ [(Scripts.stage_name goos goarch tag ++ ".zip")%string] /\
  Scripts.stage_name goos goarch tag =
    ("claracore-" ++ tag ++ "-" ++ goos ++ "-" ++ goarch)%string /\
  Scripts.stage_and_zip h goos goarch binary_path tag m' = Ok (z, m') /\
  m' !! z = Some (FS.File (Scripts.zip_encode h (FS.listing stage m'))) /\
  forall p, stage `prefix_of` p -> p <> stage -> is_Some (m' !! p) ->
    exists f, p = stage ++ [f] /\ (f = FS.name binary_path \/ f ∈ Scripts.AUX_FILES).
Proof.
  intros Hwf Hrun Hbin stage.
  destruct (stage_and_zip_archive h goos goarch tag binary_path m z m' Hwf Hrun)
    as [Hz Harchive].
  split; [done|]. split; [done|].
  split; [by apply (stage_and_zip_twice h goos goarch tag binary_path m)|].
  split; [by rewrite Hz|].
  intros p. by apply (stage_and_zip_fresh_stage h goos goarch tag binary_path m z m').
Qed.

Lemma stage_and_zip_idempotent_witness :
  exists m',
    Scripts.stage_and_zip Fixtures.no_darwin "linux" "amd64" Fixtures.linux_build
      "v1.0.0" Fixtures.stale_fs = Ok (Fixtures.zip_path, m') /\
    Scripts.stage_and_zip Fixtures.no_darwin "linux" "amd64" Fixtures.linux_build
      "v1.0.0" m' = Ok (Fixtures.zip_path, m').
Proof.
  assert (is_ok (Scripts.stage_and_zip Fixtures.no_darwin "linux" "amd64"
                   Fixtures.linux_build "v1.0.0" Fixtures.stale_fs) = true) as Hok.
  { vm_compute. reflexivity. }
  destruct (Scripts.stage_and_zip Fixtures.no_darwin "linux" "amd64" Fixtures.linux_build
              "v1.0.0" Fixtures.stale_fs) as [[z m']|e] eqn:E; [|discriminate Hok].
  assert (FS.wf Fixtures.stale_fs) as Hwf.
  { apply wf_check_sound. by vm_compute. }
  assert (m' !! Fixtures.linux_build = Fixtures.stale_fs !! Fixtures.linux_build) as Hbin.
  { apply (stage_and_zip_frame Fixtures.no_darwin "linux" "amd64" "v1.0.0"
             Fixtures.linux_build Fixtures.stale_fs z m'); [done|done| | |done].
    - intros [suf Hsuf]. discriminate Hsuf.
    - intros Hin%ancestors_shorter. cbn in Hin. lia. }
  destruct (stage_and_zip_idempotent Fixtures.no_darwin "linux" "amd64"
              Fixtures.linux_build "v1.0.0" Fixtures.stale_fs z m' Hwf E Hbin)
    as (Hz & _ & Htwice & _).
  exists m'. rewrite Hz in Htwice |- *. split; [reflexivity|exact Htwice].
Defined.

(** ** Further properties of [release.py] *)

(** X1: every entry [build_binaries] returns points at a file of the
    build directory named after its target, and the digest and the size
    it records are those of that file as it is on disk when the function
    returns. *)
Theorem build_binaries_records_true_digests {R : Type} (h : Release.host)
    (targets : list Release.BuildTarget) (version : string)
    (w : world Release.BuildTarget Release.call R) :
  FS.wf (w_fs w) ->
  FS.is_file (w_fs w) [Release.BUILD_DIR] = false ->
  NoDup (Release.filename <$> targets) ->
  let run := Release.build_binaries_of (R:=R) h targets version w in
  exists binaries,
    fst run = Ok binaries /\
    forall b, b ∈ binaries ->
      Release.path b = [Release.BUILD_DIR; Release.filename (Release.target b)] /\
      Checksum.calculate_sha256 (w_fs (snd run)) (Release.path b) = Ok (Release.sha256 b) /\
      exists content,
        w_fs (snd run) !! Release.path b = Some (FS.File content) /\
        Release.size b = List.length content /\
        Release.sha256 b = SHA256.hex (SHA256.sha256 content).
Proof.
  intros Hwf Hdist Hnd run.
  destruct (build_binaries_of_spec h targets version w Hwf Hdist Hnd)
    as (w1 & E & _ & _ & _ & _ & _ & Hart).
  unfold run. rewrite E. cbn [fst snd]. eexists. split; [done|].
  intros b Hb. specialize (Hart b Hb).
  apply list_elem_of_omap in Hb as (t & _ & Ht).
  apply artifact_target in Ht as (Htarget & Hpath & _ & Hsize & Hsha).
  rewrite Htarget in *. split; [done|]. split.
  - rewrite (proj1 (calculate_sha256_is_sha256 _ _ _ Hart)). by rewrite Hsha.
  - by eexists.
Qed.

Lemma build_binaries_records_true_digests_witness :
  exists binaries,
    fst (Release.build_binaries_of (R:=unit) Fixtures.linux_only
           [Fixtures.linux; Fixtures.windows] "v1.0.0" (World ∅ [] [] tt)) = Ok binaries /\
    List.length binaries = 1%nat.
Proof.
  destruct (build_binaries_records_true_digests (R:=unit) Fixtures.linux_only
              [Fixtures.linux; Fixtures.windows] "v1.0.0" (World ∅ [] [] tt))
    as (binaries & Hrun & _).
  - apply wf_empty.
  - reflexivity.
  - apply NoDup_cons. split; [by rewrite list_elem_of_singleton|apply NoDup_singleton].
  - exists binaries. split; [exact Hrun|].
    destruct (build_binaries_of_spec (R:=unit) Fixtures.linux_only
                [Fixtures.linux; Fixtures.windows] "v1.0.0" (World ∅ [] [] tt))
      as (w1 & E & _).
    + apply wf_empty.
    + reflexivity.
    + apply NoDup_cons. split; [by rewrite list_elem_of_singleton|apply NoDup_singleton].
    + rewrite E in Hrun. injection Hrun as <-. reflexivity.
Defined.

Lemma distinct_fixture_names :
  NoDup (Release.filename <$> [Fixtures.linux; Fixtures.windows]).
Proof. apply NoDup_cons. split; [by rewrite list_elem_of_singleton|apply NoDup_singleton]. Qed.

(** X2: in a run of [main] that publishes, each built binary is uploaded
    under its file name, and the digest listed for it, in the artifact
    list and so in the line of [checksums.txt], is the SHA-256 of the
    very bytes that were uploaded. *)
Theorem published_digests_match_uploads {R : Type} (h : Release.host)
    (api : Release.call -> R -> result unit * R)
    (targets : list Release.BuildTarget) (a : Release.args)
    (w : world Release.BuildTarget Release.call R) :
  Validator.validate_version (Release.version a) = true ->
  Release.prerequisites h = true ->
  Release.token_available h (w_fs w) a = true ->
  FS.wf (w_fs w) ->
  FS.is_file (w_fs w) [Release.BUILD_DIR] = false ->
  NoDup (Release.filename <$> targets) ->
  List.filter (Release.compiled h) targets <> [] ->
  Release.build_only a = false ->
  (forall c r, fst (api c r) = Ok tt) ->
  let run := Release.main_of h api targets a w in
  exists binaries,
    map Release.target binaries = List.filter (Release.compiled h) targets /\
    last (w_sent (snd run)) =
      Some (Release.UploadAsset "checksums.txt" "text/plain"
              (encode (Release.checksums_content (Release.version a) binaries))) /\
    forall b, b ∈ binaries ->
      exists data,
        Release.UploadAsset (Release.filename (Release.target b))
          "application/octet-stream" data ∈ w_sent (snd run) /\
        Release.checksum_line b =
          (SHA256.hex (SHA256.sha256 data) ++ "  " ++
           Release.filename (Release.target b) ++ nl)%string.
Proof.
  intros Hv Hp Ht Hwf Hdist Hnd Hsome Hbo Hall run.
  destruct (main_of_published h api targets a w Hv Hp Ht Hwf Hdist Hnd Hsome Hbo Hall)
    as (w' & E & _ & Hsent).
  unfold run. rewrite E. cbn [snd]. rewrite Hsent.
  exists (omap (Release.artifact h [Release.BUILD_DIR]) targets).
  split; [apply artifacts_are_compiled_targets|]. split.
  - unfold Release.published. rewrite !app_assoc. apply last_snoc.
  - intros b Hb. exists (Release.artifact_bytes h (Release.target b)). split.
    + apply elem_of_app. right. unfold Release.published.
      apply elem_of_app. right. apply elem_of_app. left.
      apply (list_elem_of_fmap_2 (Release.built_upload h) _ b Hb).
    + apply list_elem_of_omap in Hb as (t & _ & Hb).
      apply artifact_target in Hb as (Htarget & _ & _ & _ & Hsha).
      unfold Release.checksum_line. by rewrite Hsha, Htarget.
Qed.

Lemma published_digests_match_uploads_witness :
  exists data,
    last (w_sent (snd (Release.main_of Fixtures.linux_only Fixtures.accepting
                         [Fixtures.linux; Fixtures.windows] Fixtures.release_args
                         (World ∅ [] [] tt)))) =
    Some (Release.UploadAsset "checksums.txt" "text/plain" data).
Proof.
  destruct (published_digests_match_uploads Fixtures.linux_only Fixtures.accepting
              [Fixtures.linux; Fixtures.windows] Fixtures.release_args (World ∅ [] [] tt))
    as (binaries & _ & Hlast & _).
  - reflexivity.
  - reflexivity.
  - reflexivity.
  - apply wf_empty.
  - reflexivity.
  - apply distinct_fixture_names.
  - done.
  - reflexivity.
  - done.
  - eexists. exact Hlast.
Defined.

(** X3: [main] builds and sends nothing unless the version is valid,
    the prerequisites are met and the token is at hand: otherwise the
    process ends with status 1 and the world is as it was. *)
Theorem main_of_gates {R : Type} (h : Release.host)
    (api : Release.call -> R -> result unit * R)
    (targets : list Release.BuildTarget) (a : Release.args)
    (w : world Release.BuildTarget Release.call R) :
  Validator.validate_version (Release.version a) && Release.prerequisites h &&
    Release.token_available h (w_fs w) a = false ->
  let run := Release.main_of h api targets a w in
  exit_status (fst run) = 1%Z /\ snd run = w.
Proof.
  intros Hgate run. unfold run, Release.main_of.
  destruct (Validator.validate_version (Release.version a)); [|done].
  destruct (Release.prerequisites h); [|done].
  cbn [andb negb] in *. unfold Release.token_available in Hgate.
  destruct (Release.token a) as [tk|f].
  - mstep. by destruct (String.eqb tk "").
  - mstep. unfold FS.exists_, FSOps.read_bytes.
    destruct (w_fs w !! f) as [[c|]|] eqn:E; msimpl; rewrite ?E, ?Hgate; by msimpl.
Qed.

Lemma main_of_gates_witness :
  exit_status
    (fst (Release.main_of Fixtures.linux_only Fixtures.accepting Release.BUILD_TARGETS
            (Release.Args "1.0.0" (Release.Token "ghp_x") false false)
            (World ∅ [] [] tt))) = 1%Z.
Proof.
  refine (proj1 (main_of_gates Fixtures.linux_only Fixtures.accepting Release.BUILD_TARGETS
                   (Release.Args "1.0.0" (Release.Token "ghp_x") false false)
                   (World ∅ [] [] tt) _)).
  reflexivity.
Defined.

(** X4: in build-only mode [main] sends nothing to the hosting service,
    whatever the service would answer, and ends normally as soon as one
    target compiled. *)
Theorem build_only_sends_nothing {R : Type} (h : Release.host)
    (api : Release.call -> R -> result unit * R)
    (targets : list Release.BuildTarget) (a : Release.args)
    (w : world Release.BuildTarget Release.call R) :
  Validator.validate_version (Release.version a) = true ->
  Release.prerequisites h = true ->
  Release.token_available h (w_fs w) a = true ->
  FS.wf (w_fs w) ->
  FS.is_file (w_fs w) [Release.BUILD_DIR] = false ->
  NoDup (Release.filename <$> targets) ->
  Release.build_only a = true ->
  let run := Release.main_of h api targets a w in
  w_sent (snd run) = w_sent w /\
  w_builds (snd run) = w_builds w ++ targets /\
  exit_status (fst run) =
    (if List.filter (Release.compiled h) targets is [] then 1 else 0)%Z.
Proof.
  intros Hv Hp Ht Hwf Hdist Hnd Hbo run. unfold run.
  destruct (List.filter (Release.compiled h) targets) as [|t ts] eqn:Hf.
  - destruct (main_of_no_artifact h api targets a w Hv Hp Ht Hwf Hdist Hnd Hf)
      as (w' & E & Hb & Hs). by rewrite E.
  - destruct (main_of_build_only h api targets a w Hv Hp Ht Hwf Hdist Hnd) as (w' & E & Hb & Hs);
      [by rewrite Hf|done|]. by rewrite E.
Qed.

Lemma build_only_sends_nothing_witness :
  w_sent (snd (Release.main_of Fixtures.linux_only Fixtures.accepting
                 [Fixtures.linux; Fixtures.windows]
                 (Release.Args "v1.0.0" (Release.Token "ghp_x") false true)
                 (World ∅ [] [] tt))) = [].
Proof.
  refine (proj1 (build_only_sends_nothing Fixtures.linux_only Fixtures.accepting
                   [Fixtures.linux; Fixtures.windows]
                   (Release.Args "v1.0.0" (Release.Token "ghp_x") false true)
                   (World ∅ [] [] tt) _ _ _ _ _ _ _)).
  - reflexivity.
  - reflexivity.
  - reflexivity.
  - apply wf_empty.
  - reflexivity.
  - apply distinct_fixture_names.
  - reflexivity.
Defined.

Lemma match_nonempty {A B} (l : list A) (x y : B) :
  l <> [] -> match l with [] => x | _ => y end = y.
Proof. by destruct l. Qed.

(** X5: when the hosting service refuses the upload of a binary, [main]
    ends with status 1; the refused upload is the last request, so the
    binaries after it and the manifest are not sent, and every built
    binary is still on disk. *)
Theorem main_of_upload_refused {R : Type} (h : Release.host)
    (api : Release.call -> R -> result unit * R)
    (targets : list Release.BuildTarget) (a : Release.args)
    (w : world Release.BuildTarget Release.call R)
    (done : list Release.binary_info) (b : Release.binary_info)
    (rest : list Release.binary_info) (e : exn) :
  Validator.validate_version (Release.version a) = true ->
  Release.prerequisites h = true ->
  Release.token_available h (w_fs w) a = true ->
  FS.wf (w_fs w) ->
  FS.is_file (w_fs w) [Release.BUILD_DIR] = false ->
  NoDup (Release.filename <$> targets) ->
  Release.build_only a = false ->
  omap (Release.artifact h [Release.BUILD_DIR]) targets = done ++ b :: rest ->
  (forall c msg, e <> SystemExit c msg) ->
  let head := [ Release.GetRepo (Release.REPO_OWNER ++ "/" ++ Release.REPO_NAME)%string;
                Release.CreateGitRelease (Release.version a)
                  ("ClaraCore " ++ Release.version a)%string
                  (Release.release_notes h (Release.version a) (done ++ b :: rest))
                  (Release.draft a) (Release.prerelease_of (Release.version a)) ] in
  serve api (head ++ map (Release.built_upload h) (done ++ [b])) (w_remote w) =
    map (fun _ => Ok tt) (head ++ map (Release.built_upload h) done) ++ [Raise e] ->
  let run := Release.main_of h api targets a w in
  exit_status (fst run) = 1%Z /\
  w_sent (snd run) = w_sent w ++ head ++ map (Release.built_upload h) (done ++ [b]) /\
  forall b', b' ∈ done ++ b :: rest ->
    w_fs (snd run) !! Release.path b' =
      Some (FS.File (Release.artifact_bytes h (Release.target b'))).
Proof.
  intros Hv Hp Ht Hwf Hdist Hnd Hbo Hart Hexc head Hs run.
  destruct (main_of_build_phase h api targets a w Hv Hp Ht Hwf Hdist Hnd)
    as (w1 & E & Hb1 & Hs1 & Hr1 & Hd1 & Hnd1 & Hfiles).
  cbv zeta in E, Hfiles. rewrite Hart in E, Hfiles.
  assert (forall bs, (forall x, x ∈ bs -> x ∈ done ++ b :: rest) ->
            map (Release.upload_call (w_fs w1)) bs = map (Release.built_upload h) bs) as Hup.
  { intros bs Hbs. apply map_ext_in. intros x Hx%list_elem_of_In.
    unfold Release.upload_call, Release.built_upload. by rewrite (Hfiles x (Hbs x Hx)). }
  assert (forall x, x ∈ done ++ [b] -> x ∈ done ++ b :: rest) as Hsub.
  { intros x [?|Hx]%elem_of_app; apply elem_of_app; [by left|right].
    apply list_elem_of_singleton in Hx as ->. by left. }
  destruct (create_github_release_upload_refused h api (Release.version a) done b rest
              (Release.draft a) e w1) as (w2 & E2 & Hs2 & _ & Hfs2).
  - intros x Hx. eexists. apply Hfiles. by apply Hsub.
  - done.
  - rewrite Hr1. rewrite !Hup; [done| |done].
    intros x Hx. apply Hsub. apply elem_of_app. by left.
  - unfold run. rewrite E, Hbo.
    assert (try_except
              (match done ++ b :: rest with
               | [] => raise (SystemExit 1 "")
               | _ => let* success :=
                        Release.create_github_release h api (Release.version a)
                          (done ++ b :: rest) (Release.draft a) in
                      if success then ret tt else raise (SystemExit 1 "")
               end) (fun _ => raise (SystemExit 1 "")) w1 = (Raise (SystemExit 1 ""), w2)) as ->.
    { rewrite match_nonempty by by destruct done.
      unfold try_except. by rewrite (bind_ok _ _ w1 false w2 E2). }
    cbn [fst snd]. split; [done|]. split.
    + rewrite Hs2, Hs1. by rewrite Hup.
    + intros b' Hb'. rewrite Hfs2. by apply Hfiles.
Qed.

Lemma main_of_upload_refused_witness :
  exit_status
    (fst (Release.main_of Fixtures.linux_only Fixtures.answering
            [Fixtures.linux; Fixtures.windows] Fixtures.release_args
            (World ∅ [] [] [Ok tt; Ok tt; Raise (GithubException 422 "already_exists")])))
  = 1%Z.
Proof.
  refine (proj1 (main_of_upload_refused Fixtures.linux_only Fixtures.answering
                   [Fixtures.linux; Fixtures.windows] Fixtures.release_args
                   (World ∅ [] [] [Ok tt; Ok tt; Raise (GithubException 422 "already_exists")])
                   [] Fixtures.linux_binary [] (GithubException 422 "already_exists")
                   _ _ _ _ _ _ _ _ _ _)).
  - reflexivity.
  - reflexivity.
  - reflexivity.
  - apply wf_empty.
  - reflexivity.
  - apply distinct_fixture_names.
  - reflexivity.
  - reflexivity.
  - done.
  - reflexivity.
Defined.

(** ** [scripts/release.py]: packaging in the world *)

Section PackagingSteps.
Import Scripts.
Context {R : Type}.
Variable h : host.
Local Abbreviation W := (world (string * string) request R).

Lemma fs_update_run (f : gmap FS.path FS.node -> result (gmap FS.path FS.node)) (w : W) :
  fs_update f w =
  match f (w_fs w) with
  | Ok m => (Ok tt, World m (w_builds w) (w_sent w) (w_remote w))
  | Raise e => (Raise e, w)
  end.
Proof. done. Qed.

Lemma bind_fs_update {A : Type} (f : gmap FS.path FS.node -> result (gmap FS.path FS.node))
    (k : unit -> M W A) (w : W) :
  bind (fs_update f) k w =
  match f (w_fs w) with
  | Ok m => k tt (World m (w_builds w) (w_sent w) (w_remote w))
  | Raise e => (Raise e, w)
  end.
Proof. unfold bind, fs_update. by destruct (f (w_fs w)). Qed.

Lemma copy_aux_steps (stage : FS.path) (names : list string) :
  forall (m : gmap FS.path FS.node) b s (r : R),
  let body := fun fname =>
    let* w := get in
    if FS.exists_ (w_fs w) (ROOT h ++ [fname])
    then fs_update (FSOps.copy2 (ROOT h ++ [fname]) (stage ++ [fname]))
    else ret tt in
  match copy_aux h stage names m with
  | Ok m' => for_each body names (World m b s r : W) = (Ok tt, World m' b s r)
  | Raise e => fst (for_each body names (World m b s r : W)) = Raise e
  end.
Proof.
  induction names as [|f names IH]; intros m b s r body; cbn [copy_aux].
  - done.
  - assert (for_each body (f :: names) (World m b s r : W) =
            match body f (World m b s r : W) with
            | (Ok _, w') => for_each body names w'
            | (Raise e, w') => (Raise e, w')
            end) as -> by reflexivity.
    destruct (FS.exists_ m (ROOT h ++ [f])) eqn:Ex.
    + assert (body f (World m b s r : W) =
              fs_update (FSOps.copy2 (ROOT h ++ [f]) (stage ++ [f])) (World m b s r : W)) as ->.
      { unfold body, bind, get. cbn [w_fs]. by rewrite Ex. }
      rewrite fs_update_run. cbn [w_fs w_builds w_sent w_remote].
      destruct (FSOps.copy2 (ROOT h ++ [f]) (stage ++ [f]) m) as [m1|e];
        [apply IH|reflexivity].
    + assert (body f (World m b s r : W) = (Ok tt, World m b s r)) as ->.
      { unfold body, bind, get. cbn [w_fs]. by rewrite Ex. }
      apply IH.
Qed.

(** The two readings of [stage_and_zip] agree: on the value returned, on
    the exception raised, and on the file system when it returns. *)
Lemma stage_and_zip_m_run (goos goarch : string) (bp : FS.path) (tag : string) (w : W) :
  match stage_and_zip h goos goarch bp tag (w_fs w) with
  | Ok (z, m') =>
      stage_and_zip_m (R:=R) h goos goarch bp tag w =
        (Ok z, World m' (w_builds w) (w_sent w) (w_remote w))
  | Raise e => fst (stage_and_zip_m (R:=R) h goos goarch bp tag w) = Raise e
  end.
Proof.
  unfold stage_and_zip, stage_and_zip_m. destruct w as [m b s r].
  cbn [w_fs w_builds w_sent w_remote].
  rewrite bind_fs_update. cbn [w_fs w_builds w_sent w_remote].
  destruct (FSOps.remove_if_exists _ m) as [m1|e]; [|reflexivity].
  rewrite bind_fs_update. cbn [w_fs w_builds w_sent w_remote].
  destruct (FSOps.mkdir_parents false _ m1) as [m2|e]; [|reflexivity].
  rewrite bind_fs_update. cbn [w_fs w_builds w_sent w_remote].
  destruct (FSOps.copy2 bp _ m2) as [m3|e]; [|reflexivity].
  pose proof (copy_aux_steps (DIST h ++ [stage_name goos goarch tag]) AUX_FILES m3 b s r)
    as Haux. cbv zeta in Haux.
  destruct (copy_aux h _ AUX_FILES m3) as [m4|e].
  - rewrite (bind_ok _ _ _ _ _ Haux). rewrite bind_fs_update.
    cbn [w_fs w_builds w_sent w_remote].
    destruct (FSOps.unlink_if_exists _ m4) as [m5|e]; [|reflexivity].
    rewrite bind_fs_update. reflexivity.
  - destruct (for_each _ AUX_FILES _) as [[[]|e'] w'] eqn:E; cbn [fst] in Haux; [done|].
    injection Haux as ->. by rewrite (bind_raise _ _ _ _ _ E).
Qed.

End PackagingSteps.

(** ** [scripts/release.py]: a target whose output is missing *)

Lemma mkdir_parents_lookup_other (exist_ok : bool) (d : FS.path)
    (m m' : gmap FS.path FS.node) (p : FS.path) :
  FSOps.mkdir_parents exist_ok d m = Ok m' ->
  p <> d -> ~ In p (FS.ancestors d) ->
  m' !! p = m !! p.
Proof.
  unfold FSOps.mkdir_parents. intros Hrun Hp Hanc.
  destruct (existsb _ _); [done|].
  destruct (m !! d) as [[c|]|]; [done| |].
  - destruct exist_ok; [|done]. by injection Hrun as <-.
  - injection Hrun as <-. rewrite lookup_insert_ne by done.
    rewrite mkdirs_lookup, decide_False; [done|]. by rewrite list_elem_of_In.
Qed.

Section ScriptsMissingOutput.
Import Scripts.
Context {R : Type}.
Variable h : host.
Local Abbreviation W := (world (string * string) request R).
Local Abbreviation exe goos := (if String.eqb goos "windows" then "claracore.exe" else "claracore").

Lemma build_target_outside (goos goarch : string) (out_dir : FS.path) (w : W) (p : FS.path) :
  ~ out_dir `prefix_of` p -> ~ In p (FS.ancestors out_dir) ->
  w_fs (snd (build_target (R:=R) h goos goarch out_dir w)) !! p = w_fs w !! p.
Proof.
  intros Hp Hanc. unfold build_target, run_go_build. mstep.
  destruct (FSOps.mkdir_parents true out_dir (w_fs w)) as [m1|e1] eqn:E1; msimpl; [|done].
  assert (m1 !! p = w_fs w !! p) as Hm1.
  { apply (mkdir_parents_lookup_other _ _ _ _ _ E1); [|done]. intros ->. by apply Hp. }
  assert (p <> out_dir ++ [exe goos]) as Hne.
  { intros ->. apply Hp. by eexists. }
  destruct (exit_ok (go_build h goos goarch)); msimpl;
    destruct (wrote (go_build h goos goarch)) as [b|]; msimpl;
    repeat (match goal with |- context [if ?b then _ else _] => destruct b end; msimpl);
    by rewrite ?lookup_insert_ne.
Qed.

(** What [build_target] promises when it returns. *)
Lemma build_target_ok (goos goarch : string) (out_dir : FS.path) (w : W) (p : FS.path) :
  let run := build_target (R:=R) h goos goarch out_dir w in
  fst run = Ok p ->
  p = out_dir ++ [exe goos] /\
  exit_ok (go_build h goos goarch) = true /\
  FS.exists_ (w_fs (snd run)) p = true /\
  (wrote (go_build h goos goarch) = None -> FS.exists_ (w_fs w) p = true).
Proof.
  cbv zeta. unfold build_target, run_go_build. mstep.
  destruct (FSOps.mkdir_parents true out_dir (w_fs w)) as [m1|e1] eqn:E1; msimpl;
    [|intros [=]].
  assert (m1 !! (out_dir ++ [exe goos]) = w_fs w !! (out_dir ++ [exe goos])) as Hm1.
  { apply (mkdir_parents_lookup_other _ _ _ _ _ E1).
    - intros Heq%(f_equal (@List.length string)). rewrite length_app in Heq.
      cbn in Heq. lia.
    - intros Hin%ancestors_shorter. rewrite length_app in Hin. cbn in Hin. lia. }
  destruct (exit_ok (go_build h goos goarch)); msimpl; [|intros [=]].
  destruct (wrote (go_build h goos goarch)) as [b|]; msimpl.
  - unfold FS.exists_ at 1. rewrite lookup_insert_eq. msimpl.
    intros [= <-]. unfold FS.exists_. rewrite !lookup_insert_eq. msimpl.
    rewrite ?lookup_insert_eq. repeat split; done.
  - destruct (FS.exists_ m1 (out_dir ++ [exe goos])) eqn:Ex; msimpl; [|intros [=]].
    intros [= <-]. rewrite ?Ex. msimpl. repeat split; try done.
    intros _. unfold FS.exists_ in *. by rewrite <- Hm1.
Qed.

(** A target that does not compile, or leaves no output in a directory
    that held none, makes [build_target] raise. *)
Lemma build_target_fails (goos goarch : string) (out_dir : FS.path) (w : W) :
  compiled h goos goarch = false ->
  w_fs w !! (out_dir ++ [exe goos]) = None ->
  exists e, fst (build_target (R:=R) h goos goarch out_dir w) = Raise e.
Proof.
  intros Hc Hnone.
  destruct (fst (build_target (R:=R) h goos goarch out_dir w)) as [p|e] eqn:E;
    [|by eexists].
  apply build_target_ok in E as (-> & Hok & _ & Hw). unfold compiled in Hc.
  rewrite Hok in Hc. destruct (wrote (go_build h goos goarch)); [done|].
  specialize (Hw eq_refl). unfold FS.exists_ in Hw. by rewrite Hnone in Hw.
Qed.

Lemma build_dir_length (goos goarch : string) :
  List.length (build_dir h goos goarch) = S (List.length (DIST h)).
Proof. unfold build_dir. rewrite length_app. cbn. lia. Qed.

Lemma build_all_aborts_missing (done : list (string * string)) (t : string * string)
    (rest : list (string * string)) : forall (w : W),
  compiled h t.1 t.2 = false ->
  (forall t', t' ∈ done -> build_dir h t'.1 t'.2 <> build_dir h t.1 t.2) ->
  (forall p, build_dir h t.1 t.2 `prefix_of` p -> w_fs w !! p = None) ->
  exists e w',
    build_all (R:=R) h (done ++ t :: rest) w = (Raise e, w') /\
    exit_status (Raise e : result unit) = 1%Z /\
    w_sent w' = w_sent w /\
    w_remote w' = w_remote w /\
    exists l, w_builds w' = w_builds w ++ l /\ l `prefix_of` (done ++ [t]).
Proof.
  induction done as [|[goos goarch] ds IH]; intros w Hfail Hdirs Hclean.
  - destruct t as [goos goarch]. cbn [app build_all fst snd] in *.
    destruct (build_target_run h goos goarch (build_dir h goos goarch) w)
      as (r & w1 & E & Hs & Hr & Hok & Hraise).
    destruct (build_target_fails goos goarch (build_dir h goos goarch) w Hfail) as [e He].
    { apply Hclean. by eexists. }
    rewrite E in He. cbn [fst] in He. subst r.
    destruct (Hraise e eq_refl) as [Hex Hb].
    exists e, w1. rewrite (bind_raise _ _ w e w1 E). repeat split; try done.
    destruct Hb as [Hb|Hb].
    + exists []. rewrite app_nil_r. split; [done|]. apply prefix_nil.
    + exists [(goos, goarch)]. done.
  - cbn [app build_all].
    destruct (build_target_run h goos goarch (build_dir h goos goarch) w)
      as (r & w1 & E & Hs & Hr & Hok & Hraise).
    destruct r as [p|e].
    + destruct (Hok p eq_refl) as [_ Hb].
      destruct (IH w1 Hfail) as (e & w2 & E2 & Hex & Hs2 & Hr2 & l & Hb2 & Hl).
      { intros t' Ht'. apply Hdirs. by right. }
      { intros q Hq.
        pose proof (build_target_outside goos goarch (build_dir h goos goarch) w q) as Hout.
        rewrite E in Hout. cbn [snd] in Hout. rewrite Hout; [by apply Hclean| |].
        - intros Hq'. apply (Hdirs (goos, goarch)); [by left|]. cbn [fst snd].
          destruct Hq as [s1 ->]. destruct Hq' as [s2 Hq'].
          unfold build_dir in *. rewrite <- !app_assoc in Hq'.
          apply app_inv_head in Hq'. apply (f_equal head) in Hq'.
          cbn [app head] in Hq'. congruence.
        - intros Hin%ancestors_shorter. apply prefix_length_le in Hq.
          rewrite !build_dir_length in *. lia. }
      exists e, w2. rewrite (bind_ok _ _ w p w1 E), (bind_raise _ _ w1 e w2 E2).
      repeat split; try congruence.
      exists ((goos, goarch) :: l). split.
      * rewrite Hb2, Hb, <- app_assoc. done.
      * by apply prefix_cons.
    + destruct (Hraise e eq_refl) as [Hex Hb].
      exists e, w1. rewrite (bind_raise _ _ w e w1 E). repeat split; try done.
      destruct Hb as [Hb|Hb].
      * exists []. rewrite app_nil_r. split; [done|]. apply prefix_nil.
      * exists [(goos, goarch)]. split; [done|]. apply prefix_cons, prefix_nil.
Qed.

(** A run of [main] in which some target does not compile or leaves no
    output: the process ends with status 1, nothing is sent, and no
    target after the failing one is compiled. *)
Lemma main_of_aborts_missing (api : request -> R -> response * R)
    (done : list (string * string)) (t : string * string) (rest : list (string * string))
    (a : args) (w : W) :
  FS.wf (w_fs w) ->
  compiled h t.1 t.2 = false ->
  (forall t', t' ∈ done -> build_dir h t'.1 t'.2 <> build_dir h t.1 t.2) ->
  exists e w',
    main_of h api (done ++ t :: rest) a w = (Raise e, w') /\
    exit_status (Raise e : result unit) = 1%Z /\
    w_sent w' = w_sent w /\
    exists l, w_builds w' = w_builds w ++ l /\ l `prefix_of` (done ++ [t]).
Proof.
  intros Hwf Hfail Hdirs. unfold main_of.
  match goal with |- context [if ?b then _ else _] => destruct b end;
    [eexists _, _; split; [reflexivity|]; split; [done|]; split; [done|];
     exists []; rewrite app_nil_r; split; [done | apply prefix_nil]|].
  destruct (go_found h); cbn [negb];
    [|eexists _, _; split; [reflexivity|]; split; [done|]; split; [done|];
      exists []; rewrite app_nil_r; split; [done | apply prefix_nil]].
  rewrite bind_fs_update.
  destruct (FSOps.remove_if_exists (DIST h) (w_fs w)) as [m1|e1] eqn:E1.
  2:{ apply remove_if_exists_raises in E1 as [s ->].
      eexists _, _; split; [reflexivity|]; split; [done|]; split; [done|].
      exists []; rewrite app_nil_r; split; [done | apply prefix_nil]. }
  assert (m1 = FS.rmtree (DIST h) (w_fs w)) as ->.
  { unfold FSOps.remove_if_exists in E1.
    destruct (w_fs w !! DIST h) as [[c|]|] eqn:ED; [done| |].
    - by injection E1 as <-.
    - injection E1 as <-. symmetry. apply rmtree_absent; [done|done|].
      intros Heq%(f_equal (@List.length string)). unfold DIST in Heq.
      rewrite length_app in Heq. cbn in Heq. lia. }
  rewrite bind_fs_update. cbn [w_fs w_builds w_sent w_remote].
  destruct (FSOps.mkdir_parents false (DIST h) _) as [m2|e2] eqn:E2.
  2:{ apply mkdir_parents_raises in E2 as [s ->].
      eexists _, _; split; [reflexivity|]; split; [done|]; split; [done|].
      exists []; rewrite app_nil_r; split; [done | apply prefix_nil]. }
  set (w2 := World m2 _ _ _).
  destruct (build_ui_run h w2) as (r & Eui & Hui).
  unfold bind at 1. rewrite Eui. destruct r as [[]|e].
  2:{ specialize (Hui e eq_refl).
      eexists _, _; split; [reflexivity|]; split; [done|]; split; [done|].
      exists []; rewrite app_nil_r; split; [done | apply prefix_nil]. }
  destruct (build_all_aborts_missing done t rest w2 Hfail Hdirs)
    as (e & w3 & E3 & Hex & Hs3 & Hr3 & l & Hb3 & Hl).
  { intros p Hp. unfold w2. cbn [w_fs].
    assert (DIST h `prefix_of` p) as HD.
    { destruct Hp as [s ->]. unfold build_dir. rewrite <- app_assoc. by eexists. }
    assert (List.length (DIST h) < List.length p)%nat as Hlen.
    { apply prefix_length_le in Hp. rewrite build_dir_length in Hp. lia. }
    rewrite (mkdir_parents_lookup_other _ _ _ _ p E2).
    - rewrite rmtree_lookup. by rewrite decide_True.
    - intros ->. lia.
    - intros Hin%ancestors_shorter. lia. }
  rewrite (bind_raise _ _ w2 e w3 E3). exists e, w3.
  split; [done|]. split; [done|]. split; [done|]. by exists l.
Qed.

End ScriptsMissingOutput.

(** C2 (amended): in [release.py] a target that fails to compile is left
    out of the artifact list and every other target is still compiled;
    the run is fatal before anything is published when no target
    compiled, and otherwise the build phase is not fatal.  In
    [scripts/release.py] a failing target, one whose compiler run
    returns non-zero or one whose run leaves no output file, ends the
    run at once with status 1: no later target is compiled and nothing
    is sent. *)
Theorem target_failure_by_pipeline {R R' : Type}
    (h : Release.host) (api : Release.call -> R -> result unit * R)
    (targets : list Release.BuildTarget) (a : Release.args)
    (w : world Release.BuildTarget Release.call R)
    (h' : Scripts.host) (api' : Scripts.request -> R' -> Scripts.response * R')
    (done : list (string * string)) (t : string * string) (rest : list (string * string))
    (a' : Scripts.args) (v : world (string * string) Scripts.request R') :
  Validator.validate_version (Release.version a) = true ->
  Release.prerequisites h = true ->
  Release.token_available h (w_fs w) a = true ->
  FS.wf (w_fs w) ->
  FS.is_file (w_fs w) [Release.BUILD_DIR] = false ->
  NoDup (Release.filename <$> targets) ->
  exit_ok (Scripts.go_build h' t.1 t.2) = false \/
  (wrote (Scripts.go_build h' t.1 t.2) = None /\
   FS.wf (w_fs v) /\
   forall t', t' ∈ done ->
     Scripts.build_dir h' t'.1 t'.2 <> Scripts.build_dir h' t.1 t.2) ->
  let built := Release.build_binaries_of (R:=R) h targets (Release.version a) w in
  let run := Release.main_of h api targets a w in
  let run' := Scripts.main_of h' api' (done ++ t :: rest) a' v in
  (exists binaries,
     fst built = Ok binaries /\
     map Release.target binaries = List.filter (Release.compiled h) targets) /\
  w_builds (snd built) = w_builds w ++ targets /\
  (List.filter (Release.compiled h) targets = [] ->
     fst run = Raise (SystemExit 1 "") /\ w_sent (snd run) = w_sent w) /\
  (List.filter (Release.compiled h) targets <> [] ->
     Release.build_only a = true \/ (forall c r, fst (api c r) = Ok tt) ->
     fst run = Ok tt) /\
  (exists e, fst run' = Raise e) /\
  exit_status (fst run') = 1%Z /\
  w_sent (snd run') = w_sent v /\
  exists l, w_builds (snd run') = w_builds v ++ l /\ l `prefix_of` (done ++ [t]).
Proof.
  intros Hv Hp Ht Hwf Hdist Hnd Hfail built run run'.
  destruct (build_binaries_of_spec h targets (Release.version a) w Hwf Hdist Hnd)
    as (w1 & E1 & Hb1 & _).
  split; [|split; [|split; [|split]]].
  - eexists. unfold built. rewrite E1. split; [done|].
    apply artifacts_are_compiled_targets.
  - unfold built. by rewrite E1.
  - intros Hnone.
    destruct (main_of_no_artifact h api targets a w Hv Hp Ht Hwf Hdist Hnd Hnone)
      as (w2 & E2 & _ & Hs2).
    unfold run. by rewrite E2.
  - intros Hsome Hmode. unfold run.
    destruct (Release.build_only a) eqn:Hbo.
    + destruct (main_of_build_only h api targets a w Hv Hp Ht Hwf Hdist Hnd Hsome Hbo)
        as (w2 & E2 & _). by rewrite E2.
    + destruct Hmode as [?|Hall]; [done|].
      destruct (main_of_published h api targets a w Hv Hp Ht Hwf Hdist Hnd Hsome Hbo Hall)
        as (w2 & E2 & _). by rewrite E2.
  - assert (exists e v1,
              Scripts.main_of h' api' (done ++ t :: rest) a' v = (Raise e, v1) /\
              exit_status (Raise e : result unit) = 1%Z /\
              w_sent v1 = w_sent v /\
              exists l, w_builds v1 = w_builds v ++ l /\ l `prefix_of` (done ++ [t]))
      as (e & v1 & E & Hex & Hs & l & Hb & Hl).
    { destruct Hfail as [Hexit|(Hwrote & Hwfv & Hdirs)].
      - by apply main_of_aborts.
      - apply main_of_aborts_missing; [done| |done].
        unfold Scripts.compiled. rewrite Hwrote. apply andb_false_r. }
    unfold run'. rewrite E. cbn [fst snd].
    split; [by exists e|]. split; [done|]. split; [done|]. by exists l.
Qed.

Lemma target_failure_by_pipeline_witness :
  let built := Release.build_binaries_of (R:=unit) Fixtures.linux_only
                 [Fixtures.linux; Fixtures.windows] "v1.0.0" (World ∅ [] [] tt) in
  let run' := Scripts.main Fixtures.silent_darwin Fixtures.rest Fixtures.scripts_args
                (World ∅ [] [] []) in
  w_builds (snd built) = [Fixtures.linux; Fixtures.windows] /\
  exit_status (fst run') = 1%Z /\
  exists binaries,
    fst built = Ok binaries /\ map Release.target binaries = [Fixtures.linux].
Proof.
  destruct (target_failure_by_pipeline
              Fixtures.linux_only Fixtures.accepting [Fixtures.linux; Fixtures.windows]
              Fixtures.release_args (World ∅ [] [] tt)
              Fixtures.silent_darwin Fixtures.rest [] ("darwin", "arm64")
              [("windows", "amd64"); ("linux", "amd64")]
              Fixtures.scripts_args (World ∅ [] [] []))
    as (Hbuilt & Hall & _ & _ & _ & Hexit & _).
  - reflexivity.
  - reflexivity.
  - reflexivity.
  - apply wf_empty.
  - reflexivity.
  - apply NoDup_cons. split; [by rewrite list_elem_of_singleton|apply NoDup_singleton].
  - right. split; [reflexivity|]. split; [apply wf_empty|].
    intros t' Ht'. by apply elem_of_nil in Ht'.
  - split; [exact Hall|]. split; [exact Hexit|exact Hbuilt].
Defined.

(** ** Invariants of computations *)

Section Preserves.
Context {B Q R : Type}.
Local Abbreviation W := (world B Q R).
Variable I : W -> W -> Prop.
Hypothesis I_refl : forall w, I w w.
Hypothesis I_trans : forall w1 w2 w3, I w1 w2 -> I w2 w3 -> I w1 w3.

Lemma preserves_ret {A} (a : A) : preserves I (ret a : M W A).
Proof. intros w. apply I_refl. Qed.

Lemma preserves_raise {A} e : preserves I (raise e : M W A).
Proof. intros w. apply I_refl. Qed.

Lemma preserves_bind {A C} (m : M W A) (k : A -> M W C) :
  preserves I m -> (forall a, preserves I (k a)) -> preserves I (bind m k).
Proof.
  intros Hm Hk w. unfold bind. specialize (Hm w).
  destruct (m w) as [[a|e] w1]; cbn in *; [|done].
  by apply (I_trans _ w1), Hk.
Qed.

Lemma preserves_try_except {A} (m : M W A) handler :
  preserves I m -> (forall e, preserves I (handler e)) -> preserves I (try_except m handler).
Proof.
  intros Hm Hh w. unfold try_except. specialize (Hm w).
  destruct (m w) as [[a|e] w1]; cbn in *; [done|].
  destruct e; first [done | by apply (I_trans _ w1), Hh].
Qed.

Lemma preserves_for_each {A} (body : A -> M W unit) xs :
  (forall x, preserves I (body x)) -> preserves I (for_each body xs).
Proof.
  intros Hb. induction xs as [|x xs IH]; cbn [for_each].
  - apply preserves_ret.
  - apply preserves_bind; [apply Hb | by intros _].
Qed.

Lemma preserves_fs_query {X} (f : gmap FS.path FS.node -> result X) :
  preserves I (fs_query (B:=B) (Q:=Q) (R:=R) f).
Proof. intros w. apply I_refl. Qed.

End Preserves.

Section RaisesOnly.
Context {W : Type}.
Variable P : exn -> Prop.

Lemma raises_only_ret {A} (a : A) : raises_only P (ret a : M W A).
Proof. by intros w e. Qed.

Lemma raises_only_bind {A C} (m : M W A) (k : A -> M W C) :
  raises_only P m -> (forall a, raises_only P (k a)) -> raises_only P (bind m k).
Proof.
  intros Hm Hk w e. unfold bind. specialize (Hm w).
  destruct (m w) as [[a|e'] w1]; cbn in *.
  - apply Hk.
  - intros [= <-]. by apply Hm.
Qed.

Lemma raises_only_for_each {A} (body : A -> M W unit) xs :
  (forall x, raises_only P (body x)) -> raises_only P (for_each body xs).
Proof.
  intros Hb. induction xs as [|x xs IH]; cbn [for_each].
  - apply raises_only_ret.
  - apply raises_only_bind; [apply Hb | by intros _].
Qed.

End RaisesOnly.

Lemma read_bytes_raises p m e : FSOps.read_bytes p m = Raise e -> caught e = true.
Proof. unfold FSOps.read_bytes. destruct (m !! p) as [[c|]|]; by intros [= <-]. Qed.

Lemma write_bytes_raises p c m e : FSOps.write_bytes p c m = Raise e -> caught e = true.
Proof.
  unfold FSOps.write_bytes. destruct (m !! p) as [[c'|]|]; try by intros [= <-].
  all: destruct (removelast p); [done|];
    destruct (m !! _) as [[c''|]|]; by intros [= <-].
Qed.

Lemma calculate_sha256_raises m p e :
  Checksum.calculate_sha256 m p = Raise e -> caught e = true.
Proof.
  unfold Checksum.calculate_sha256. destruct (m !! p) as [[c|]|]; by intros [= <-].
Qed.

Lemma write_bytes_lookup_other p c m m' q :
  FSOps.write_bytes p c m = Ok m' -> q <> p -> m' !! q = m !! q.
Proof.
  unfold FSOps.write_bytes. intros Hrun Hq.
  assert (m' = <[p := FS.File c]> m) as ->.
  { destruct (m !! p) as [[c'|]|]; try done;
      destruct (removelast p); try (by injection Hrun as <-);
      destruct (m !! _) as [[c''|]|]; try done; by injection Hrun as <-. }
  by rewrite lookup_insert_ne.
Qed.

Section ReleaseInvariants.
Import Release.
Context {R : Type}.
Variable h : host.
Variable api : call -> R -> result unit * R.
Local Abbreviation W := (world BuildTarget call R).

Lemma publish_frame_refl (w : W) : publish_frame w w.
Proof. by split. Qed.

Lemma publish_frame_trans (w1 w2 w3 : W) :
  publish_frame w1 w2 -> publish_frame w2 w3 -> publish_frame w1 w3.
Proof.
  intros [Hb1 Hf1] [Hb2 Hf2]. split; [congruence|].
  intros p Hp. by rewrite Hf2, Hf1.
Qed.

Lemma github_frame c : preserves publish_frame (github api c : M W unit).
Proof. intros w. rewrite github_run. by split. Qed.

Lemma github_raises c :
  (forall c r e, fst (api c r) = Raise e -> caught e = true) ->
  raises_only (fun e => caught e = true) (github api c : M W unit).
Proof.
  intros Hapi w e. rewrite github_run. cbn [fst].
  destruct (fst (api c (w_remote w))) as [[]|e'] eqn:E; [done|].
  intros [= <-]. by apply (Hapi c (w_remote w)).
Qed.

Lemma upload_binary_frame b : preserves publish_frame (upload_binary api b : M W unit).
Proof.
  unfold upload_binary.
  apply (preserves_bind _ publish_frame_trans);
    [apply (preserves_fs_query _ publish_frame_refl)|].
  intros data. apply github_frame.
Qed.

Lemma upload_binary_raises b :
  (forall c r e, fst (api c r) = Raise e -> caught e = true) ->
  raises_only (fun e => caught e = true) (upload_binary api b : M W unit).
Proof.
  intros Hapi. unfold upload_binary. apply raises_only_bind.
  - intros w e. unfold fs_query. cbn [fst]. apply read_bytes_raises.
  - intros data. by apply github_raises.
Qed.

Lemma defender_reminder_raises binaries :
  raises_only (fun e => caught e = true) (defender_reminder (R:=R) binaries).
Proof.
  induction binaries as [|b bs IH]; [by intros w e|]. cbn [defender_reminder].
  destruct (String.eqb (goos (target b)) "windows"); [|done].
  intros w e. mstep.
  destruct (Checksum.calculate_sha256 (w_fs w) (path b)) as [s|e'] eqn:E; [done|].
  cbn [fst]. intros [= <-]. by apply calculate_sha256_raises in E.
Qed.

(** The body of [create_github_release], before the handler. *)
Lemma create_github_release_body version binaries draft :
  exists body : M W bool,
    create_github_release h api version binaries draft =
      try_except body (fun _ => ret false) /\
    preserves publish_frame body /\
    ((forall c r e, fst (api c r) = Raise e -> caught e = true) ->
     raises_only (fun e => caught e = true) body).
Proof.
  eexists. split; [reflexivity|]. split.
  - apply (preserves_bind _ publish_frame_trans); [apply github_frame|]. intros _.
    apply (preserves_bind _ publish_frame_trans); [apply github_frame|]. intros _.
    apply (preserves_bind _ publish_frame_trans);
      [apply (preserves_for_each _ publish_frame_refl publish_frame_trans);
       intros; apply upload_binary_frame|]. intros _.
    apply (preserves_bind _ publish_frame_trans).
    { intros w. unfold fs_update.
      destruct (FSOps.write_bytes _ _ (w_fs w)) as [m'|e] eqn:E; cbn [snd];
        [|apply publish_frame_refl].
      split; [done|]. intros p Hp. cbn [w_fs].
      by apply (write_bytes_lookup_other _ _ _ _ p E). }
    intros _.
    apply (preserves_bind _ publish_frame_trans);
      [apply (preserves_fs_query _ publish_frame_refl)|]. intros data.
    apply (preserves_bind _ publish_frame_trans); [apply github_frame|]. intros _.
    apply (preserves_bind _ publish_frame_trans);
      [|intros; apply (preserves_ret _ publish_frame_refl)].
    intros w. rewrite defender_reminder_quiet. apply publish_frame_refl.
  - intros Hapi.
    apply raises_only_bind; [by apply github_raises|]. intros _.
    apply raises_only_bind; [by apply github_raises|]. intros _.
    apply raises_only_bind;
      [apply raises_only_for_each; intros; by apply upload_binary_raises|]. intros _.
    apply raises_only_bind.
    { intros w e. unfold fs_update.
      destruct (FSOps.write_bytes _ _ (w_fs w)) as [m'|e'] eqn:E; cbn [fst]; [done|].
      intros [= <-]. by apply write_bytes_raises in E. }
    intros _.
    apply raises_only_bind.
    { intros w e. unfold fs_query. cbn [fst]. apply read_bytes_raises. }
    intros data.
    apply raises_only_bind; [by apply github_raises|]. intros _.
    apply raises_only_bind; [apply defender_reminder_raises|]. intros _.
    apply raises_only_ret.
Qed.

End ReleaseInvariants.

(** X6: whatever the hosting service answers, [create_github_release]
    leaves every file but [dist/checksums.txt] as it was, the built
    binaries among them, and starts no compiler. *)
Theorem create_github_release_frame {R : Type} (h : Release.host)
    (api : Release.call -> R -> result unit * R)
    (version : string) (binaries : list Release.binary_info) (draft : bool)
    (w : world Release.BuildTarget Release.call R) :
  let w' := snd (Release.create_github_release h api version binaries draft w) in
  w_builds w' = w_builds w /\
  forall p, p <> [Release.BUILD_DIR; "checksums.txt"] -> w_fs w' !! p = w_fs w !! p.
Proof.
  destruct (create_github_release_body h api version binaries draft)
    as (body & -> & Hframe & _).
  apply (preserves_try_except _ publish_frame_trans body (fun _ => ret false) Hframe).
  intros e. apply (preserves_ret _ publish_frame_refl).
Qed.

(** X7: [create_github_release] answers by its return value: when the
    hosting service fails only with exceptions, not by ending the
    process, and the files are read and written without ending the
    process either, the call returns [True] or [False] and raises
    nothing. *)
Theorem create_github_release_returns {R : Type} (h : Release.host)
    (api : Release.call -> R -> result unit * R)
    (version : string) (binaries : list Release.binary_info) (draft : bool)
    (w : world Release.BuildTarget Release.call R) :
  (forall c r e, fst (api c r) = Raise e -> caught e = true) ->
  exists b, fst (Release.create_github_release h api version binaries draft w) = Ok b.
Proof.
  intros Hapi.
  destruct (create_github_release_body h api version binaries draft)
    as (body & -> & _ & Hraises).
  specialize (Hraises Hapi w). unfold try_except.
  destruct (body w) as [[b|e] w1]; cbn [fst] in *; [by exists b|].
  specialize (Hraises e eq_refl). destruct e; try done; by exists false.
Qed.

Lemma create_github_release_returns_witness :
  exists b,
    fst (Release.create_github_release Fixtures.linux_only Fixtures.refusing
           "v1.0.0" [Fixtures.linux_binary] false (World ∅ [] [] tt)) = Ok b.
Proof.
  apply (create_github_release_returns Fixtures.linux_only Fixtures.refusing
           "v1.0.0" [Fixtures.linux_binary] false (World ∅ [] [] tt)).
  intros c r e. unfold Fixtures.refusing. cbn [fst]. by intros [= <-].
Defined.

(** ** The token step of [main] *)

(** An empty [--token] is no token: [main] goes on to [Path(None)],
    which is a [TypeError] outside the [try], and the process ends with
    status 1 before anything is compiled. *)
Example main_of_empty_token :
  let w := World ∅ [] [] tt in
  Release.main_of Fixtures.linux_only Fixtures.accepting Release.BUILD_TARGETS
    (Release.Args "v1.0.0" (Release.Token "") false false) w
  = (Raise (TypeError "Path(None)"), w).
Proof. reflexivity. Qed.

(** A token file whose bytes do not decode ends the process the same
    way, by [read_text]. *)
Example main_of_undecodable_token_file :
  let w := World (<[ [".github_token"] := FS.File [Byte.xff] ]> ∅) [] [] tt in
  let run := Release.main_of Fixtures.linux_only Fixtures.accepting Release.BUILD_TARGETS
               (Release.Args "v1.0.0" (Release.TokenFile [".github_token"]) false false) w in
  fst run = Raise (UnicodeDecodeError "read_text") /\ snd run = w /\
  exit_status (fst run) = 1%Z.
Proof. by vm_compute. Qed.
